(** * ofxstatement-spardabank: the reference decoder and the transaction assembler

    A shallow embedding of [src/ofxstatement_spardabank/plugin.py].

    The plugin opens its input with [encoding="latin1"], so every character of
    every string it handles is a code point below 256.  A Python [str] is
    therefore modelled as a [string] whose [ascii] elements are Latin-1 code
    points (the letter U-umlaut is the single character 220, not the two bytes
    of its UTF-8 form). *)

From Stdlib Require Import Ascii String List ZArith Lia Bool DecimalString.
From stdpp Require Import base gmap strings list option.

Local Open Scope nat_scope.

(** ** Python string primitives *)

Module Py.

(** [str.isspace] on one Latin-1 character: the characters [str.strip()]
    removes and the regular-expression class [\s] accepts. *)
Definition isspace (c : ascii) : bool :=
  let n := nat_of_ascii c in
  ((9 <=? n) && (n <=? 13)) || ((28 <=? n) && (n <=? 32))
  || (n =? 133) || (n =? 160).

Definition in_range (lo hi : ascii) (c : ascii) : bool :=
  (nat_of_ascii lo <=? nat_of_ascii c) && (nat_of_ascii c <=? nat_of_ascii hi).

Definition is_ascii_digit (c : ascii) : bool := in_range "0" "9" c.
Definition is_ascii_upper (c : ascii) : bool := in_range "A" "Z" c.

(** The class [\w] of a [str] pattern, restricted to Latin-1: letters, digits
    and the underscore, the accented letters 192..255 without the two
    arithmetic signs 215 and 247, the ordinal indicators and micro sign, and
    the superscript digits and vulgar fractions ([str.isalnum] is true of
    them). *)
Definition isword (c : ascii) : bool :=
  let n := nat_of_ascii c in
  is_ascii_digit c || is_ascii_upper c || in_range "a" "z" c || (n =? 95)
  || (n =? 170) || (n =? 178) || (n =? 179) || (n =? 181) || (n =? 185)
  || (n =? 186) || ((188 <=? n) && (n <=? 190))
  || ((192 <=? n) && (n <=? 214)) || ((216 <=? n) && (n <=? 246))
  || ((248 <=? n) && (n <=? 255)).

Fixpoint lstrip (s : string) : string :=
  match s with
  | String c s' => if isspace c then lstrip s' else s
  | EmptyString => EmptyString
  end.

Fixpoint rstrip (s : string) : string :=
  match s with
  | String c s' =>
      match rstrip s' with
      | EmptyString => if isspace c then EmptyString else String c EmptyString
      | r => String c r
      end
  | EmptyString => EmptyString
  end.

(** [s.strip()] *)
Definition strip (s : string) : string := rstrip (lstrip s).

(** [s[i:j]] for [0 <= i <= j]; Python clamps both ends to the length. *)
Definition slice (s : string) (i j : nat) : string := substring i (j - i) s.

(** [s[i:]] *)
Definition slice_from (s : string) (i : nat) : string :=
  substring i (String.length s - i) s.

(** [s[:i]] *)
Definition slice_to (s : string) (i : nat) : string := substring 0 i s.

(** [s.endswith(suffix)] *)
Definition endswith (s suffix : string) : bool :=
  (String.length suffix <=? String.length s)
  && String.eqb (slice_from s (String.length s - String.length suffix)) suffix.

(** [s[: -len(suffix)]] for a non-empty [suffix]: a negative end counts from
    the right and is clamped at 0. *)
Definition drop_suffix_len (s suffix : string) : string :=
  slice_to s (String.length s - String.length suffix).

(** [needle in haystack] *)
Fixpoint contains (needle haystack : string) : bool :=
  String.prefix needle haystack
  || match haystack with
     | String _ h' => contains needle h'
     | EmptyString => false
     end.

(** [s.replace(c, t)] for a one-character pattern [c]. *)
Fixpoint replace1 (c : ascii) (t : string) (s : string) : string :=
  match s with
  | String d s' =>
      if Ascii.eqb c d then t +:+ replace1 c t s' else String d (replace1 c t s')
  | EmptyString => EmptyString
  end.

(** Truthiness of an optional string: [if value := d.get(k)] takes the branch
    only for a value that is present and not empty. *)
Definition truthy (o : option string) : option string :=
  match o with
  | Some EmptyString => None
  | Some v => Some v
  | None => None
  end.

(** [dict(pairs)]: a later pair with the same key replaces an earlier one. *)
Definition dict (pairs : list (string * string)) : gmap string string :=
  foldl (fun m kv => <[kv.1 := kv.2]> m) ∅ pairs.

(** [acc] behind the characters of [s] in reverse; used to compare the ends
    of two texts. *)
Fixpoint rev_onto (s acc : string) : string :=
  match s with
  | String c s' => rev_onto s' (String c acc)
  | EmptyString => acc
  end.

End Py.

(** ** A backtracking matcher for the patterns of the plugin

    The two patterns of the source repeat single character classes only, so
    repetition consumes one character per round and the matcher is structural
    in the text.  Alternatives are tried in the order the [re] module tries
    them: a greedy repetition takes one more character before it tries to
    stop, a lazy one stops before it takes more, the left branch of [|] comes
    before the right one.  The first complete match found in that order is
    the match. *)

Module Re.

Inductive charclass :=
| CAny                       (* .      any character but the newline *)
| CSpace                     (* \s *)
| CRange (lo hi : ascii)     (* [a-b], \d is [0-9] on Latin-1 text *)
| CChar (c : ascii).

Definition in_class (cc : charclass) (c : ascii) : bool :=
  match cc with
  | CAny => negb (Ascii.eqb c "010")
  | CSpace => Py.isspace c
  | CRange lo hi => Py.in_range lo hi c
  | CChar d => Ascii.eqb d c
  end.

Inductive regex :=
| Lit (s : string)
| Rep (cc : charclass) (lo : nat) (hi : option nat) (greedy : bool)
| Seq (r1 r2 : regex)
| Alt (r1 r2 : regex)
| Group (name : string) (r : regex)
| Bound.                     (* \b *)

Definition captures := list (string * string).

(** The matcher's position: the character before it (for [\b]), the number
    of characters consumed since the start of the match, the text ahead. *)
Record mstate := MState { prev : option ascii; pos : nat; rest : string }.

Definition word_boundary (p : option ascii) (s : string) : bool :=
  let before := match p with Some c => Py.isword c | None => false end in
  let after := match s with String c _ => Py.isword c | EmptyString => false end in
  xorb before after.

Notation "x <|> y" :=
  (match x with Some a => Some a | None => y end)
  (at level 55, right associativity, only parsing).

Section Matcher.
Context {A : Type}.

Fixpoint lit (l : string) (st : mstate) : option mstate :=
  match l with
  | EmptyString => Some st
  | String c l' =>
      match rest st with
      | String d r =>
          if Ascii.eqb c d then lit l' (MState (Some d) (S (pos st)) r) else None
      | EmptyString => None
      end
  end.

Definition may_take (hi : option nat) : bool :=
  match hi with Some 0 => false | _ => true end.

Fixpoint rep (cc : charclass) (greedy : bool) (lo : nat) (hi : option nat)
    (p : option ascii) (n : nat) (s : string) (k : mstate -> option A) : option A :=
  let stop := fun _ : unit =>
    match lo with 0 => k (MState p n s) | S _ => None end in
  let more := fun _ : unit =>
    match s with
    | String c s' =>
        if in_class cc c && may_take hi
        then rep cc greedy (Nat.pred lo) (Nat.pred <$> hi) (Some c) (S n) s' k
        else None
    | EmptyString => None
    end in
  if greedy then more tt <|> stop tt else stop tt <|> more tt.

Fixpoint exec (r : regex) (st : mstate) (caps : captures)
    (k : mstate -> captures -> option A) : option A :=
  match r with
  | Lit l =>
      match lit l st with Some st' => k st' caps | None => None end
  | Rep cc lo hi greedy =>
      rep cc greedy lo hi (prev st) (pos st) (rest st) (fun st' => k st' caps)
  | Seq r1 r2 =>
      exec r1 st caps (fun st' caps' => exec r2 st' caps' k)
  | Alt r1 r2 =>
      exec r1 st caps k <|> exec r2 st caps k
  | Group name r1 =>
      exec r1 st caps (fun st' caps' =>
        k st' (caps' ++ [(name, substring 0 (pos st' - pos st) (rest st))]))
  | Bound =>
      if word_boundary (prev st) (rest st) then k st caps else None
  end.

End Matcher.

(** One attempt at the current position: the length of the match and its
    groups. *)
Definition match_here (r : regex) (p : option ascii) (s : string)
    : option (nat * captures) :=
  exec r (MState p 0 s) [] (fun st caps => Some (pos st, caps)).

(** A match object: [span()] and the groups. *)
Record rmatch := RMatch { m_start : nat; m_end : nat; m_groups : captures }.

(** [m.group(name)]: the text the group matched last. *)
Fixpoint group (name : string) (caps : captures) : option string :=
  match caps with
  | [] => None
  | (n, v) :: caps' =>
      match group name caps' with
      | Some w => Some w
      | None => if String.eqb n name then Some v else None
      end
  end.

(** The named groups of a pattern, in the order of their opening
    parentheses. *)
Fixpoint group_names (r : regex) : list string :=
  match r with
  | Seq r1 r2 | Alt r1 r2 => group_names r1 ++ group_names r2
  | Group name r1 => name :: group_names r1
  | _ => []
  end.

(** [m.groupdict().items()]; every group of the patterns below lies on every
    path through its pattern, so none is ever unset. *)
Definition groupdict_items (r : regex) (m : rmatch) : list (string * string) :=
  map (fun name => (name, default EmptyString (group name (m_groups m))))
      (group_names r).

(** [re.search(r, s)]: the leftmost position with a match. *)
Fixpoint search_from (r : regex) (p : option ascii) (s : string) (start : nat)
    : option rmatch :=
  match match_here r p s with
  | Some (n, caps) => Some (RMatch start (start + n) caps)
  | None =>
      match s with
      | String c s' => search_from r (Some c) s' (S start)
      | EmptyString => None
      end
  end.

Definition search (r : regex) (s : string) : option rmatch :=
  search_from r None s 0.

(** [re.finditer(r, s)] for a pattern that matches no empty text: the
    matches from left to right, each search resuming where the previous match
    ended.  [skip] counts the characters of the last match still to pass. *)
Fixpoint finditer_from (r : regex) (p : option ascii) (s : string)
    (start skip : nat) : list rmatch :=
  match skip with
  | S skip' =>
      match s with
      | String c s' => finditer_from r (Some c) s' (S start) skip'
      | EmptyString => []
      end
  | 0 =>
      match match_here r p s with
      | Some (n, caps) =>
          RMatch start (start + n) caps ::
          match s with
          | String c s' => finditer_from r (Some c) s' (S start) (Nat.pred n)
          | EmptyString => []
          end
      | None =>
          match s with
          | String c s' => finditer_from r (Some c) s' (S start) 0
          | EmptyString => []
          end
      end
  end.

Definition finditer (r : regex) (s : string) : list rmatch :=
  finditer_from r None s 0 0.

(** Shorthands for the pattern syntax. *)
Definition digits (n : nat) : regex := Rep (CRange "0" "9") n (Some n) true.
Definition uppers (n : nat) : regex := Rep (CRange "A" "Z") n (Some n) true.
Definition star (cc : charclass) : regex := Rep cc 0 None true.
Definition plus (cc : charclass) : regex := Rep cc 1 None true.
Definition seq (rs : list regex) : regex := foldr Seq (Lit EmptyString) rs.

End Re.

(** ** The language of a pattern *)

Module ReSem.
Import Re.

Fixpoint all_in_class (cc : charclass) (t : string) : Prop :=
  match t with
  | String c t' => in_class cc c = true /\ all_in_class cc t'
  | EmptyString => True
  end.

(** [matches r t caps]: the text [t] belongs to [r], and matching it sets the
    groups [caps], in the order the groups close. *)
Inductive matches : regex -> string -> captures -> Prop :=
| matches_lit l : matches (Lit l) l []
| matches_rep cc lo hi greedy t :
    lo <= String.length t ->
    (forall h, hi = Some h -> String.length t <= h) ->
    all_in_class cc t ->
    matches (Rep cc lo hi greedy) t []
| matches_seq r1 r2 t1 t2 c1 c2 :
    matches r1 t1 c1 -> matches r2 t2 c2 ->
    matches (Seq r1 r2) (t1 +:+ t2) (c1 ++ c2)
| matches_alt_l r1 r2 t c : matches r1 t c -> matches (Alt r1 r2) t c
| matches_alt_r r1 r2 t c : matches r2 t c -> matches (Alt r1 r2) t c
| matches_group name r t c :
    matches r t c -> matches (Group name r) t (c ++ [(name, t)])
| matches_bound : matches Bound EmptyString [].

(** [st'] is [st] after the text [t]. *)
Definition consumed (st st' : mstate) (t : string) : Prop :=
  rest st = t +:+ rest st' /\ pos st' = pos st + String.length t.

(** The groups that lie on every path through a pattern. *)
Fixpoint sure_groups (r : regex) : list string :=
  match r with
  | Seq r1 r2 => sure_groups r1 ++ sure_groups r2
  | Group name r1 => name :: sure_groups r1
  | _ => []
  end.

(** A pattern without [\b]. *)
Fixpoint bound_free (r : regex) : bool :=
  match r with
  | Seq r1 r2 | Alt r1 r2 => bound_free r1 && bound_free r2
  | Group _ r1 => bound_free r1
  | Bound => false
  | _ => true
  end.

(** The matcher's position after the text [t], with [s] left ahead. *)
Fixpoint after (p : option ascii) (n : nat) (t s : string) : mstate :=
  match t with
  | String c t' => after (Some c) (S n) t' s
  | EmptyString => MState p n s
  end.

(** The groups of a pattern with the pattern each encloses, in the order of
    their opening parentheses. *)
Fixpoint groups_of (r : regex) : list (string * regex) :=
  match r with
  | Seq r1 r2 | Alt r1 r2 => groups_of r1 ++ groups_of r2
  | Group name r1 => (name, r1) :: groups_of r1
  | _ => []
  end.

(** Some part of [s] is a text of [r]. *)
Definition occurs (r : regex) (s : string) : Prop :=
  exists a t b c, s = a +:+ t +:+ b /\ matches r t c.

End ReSem.

(** ** The reference decoder *)

(** The three transaction-type labels; the first is [SEPA-] followed by
    U-umlaut (code point 220) and [BERWEISUNG]. *)
Definition SEPA_UEBERWEISUNG : string := "SEPA-" +:+ String "220" "BERWEISUNG".
Definition SEPA_LOHN_GEHALT : string := "SEPA-LOHN/GEHALT".
Definition SEPA_BASISLASTSCHRIFT : string := "SEPA-BASISLASTSCHRIFT".

(** [SepaField]: the value of each member. *)
Module SepaField.
Definition END_TO_END_REF : string := "EREF+".
Definition CUSTOMER_REF : string := "KREF+".
Definition MANDATE_REF : string := "MREF+".
Definition CREDITOR_ID : string := "CRED+".
Definition ORIGINATOR_ID : string := "DEBT+".
Definition IBAN : string := "IBAN+".
Definition BIC : string := "BIC+".
Definition REF : string := "SVWZ+".
Definition DIFFERENT_ORIGINATOR : string := "ABWA+".
Definition DIFFERENT_RECIPIENT : string := "ABWE+".
End SepaField.

(** [r"\b([A-Z]{3,4}\+) "]; its one group has the number 1. *)
Definition tag_re : Re.regex :=
  Re.seq [ Re.Bound;
           Re.Group "1" (Re.seq [Re.Rep (Re.CRange "A" "Z") 3 (Some 4) true; Re.Lit "+"]);
           Re.Lit " " ].

(** The card-payment pattern of [parse_default_field], piece by piece in the
    order of the source. *)
Definition card_re : Re.regex :=
  Re.seq [
    Re.Group "card_payment_reference" (Re.star Re.CAny);
    Re.Group "card_payment_datetime"
      (Re.seq [Re.digits 2; Re.Lit "."; Re.digits 2; Re.Lit "."; Re.digits 4; Re.Lit " ";
               Re.digits 2; Re.Lit "."; Re.digits 2; Re.Lit "."; Re.digits 2]);
    Re.Lit " ";
    Re.Alt (Re.Lit "OFFLIN") (Re.digits 6);
    Re.Lit " ";
    Re.Group "card_payment_currency" (Re.uppers 3);
    Re.plus Re.CSpace;
    Re.Group "card_payment_amount"
      (Re.seq [Re.Rep (Re.CChar "-") 0 (Some 1) true; Re.plus (Re.CRange "0" "9");
               Re.Lit ","; Re.digits 2]);
    Re.Lit " ";
    Re.Lit "EC"; Re.plus Re.CSpace; Re.star (Re.CRange "A" "Z");
    Re.plus (Re.CRange "0" "9"); Re.star Re.CSpace; Re.star (Re.CRange "0" "9");
    Re.star Re.CSpace;
    Re.Lit "PAN "; Re.Group "pan" (Re.plus (Re.CRange "0" "9")); Re.Lit " ";
    Re.Group "recipient" (Re.Rep Re.CAny 0 None false); Re.digits 3; Re.Lit " ";
    Re.Group "card_expiration" (Re.seq [Re.digits 2; Re.Lit "/"; Re.digits 4]);
    Re.Lit " ";
    Re.Group "type" (Re.Alt (Re.Lit "GIROCARD") (Re.Lit "nicht GIRO"));
    Re.Lit " ";
    Re.Group "card_data_entry_method" (Re.uppers 4);
    Re.Lit "/";
    Re.Group "card_payment_auth_method" (Re.uppers 4);
    Re.plus (Re.CChar "/"); Re.star (Re.CRange "0" "9") ].

(** The [while] loop of [remove_superfluous_reference_whitespace]; every
    round moves [i] on by 54, so [fuel] rounds are enough once
    [fuel >= len(value) - i]. *)
Fixpoint remove_superfluous_loop (fuel : nat) (i : nat) (value : string) : string :=
  match fuel with
  | 0 => value
  | S fuel' =>
      if i <? String.length value then
        let value' :=
          match String.get i value with
          | Some c =>
              if Ascii.eqb c " "
              then Py.slice_to value i +:+ Py.slice_from value (i + 1)
              else value
          | None => value
          end in
        remove_superfluous_loop fuel' (i + 54) value'
      else value
  end.

Definition remove_superfluous_reference_whitespace (value : string) : string :=
  remove_superfluous_loop (String.length value) 53 value.

(** The scan in the words of its contract: from position [i], while the
    position lies inside the text, a blank at it is cut out and the scan goes
    on 54 positions further in the text as it now is. *)
Inductive scan_result : nat -> string -> string -> Prop :=
| scan_done i value :
    String.length value <= i -> scan_result i value value
| scan_cut i value out :
    i < String.length value ->
    String.get i value = Some " "%char ->
    scan_result (i + 54) (Py.slice_to value i +:+ Py.slice_from value (i + 1)) out ->
    scan_result i value out
| scan_keep i value out :
    i < String.length value ->
    String.get i value <> Some " "%char ->
    scan_result (i + 54) value out ->
    scan_result i value out.

Definition type_suffixes : list string :=
  [SEPA_UEBERWEISUNG; SEPA_LOHN_GEHALT; SEPA_BASISLASTSCHRIFT].

Definition parse_default_field (value : string) : string * list (string * string) :=
  match find (fun suffix => Py.endswith value suffix) type_suffixes with
  | Some suffix =>
      (EmptyString,
       [("recipient", Py.drop_suffix_len value suffix); ("type", suffix)])
  | None =>
      match Re.search card_re value with
      | Some m => (Py.slice_to value (Re.m_start m), Re.groupdict_items card_re m)
      | None => (value, [])
      end
  end.

(** What one segment of [parse_reference_fields] yields: the [default]
    segment goes through [parse_default_field] and yields the derived fields
    before its own pair. *)
Definition yield_segment (field value : string) : list (string * string) :=
  if String.eqb field "default" then
    let '(value', other_fields) := parse_default_field value in
    other_fields ++ [(field, value')]
  else [(field, value)].

(** [match.group(1)], the tag a match hands to the next segment. *)
Definition tag_of (m : Re.rmatch) : string :=
  default EmptyString (Re.group "1" (Re.m_groups m)).

(** The [for] loop of [parse_reference_fields] over the matches, then the
    last segment. *)
Fixpoint reference_segments (reference field : string) (start : nat)
    (matches : list Re.rmatch) : list (string * string) :=
  match matches with
  | m :: matches' =>
      yield_segment field (Py.strip (Py.slice reference start (Re.m_start m)))
      ++ reference_segments reference (tag_of m) (Re.m_end m) matches'
  | [] => yield_segment field (Py.strip (Py.slice_from reference start))
  end.

(** [parse_reference_fields]: everything the generator yields, in order. *)
Definition parse_reference_fields (reference : string) : list (string * string) :=
  reference_segments reference "default" 0 (Re.finditer tag_re reference).

(** A tag: three or four capitals and the plus sign. *)
Definition is_tag (t : string) : Prop :=
  exists u, t = u +:+ "+" /\ 3 <= String.length u <= 4
            /\ ReSem.all_in_class (Re.CRange "A" "Z") u.

(** The pairs with the tag [default]. *)
Definition defaults (l : list (string * string)) : list (string * string) :=
  filter (fun kv : string * string => kv.1 = "default") l.

(** The text without its blanks. *)
Fixpoint drop_blanks (s : string) : string :=
  match s with
  | String c s' => if Ascii.eqb c " " then drop_blanks s' else String c (drop_blanks s')
  | EmptyString => EmptyString
  end.

(** The text of the [default] segment of a reference: what stands before the
    first tag marker, trimmed. *)
Definition first_segment (reference : string) : string :=
  Py.strip match Re.finditer tag_re reference with
           | m :: _ => Py.slice reference 0 (Re.m_start m)
           | [] => Py.slice_from reference 0
           end.

(** The value of the last pair with the key [k]. *)
Fixpoint last_value (k : string) (l : list (string * string)) : option string :=
  match l with
  | [] => None
  | (k', v) :: l' =>
      match last_value k l' with
      | Some w => Some w
      | None => if String.eqb k' k then Some v else None
      end
  end.

(** A tokenized text put together again: each piece behind its tag and the
    blank that ends the marker. *)
Fixpoint join_tagged (pieces : list (string * string)) : string :=
  match pieces with
  | (tag, raw) :: pieces' => tag +:+ " " +:+ raw +:+ join_tagged pieces'
  | [] => EmptyString
  end.

(** The text between two cuts of the tokenizer: from [start] up to the next
    marker match, or to the end of the reference when there is none. *)
Definition head_piece (reference : string) (start : nat)
    (matches : list Re.rmatch) : string :=
  match matches with
  | m :: _ => Py.slice reference start (Re.m_start m)
  | [] => Py.slice_from reference start
  end.

(** For each marker match, in order: its tag and the text from its end up to
    the next match. *)
Fixpoint raw_pieces (reference : string) (matches : list Re.rmatch)
    : list (string * string) :=
  match matches with
  | m :: matches' =>
      (tag_of m, head_piece reference (Re.m_end m) matches')
      :: raw_pieces reference matches'
  | [] => []
  end.

(** [find_transaction_type]: [None] when no marker occurs. *)
Definition transaction_types : list (string * string) :=
  [ (SEPA_UEBERWEISUNG, "XFER"); (SEPA_LOHN_GEHALT, "XFER");
    (SEPA_BASISLASTSCHRIFT, "DIRECTDEBIT"); ("GIROCARD", "POS");
    ("nicht GIRO", "POS") ].

Definition find_transaction_type (haystack : string) : option string :=
  snd <$> find (fun nt => Py.contains (fst nt) haystack) transaction_types.

(** [AccountType] *)
Inductive AccountType := CHECKING | SAVINGS.

(** [find_account_type]: the type of the first product name the title
    contains, [None] when it contains none. *)
Definition account_types : list (string * AccountType) :=
  [ ("SpardaGiro", CHECKING); ("SpardaYoung", CHECKING);
    ("SpardaTagesgeld", SAVINGS) ].

Definition find_account_type (haystack : string) : option AccountType :=
  snd <$> find (fun nt => Py.contains (fst nt) haystack) account_types.

(** [find_account_type(title) or AccountType.CHECKING] in
    [parse_file_header]: a member of the enumeration is a non-empty string
    and so is true, the default stands in for [None] only. *)
Definition account_type_of (title : string) : AccountType :=
  default CHECKING (find_account_type title).

(** ** Values and exceptions *)

(** A [datetime.datetime]; [tzinfo] is [None] for a naive value. *)
Record datetime := DateTime {
  year : Z; month : Z; day : Z; hour : Z; minute : Z; second : Z;
  tzinfo : option string }.

Definition TIMEZONE : string := "Europe/Berlin".

(** [d.replace(tzinfo=tz)] *)
Definition replace_tzinfo (d : datetime) (tz : string) : datetime :=
  DateTime (year d) (month d) (day d) (hour d) (minute d) (second d) (Some tz).

(** The exceptions that leave [parse_record] and the parsing loop. *)
Inductive exn :=
| KeyError (key : string)
| ValueError
| InvalidOperation
| AssertionError.

Inductive result (A : Type) :=
| Ok (a : A)
| Raise (e : exn).
Arguments Ok {A} a.
Arguments Raise {A} e.

#[global] Instance result_ret : MRet result := fun A a => Ok a.
#[global] Instance result_bind : MBind result := fun A B f m =>
  match m with Ok a => f a | Raise e => Raise e end.
#[global] Instance result_fmap : FMap result := fun A B f m =>
  match m with Ok a => Ok (f a) | Raise e => Raise e end.

(** [s.encode("utf8")] on Latin-1 text: one byte below 128, two from there. *)
Definition encode_utf8_char (c : ascii) : list Byte.byte :=
  let n := nat_of_ascii c in
  if n <? 128 then [byte_of_ascii c]
  else [byte_of_ascii (ascii_of_nat (192 + n / 64));
        byte_of_ascii (ascii_of_nat (128 + n mod 64))].

Fixpoint encode_utf8 (s : string) : list Byte.byte :=
  match s with
  | String c s' => encode_utf8_char c ++ encode_utf8 s'
  | EmptyString => []
  end.

(** ** The libraries behind the assembler

    [datetime], [decimal], [hashlib], [schwifty] and [ofxstatement] are not
    part of the plugin.  The assembler is written against this interface, and
    what is proved about it holds for every behaviour of these calls.  A call
    that raises returns [None]. *)
Class Library := {
  (** [datetime.datetime.strptime(value, format)]; [None] is [ValueError]. *)
  strptime : string -> string -> option datetime;
  (** [d.strftime(format)] *)
  strftime : datetime -> string -> string;
  (** [decimal.Decimal] *)
  Decimal : Type;
  (** [decimal.Decimal(text)]; [None] is [decimal.InvalidOperation]. *)
  Decimal_of_str : string -> option Decimal;
  (** [str(d)], also what an f-string puts for [{d}]. *)
  Decimal_str : Decimal -> string;
  (** [d > 0.0]; [None] is the [InvalidOperation] a NaN raises when ordered. *)
  Decimal_gt_zero : Decimal -> option bool;
  (** [hashlib.new("sha1")], one [update], [hexdigest()] *)
  sha1_hexdigest : list Byte.byte -> string;
  (** [schwifty.IBAN] and [schwifty.BIC]; an object of either is never empty
      and so is true in a condition. *)
  IBAN : Type;
  BIC : Type;
  (** [schwifty.IBAN(text)]; [None] is a [SchwiftyException]. *)
  IBAN_of_str : string -> option IBAN;
  (** [schwifty.BIC(text)]; [None] is a [SchwiftyException]. *)
  BIC_of_str : string -> option BIC;
  (** [iban.bic]: the BIC of the IBAN's bank code, [None] when the registry
      has none. *)
  IBAN_bic : IBAN -> option BIC;
  (** [bic.branch_code] *)
  BIC_branch_code : BIC -> option string;
  (** The [trntype] of a [StatementLine] that its constructor has just
      built; the class of [ofxstatement] declares [CHECK] for it. *)
  StatementLine_trntype : option string }.

Section Assembler.
Context `{Library}.

(** [ofxstatement.statement.Currency] *)
Record Currency := { symbol : string }.

(** [ofxstatement.statement.BankAccount] *)
Record BankAccount := {
  bank_id : BIC; acct_id : IBAN; branch_id : option string }.

(** [ofxstatement.statement.StatementLine], the attributes the plugin
    touches. *)
Record StatementLine := {
  id : option string;
  date : option datetime;
  memo : option string;
  amount : option Decimal;
  payee : option string;
  date_user : option datetime;
  check_no : option string;
  trntype : option string;
  bank_account_to : option BankAccount;
  currency : option Currency }.

(** What [parse_record] writes to its logger. *)
Inductive log_record :=
| Debug_fields (fields : gmap string string)
| Warning_iban (value : string)
| Warning_bic (value : string)
| Warning_datetime (value : string).

(** A CSV data row, as [csv.DictReader] hands it over, is a
    [dict[str, str]]: a [gmap string string].  Its column names; the last is
    [W], a-umlaut (228), [hrung]. *)
Definition COL_BUCHUNGSTAG : string := "Buchungstag".
Definition COL_WERTSTELLUNGSTAG : string := "Wertstellungstag".
Definition COL_VERWENDUNGSZWECK : string := "Verwendungszweck".
Definition COL_UMSATZ : string := "Umsatz".
Definition COL_WAEHRUNG : string := String "W" (String "228" "hrung").

(** The marker of rows not yet executed: [* noch nicht ausgef], u-umlaut
    (252), [hrte Ums], a-umlaut (228), [tze]. *)
Definition NOT_YET_EXECUTED : string :=
  "* noch nicht ausgef" +:+ String "252" ("hrte Ums" +:+ String "228" "tze").

(** [line[key]] *)
Definition getitem (line : gmap string string) (key : string) : result string :=
  match line !! key with
  | Some v => Ok v
  | None => Raise (KeyError key)
  end.

(** [self.date_format] *)
Definition date_format : string := "%d.%m.%Y".

(** [SpardaBankParser.parse_datetime]: the library's
    [strptime(value, self.date_format)], then the time zone. *)
Definition parse_datetime (value : string) : result datetime :=
  match strptime value date_format with
  | Some d => Ok (replace_tzinfo d TIMEZONE)
  | None => Raise ValueError
  end.

(** [SpardaBankParser.parse_decimal] *)
Definition parse_decimal (value : string) : result Decimal :=
  match Decimal_of_str (Py.replace1 "," "." (Py.replace1 "." "" value)) with
  | Some d => Ok d
  | None => Raise InvalidOperation
  end.

(** The text the identifier hashes. *)
Definition id_text (reference : string) (amount : Decimal) (symbol : string) : string :=
  reference +:+ " " +:+ Decimal_str amount +:+ " " +:+ symbol.

Definition make_id (value_date : datetime) (reference : string)
    (amount : Decimal) (symbol : string) : string :=
  strftime value_date "%Y%m%d"
  +:+ sha1_hexdigest (encode_utf8 (id_text reference amount symbol)).

(** The loop over [[SepaField.REF, "card_payment_reference"]]: each field
    that has a non-empty value assigns the memo, the later after the
    earlier. *)
Definition memo_fields : list string := [SepaField.REF; "card_payment_reference"].

Definition override_memo (fields : gmap string string) (memo : string) : string :=
  foldl (fun memo field =>
           match Py.truthy (fields !! field) with
           | Some value => value
           | None => memo
           end)
        memo memo_fields.

(** The BIC of the counterparty: the [BIC+] field when it decodes. *)
Definition decode_bic (fields : gmap string string) : option BIC * list log_record :=
  match Py.truthy (fields !! SepaField.BIC) with
  | Some bic_value =>
      let bic_value := Py.replace1 " " "" bic_value in
      match BIC_of_str bic_value with
      | Some bic => (Some bic, [])
      | None => (None, [Warning_bic bic_value])
      end
  | None => (None, [])
  end.

(** The [IBAN+] block: the counterparty account, or nothing and a warning. *)
Definition decode_bank_account (fields : gmap string string)
    : option BankAccount * list log_record :=
  match Py.truthy (fields !! SepaField.IBAN) with
  | Some value =>
      let value := Py.replace1 " " "" value in
      match IBAN_of_str value with
      | None => (None, [Warning_iban value])
      | Some iban =>
          let '(bic, log) := decode_bic fields in
          let bic := match bic with Some b => Some b | None => IBAN_bic iban end in
          match bic with
          | Some b =>
              (Some {| bank_id := b; acct_id := iban;
                       branch_id := Py.truthy (BIC_branch_code b) |}, log)
          | None => (None, log)
          end
      end
  | None => (None, [])
  end.

Definition card_datetime_format : string := "%d.%m.%Y %H.%M.%S".

(** The [card_payment_datetime] block: the new [date_user], if any. *)
Definition decode_card_datetime (fields : gmap string string)
    : option datetime * list log_record :=
  match Py.truthy (fields !! "card_payment_datetime") with
  | Some value =>
      match strptime value card_datetime_format with
      | Some d => (Some d, [])
      | None => (None, [Warning_datetime value])
      end
  | None => (None, [])
  end.

(** [trntype] after the [type] block and before the fallback. *)
Definition classify (fields : gmap string string) : option string :=
  match Py.truthy (fields !! "type") with
  | Some value => find_transaction_type value
  | None => StatementLine_trntype
  end.

(** The fallback on the sign of the amount. *)
Definition classify_or_sign (fields : gmap string string) (amount : Decimal)
    : result string :=
  match classify fields with
  | Some t => Ok t
  | None =>
      match Decimal_gt_zero amount with
      | Some gt => Ok (if gt then "CREDIT" else "DEBIT")
      | None => Raise InvalidOperation
      end
  end.

(** [SpardaBankParser.parse_record]: the statement line and what was
    logged. *)
Definition parse_record (line : gmap string string) : result (StatementLine * list log_record) :=
  booking_date ← getitem line COL_BUCHUNGSTAG ≫= parse_datetime;
  value_date ← getitem line COL_WERTSTELLUNGSTAG ≫= parse_datetime;
  reference ← remove_superfluous_reference_whitespace
                <$> getitem line COL_VERWENDUNGSZWECK;
  amount ← getitem line COL_UMSATZ ≫= parse_decimal;
  symbol ← getitem line COL_WAEHRUNG;
  let fields := Py.dict (parse_reference_fields reference) in
  let '(bank_account, log_iban) := decode_bank_account fields in
  let '(card_datetime, log_datetime) := decode_card_datetime fields in
  trntype ← classify_or_sign fields amount;
  Ok ({| id := Some (make_id value_date reference amount symbol);
         date := Some value_date;
         memo := Some (override_memo fields reference);
         amount := Some amount;
         payee := Py.truthy (fields !! "recipient");
         date_user := Some (default booking_date card_datetime);
         check_no := Py.truthy (fields !! SepaField.END_TO_END_REF);
         trntype := Some trntype;
         bank_account_to := bank_account;
         currency := Some {| symbol := symbol |} |},
      Debug_fields fields :: log_iban ++ log_datetime).






(** The fields decoded from the purpose text of a row. *)
Definition fields_of (text : string) : gmap string string :=
  Py.dict (parse_reference_fields (remove_superfluous_reference_whitespace text)).

(** The statement line and the log for a row whose columns have been read. *)
Definition record_of (booking_date value_date : datetime) (text : string)
    (amt : Decimal) (sym trn : string) : StatementLine * list log_record :=
  let reference := remove_superfluous_reference_whitespace text in
  let fields := fields_of text in
  ({| id := Some (make_id value_date reference amt sym);
      date := Some value_date;
      memo := Some (override_memo fields reference);
      amount := Some amt;
      payee := Py.truthy (fields !! "recipient");
      date_user := Some (default booking_date (decode_card_datetime fields).1);
      check_no := Py.truthy (fields !! SepaField.END_TO_END_REF);
      trntype := Some trn;
      bank_account_to := (decode_bank_account fields).1;
      currency := Some {| symbol := sym |} |},
   Debug_fields fields
   :: (decode_bank_account fields).2 ++ (decode_card_datetime fields).2).

(** What it takes for [parse_record] to return: the five columns, two dates
    and an amount that parse, and a classification that does not raise. *)
Definition readable (line : gmap string string) (b w text u sym : string)
    (booking_date value_date : datetime) (amt : Decimal) (trn : string) : Prop :=
  line !! COL_BUCHUNGSTAG = Some b
  /\ line !! COL_WERTSTELLUNGSTAG = Some w
  /\ line !! COL_VERWENDUNGSZWECK = Some text
  /\ line !! COL_UMSATZ = Some u
  /\ line !! COL_WAEHRUNG = Some sym
  /\ parse_datetime b = Ok booking_date
  /\ parse_datetime w = Ok value_date
  /\ parse_decimal u = Ok amt
  /\ classify_or_sign (fields_of text) amt = Ok trn.


Definition executed (r : gmap string string) : Prop :=
  r !! COL_BUCHUNGSTAG <> Some NOT_YET_EXECUTED.

#[global] Instance executed_dec (r : gmap string string) : Decision (executed r) :=
  decide (r !! COL_BUCHUNGSTAG <> Some NOT_YET_EXECUTED).


End Assembler.

(** ** The header of a file

    [parse_file_header] reads the file through [csv.reader] and
    [csv.DictReader] objects that share it.  A reader takes from the file the
    lines of one record at a time, so the file is modelled by the records
    still ahead: a [list (list string)], one list of cells per record, the
    empty list for a blank line.  Each step returns the records it left. *)

(** The exceptions met where the file is read: the end of the file, a cell
    that is [None] where text is due (a [TypeError] from a function, an
    [AttributeError] from a method of the text), and those of [exn]. *)
Inductive file_exn :=
| StopIteration
| TypeError
| AttributeError
| Exn (e : exn).

Inductive outcome (A : Type) :=
| Returns (a : A)
| Raises (e : file_exn).
Arguments Returns {A} a.
Arguments Raises {A} e.

#[global] Instance outcome_ret : MRet outcome := fun A a => Returns a.
#[global] Instance outcome_bind : MBind outcome := fun A B f m =>
  match m with Returns a => f a | Raises e => Raises e end.

(** [next(reader)] for a [csv.reader] *)
Definition next_row (file : list (list string))
    : outcome (list string * list (list string)) :=
  match file with
  | row :: file' => Returns (row, file')
  | [] => Raises StopIteration
  end.

(** The loop of [DictReader.__next__] that passes over blank records:
    [row = next(self.reader)], then [while row == []: row = next(self.reader)]. *)
Fixpoint next_filled_row (file : list (list string))
    : outcome (list string * list (list string)) :=
  match file with
  | [] :: file' => next_filled_row file'
  | row :: file' => Returns (row, file')
  | [] => Raises StopIteration
  end.

(** The dictionary [DictReader.__next__] builds from the field names and a
    record: [dict(zip(fieldnames, row))], and [None] (the [restval]) under
    every field name the record is too short for.  The cells a longer record
    has left go under the key [None] and are out of reach of a text key. *)
Definition dict_row (fieldnames row : list string) : gmap string (option string) :=
  foldl (fun m kv => <[kv.1 := kv.2]> m) ∅
        (zip fieldnames
             (map Some row ++ replicate (length fieldnames - length row) None)).

(** [next(reader)] for a [csv.DictReader] made without field names: its
    first record gives the names, the next record that is not blank the
    values. *)
Definition next_dict (file : list (list string))
    : outcome (gmap string (option string) * list (list string)) :=
  '(fieldnames, file) ← next_row file;
  '(row, file) ← next_filled_row file;
  Returns (dict_row fieldnames row, file).

(** [row[key]] *)
Definition getitem_row (row : gmap string (option string)) (key : string)
    : outcome (option string) :=
  match row !! key with
  | Some v => Returns v
  | None => Raises (Exn (KeyError key))
  end.

(** [Ums], a-umlaut (228), [tze ab] and [Weitere gew], a-umlaut,
    [hlte Suchoptionen:]. *)
Definition COL_UMSAETZE_AB : string := "Ums" +:+ String "228" "tze ab".
Definition COL_ENDDATUM : string := "Enddatum".
Definition COL_KONTONUMMER : string := "Kontonummer".
Definition COL_SALDO : string := "Saldo".
Definition SEARCH_OPTIONS : string :=
  "Weitere gew" +:+ String "228" "hlte Suchoptionen:".

(** [Metadata]; the last three texts are [None] where the record of values
    was too short for their column. *)
Record Metadata := {
  title : string;
  customer_name : string;
  customer_number : string;
  start_date : datetime;
  end_date : datetime;
  account_number : option string;
  account_balance : option string;
  account_currency : option string;
  account_type : AccountType }.

Section Header.
Context `{Library}.

(** [datetime.datetime.strptime(value, "%d.%m.%Y").replace(tzinfo=TIMEZONE)]
    on a cell of the dictionary. *)
Definition header_date (value : option string) : outcome datetime :=
  match value with
  | None => Raises TypeError
  | Some text =>
      match strptime text "%d.%m.%Y" with
      | Some d => Returns (replace_tzinfo d TIMEZONE)
      | None => Raises (Exn ValueError)
      end
  end.

(** [row = next(reader)] followed by [assert len(row) == 0]. *)
Definition blank_row (file : list (list string)) : outcome (list (list string)) :=
  '(row, file) ← next_row file;
  match row with
  | [] => Returns file
  | _ => Raises (Exn AssertionError)
  end.

(** [row = next(reader)] followed by [assert len(row) == 2] and
    [assert row[0] == label]; the result is [row[1]]. *)
Definition labelled_row (label : string) (file : list (list string))
    : outcome (string * list (list string)) :=
  '(row, file) ← next_row file;
  match row with
  | [cell0; cell1] =>
      if String.eqb cell0 label then Returns (cell1, file)
      else Raises (Exn AssertionError)
  | _ => Raises (Exn AssertionError)
  end.

(** [parse_file_header]: the metadata and the records left in the file. *)
Definition parse_file_header (file : list (list string))
    : outcome (Metadata * list (list string)) :=
  '(row, file) ← next_row file;
  match row with
  | [title] =>
      let account_type := account_type_of title in
      file ← blank_row file;
      '(customer_name, file) ← labelled_row "Kontoinhaber:" file;
      '(customer_number, file) ← labelled_row "Kundennummer:" file;
      file ← blank_row file;
      '(row, file) ← next_dict file;
      start_date ← getitem_row row COL_UMSAETZE_AB ≫= header_date;
      end_date ← getitem_row row COL_ENDDATUM ≫= header_date;
      account_number ← getitem_row row COL_KONTONUMMER;
      account_balance ← getitem_row row COL_SALDO;
      account_currency ← getitem_row row COL_WAEHRUNG;
      '(row1, file) ← labelled_row SEARCH_OPTIONS file;
      if String.eqb row1 "keine" then
        file ← blank_row file;
        file ← blank_row file;
        Returns ({| title := title;
                    customer_name := customer_name;
                    customer_number := customer_number;
                    start_date := start_date;
                    end_date := end_date;
                    account_number := account_number;
                    account_balance := account_balance;
                    account_currency := account_currency;
                    account_type := account_type |}, file)
      else Raises (Exn AssertionError)
  | _ => Raises (Exn AssertionError)
  end.

End Header.

(** ** A data row with empty cells

    The rows [split_records] hands to [parse_record] come from a
    [csv.DictReader]: a column the record of a row is too short for has the
    cell [None] in the row's dictionary ([dict_row] above).  [parse_record]
    reads its five columns in the order of the source; the first cell that is
    [None] where a function expects text ends it. *)

Section Cells.
Context `{Library}.

(** An exception of [exn] among those of [file_exn]. *)
Definition lift_result {A : Type} (r : result A) : outcome A :=
  match r with
  | Ok a => Returns a
  | Raise e => Raises (Exn e)
  end.

(** [self.parse_datetime(cell)]: [strptime] refuses [None] with a
    [TypeError]. *)
Definition cell_datetime (cell : option string) : outcome datetime :=
  match cell with
  | Some value => lift_result (parse_datetime value)
  | None => Raises TypeError
  end.

(** [remove_superfluous_reference_whitespace(cell)]: [len(None)] is a
    [TypeError]. *)
Definition cell_reference (cell : option string) : outcome string :=
  match cell with
  | Some value => Returns value
  | None => Raises TypeError
  end.

(** [self.parse_decimal(cell)]: [None] has no method [replace], an
    [AttributeError]. *)
Definition cell_decimal (cell : option string) : outcome Decimal :=
  match cell with
  | Some value => lift_result (parse_decimal value)
  | None => Raises AttributeError
  end.

(** [parse_record] on a row with cells.  A currency cell that is [None]
    raises nothing: [Currency(symbol=None)] is built and the identifier
    hashes the text [None] in its place.  [StatementLine] has no value for
    such a line, and the result [None] stands for it; a row whose five cells
    are text gives the line of [parse_record]. *)
Definition parse_record_cells (line : gmap string (option string))
    : outcome (option (StatementLine * list log_record)) :=
  booking_date ← getitem_row line COL_BUCHUNGSTAG ≫= cell_datetime;
  value_date ← getitem_row line COL_WERTSTELLUNGSTAG ≫= cell_datetime;
  text ← getitem_row line COL_VERWENDUNGSZWECK ≫= cell_reference;
  amount ← getitem_row line COL_UMSATZ ≫= cell_decimal;
  currency ← getitem_row line COL_WAEHRUNG;
  trntype ← lift_result (classify_or_sign (fields_of text) amount);
  Returns match currency with
          | Some symbol =>
              Some (record_of booking_date value_date text amount symbol trntype)
          | None => None
          end.

End Cells.

(** ** A concrete library for closed examples

    A small instance of [Library] on which the assembler can be run: SHA-1
    after FIPS 180, [strptime] through the regular expressions CPython's
    [_strptime] builds for the two formats of the plugin, decimals in
    fixed-point notation, German IBANs and BICs with a bank registry of one
    entry, and the transaction type [CHECK] that [ofxstatement] presets.
    The theorems below do not depend on it. *)

Module SHA1.
Local Open Scope Z_scope.

Definition mask32 (x : Z) : Z := Z.land x 4294967295.
Definition add32 (x y : Z) : Z := mask32 (x + y).
Definition rotl (n x : Z) : Z :=
  mask32 (Z.lor (Z.shiftl x n) (Z.shiftr x (32 - n))).
Definition not32 (x : Z) : Z := Z.lxor x 4294967295.

(** The message, the byte 128, zeros up to 56 modulo 64, the bit length on
    eight bytes. *)
Definition be_bytes (width : nat) (x : Z) : list Z :=
  map (fun i => Z.land (Z.shiftr x (8 * Z.of_nat i)) 255) (rev (seq 0 width)).

Definition pad (msg : list Z) : list Z :=
  let len := Z.of_nat (length msg) in
  let zeros := Z.to_nat ((55 - len) mod 64) in
  msg ++ [128] ++ repeat 0 zeros ++ be_bytes 8 (8 * len).

Fixpoint words (bs : list Z) : list Z :=
  match bs with
  | a :: b :: c :: d :: bs' =>
      (Z.shiftl a 24 + Z.shiftl b 16 + Z.shiftl c 8 + d) :: words bs'
  | _ => []
  end.

(** The schedule, latest word first. *)
Fixpoint expand (n : nat) (w : list Z) : list Z :=
  match n with
  | O => w
  | S n' =>
      let x := Z.lxor (Z.lxor (nth 2 w 0) (nth 7 w 0))
                      (Z.lxor (nth 13 w 0) (nth 15 w 0)) in
      expand n' (rotl 1 x :: w)
  end.

Definition hstate : Type := Z * Z * Z * Z * Z.

Definition round (t : nat) (st : hstate) (wt : Z) : hstate :=
  let '(a, b, c, d, e) := st in
  let '(f, k) :=
    if (t <? 20)%nat then (Z.lor (Z.land b c) (Z.land (not32 b) d), 1518500249)
    else if (t <? 40)%nat then (Z.lxor (Z.lxor b c) d, 1859775393)
    else if (t <? 60)%nat then
      (Z.lor (Z.lor (Z.land b c) (Z.land b d)) (Z.land c d), 2400959708)
    else (Z.lxor (Z.lxor b c) d, 3395469782) in
  (add32 (add32 (add32 (add32 (rotl 5 a) f) e) k) wt, a, rotl 30 b, c, d).

Fixpoint rounds (t : nat) (st : hstate) (w : list Z) : hstate :=
  match w with
  | [] => st
  | wt :: w' => rounds (S t) (round t st wt) w'
  end.

Definition block (h : hstate) (w16 : list Z) : hstate :=
  let '(a, b, c, d, e) := rounds 0 h (rev (expand 64 (rev w16))) in
  let '(h0, h1, h2, h3, h4) := h in
  (add32 h0 a, add32 h1 b, add32 h2 c, add32 h3 d, add32 h4 e).

Fixpoint blocks (fuel : nat) (h : hstate) (ws : list Z) : hstate :=
  match fuel, ws with
  | S fuel', _ :: _ => blocks fuel' (block h (firstn 16 ws)) (skipn 16 ws)
  | _, _ => h
  end.

Definition hex_digit (x : Z) : ascii :=
  if x <? 10 then ascii_of_nat (48 + Z.to_nat x) else ascii_of_nat (87 + Z.to_nat x).

Definition hex32 (x : Z) : string :=
  string_of_list_ascii
    (map (fun i => hex_digit (Z.land (Z.shiftr x (4 * Z.of_nat i)) 15))
         (rev (seq 0 8))).

Definition hexdigest (msg : list Byte.byte) : string :=
  let ws := words (pad (map (fun b => Z.of_N (Byte.to_N b)) msg)) in
  let '(h0, h1, h2, h3, h4) :=
    blocks (length ws)
      (1732584193, 4023233417, 2562383102, 271733878, 3285377520) ws in
  hex32 h0 +:+ hex32 h1 +:+ hex32 h2 +:+ hex32 h3 +:+ hex32 h4.

End SHA1.

Module Sample.
Import Re.

(** [int(text)] for a run of digits, which a blank may precede. *)
Definition digit_value (c : ascii) : Z := Z.of_nat (nat_of_ascii c) - 48.

Fixpoint int_of_digits (acc : Z) (s : string) : Z :=
  match s with
  | String c s' =>
      if Py.is_ascii_digit c then int_of_digits (10 * acc + digit_value c)%Z s'
      else int_of_digits acc s'
  | EmptyString => acc
  end.

(** One character of a class, and [r|r1|...|rn]. *)
Definition one (cc : charclass) : regex := Rep cc 1 (Some 1) true.

Fixpoint alts (r : regex) (rs : list regex) : regex :=
  match rs with
  | [] => r
  | r' :: rs' => Alt r (alts r' rs')
  end.

Definition digit : charclass := CRange "0" "9".

(** The directives as [_strptime.TimeRE] spells them:
    [3[0-1]|[1-2]\d|0[1-9]|[1-9]| [1-9]] for the day,
    [1[0-2]|0[1-9]|[1-9]] for the month, [\d\d\d\d] for the year,
    [2[0-3]|[0-1]\d|\d] for the hour, [[0-5]\d|\d] for the minute and
    [6[0-1]|[0-5]\d|\d] for the second. *)
Definition re_d : regex :=
  Group "d"
    (alts (seq [Lit "3"; one (CRange "0" "1")])
          [ seq [one (CRange "1" "2"); one digit];
            seq [Lit "0"; one (CRange "1" "9")];
            one (CRange "1" "9");
            seq [Lit " "; one (CRange "1" "9")] ]).

Definition re_m : regex :=
  Group "m"
    (alts (seq [Lit "1"; one (CRange "0" "2")])
          [ seq [Lit "0"; one (CRange "1" "9")];
            one (CRange "1" "9") ]).

Definition re_Y : regex := Group "Y" (digits 4).

Definition re_H : regex :=
  Group "H"
    (alts (seq [Lit "2"; one (CRange "0" "3")])
          [ seq [one (CRange "0" "1"); one digit];
            one digit ]).

Definition re_M : regex :=
  Group "M" (alts (seq [one (CRange "0" "5"); one digit]) [one digit]).

Definition re_S : regex :=
  Group "S"
    (alts (seq [Lit "6"; one (CRange "0" "1")])
          [ seq [one (CRange "0" "5"); one digit];
            one digit ]).

(** ["%d.%m.%Y"] and ["%d.%m.%Y %H.%M.%S"]; a blank of the format stands for
    [\s+]. *)
Definition re_date : regex := seq [re_d; Lit "."; re_m; Lit "."; re_Y].
Definition re_datetime : regex :=
  seq [re_d; Lit "."; re_m; Lit "."; re_Y; plus CSpace;
       re_H; Lit "."; re_M; Lit "."; re_S].

Definition is_leap (y : Z) : bool :=
  (((y mod 4 =? 0) && negb (y mod 100 =? 0)) || (y mod 400 =? 0))%Z.

Definition days_in_month (y m : Z) : Z :=
  (if m =? 2 then (if is_leap y then 29 else 28)
   else if (m =? 4) || (m =? 6) || (m =? 9) || (m =? 11) then 30 else 31)%Z.

(** The match must cover the whole text; the date must exist, the year be
    at least 1 and the second at most 59. *)
Definition strptime_with (r : regex) (value : string) : option datetime :=
  match match_here r None value with
  | Some (n, caps) =>
      let field name :=
        match group name caps with
        | Some v => int_of_digits 0 v
        | None => 0%Z
        end in
      let d := DateTime (field "Y") (field "m") (field "d")
                        (field "H") (field "M") (field "S") None in
      if (n =? String.length value)
         && (1 <=? year d)%Z && (day d <=? days_in_month (year d) (month d))%Z
         && (second d <=? 59)%Z
      then Some d else None
  | None => None
  end.

(** The two formats of the plugin; others are not modelled. *)
Definition strptime_model (value format : string) : option datetime :=
  if String.eqb format "%d.%m.%Y" then strptime_with re_date value
  else if String.eqb format "%d.%m.%Y %H.%M.%S" then strptime_with re_datetime value
  else None.

Definition dec_of_nat (n : nat) : string :=
  DecimalString.NilZero.string_of_uint (Nat.to_uint n).

Definition two_digits (x : Z) : string :=
  (if (x <? 10)%Z then "0" else "") +:+ dec_of_nat (Z.to_nat x).

(** ["%Y%m%d"], the one format the plugin prints with: the year as the C
    library prints it, without padding.  Other formats are not modelled. *)
Definition strftime_model (d : datetime) (format : string) : string :=
  if String.eqb format "%Y%m%d"
  then dec_of_nat (Z.to_nat (year d)) +:+ two_digits (month d) +:+ two_digits (day d)
  else format.

(** A finite decimal: sign, coefficient without leading zeros, exponent. *)
Record dec := Dec { dneg : bool; dcoef : string; dexp : Z }.

Fixpoint all_digits (s : string) : bool :=
  match s with
  | String c s' => Py.is_ascii_digit c && all_digits s'
  | EmptyString => true
  end.

Fixpoint drop_zeros (s : string) : string :=
  match s with
  | String "0" (String _ _ as s') => drop_zeros s'
  | _ => s
  end.

Fixpoint split_point (s : string) : string * option string :=
  match s with
  | String c s' =>
      if Ascii.eqb c "." then (EmptyString, Some s')
      else let '(a, b) := split_point s' in (String c a, b)
  | EmptyString => (EmptyString, None)
  end.

(** Fixed-point literals: an optional sign, digits, at most one point, at
    least one digit; blanks around and underscores inside are dropped. *)
Definition dec_of_str (text : string) : option dec :=
  let text := Py.replace1 "_" "" (Py.strip text) in
  let '(neg, body) :=
    match text with
    | String "-" b => (true, b)
    | String "+" b => (false, b)
    | _ => (false, text)
    end in
  let '(int_part, frac) := split_point body in
  let frac_part := default EmptyString frac in
  if all_digits int_part && all_digits frac_part
     && (0 <? String.length (int_part +:+ frac_part))
  then Some (Dec neg (drop_zeros (int_part +:+ frac_part))
                 (- Z.of_nat (String.length frac_part)))
  else None.

Fixpoint zeros (n : nat) : string :=
  match n with O => EmptyString | S n' => String "0" (zeros n') end.

(** [str(d)] for an exponent that is not positive. *)
Definition dec_str (d : dec) : string :=
  let n := String.length (dcoef d) in
  let leftdigits := (dexp d + Z.of_nat n)%Z in
  let sign := if dneg d then "-" else "" in
  if (-6 <? leftdigits)%Z then
    if (leftdigits <=? 0)%Z
    then sign +:+ "0." +:+ zeros (Z.to_nat (- leftdigits)) +:+ dcoef d
    else if (Z.of_nat n <=? leftdigits)%Z then sign +:+ dcoef d
    else sign +:+ substring 0 (Z.to_nat leftdigits) (dcoef d) +:+ "."
         +:+ substring (Z.to_nat leftdigits) n (dcoef d)
  else
    sign +:+ substring 0 1 (dcoef d)
    +:+ (if 1 <? n then "." +:+ substring 1 n (dcoef d) else "")
    +:+ "E-" +:+ dec_of_nat (Z.to_nat (1 - leftdigits)).

Definition dec_gt_zero (d : dec) : option bool :=
  Some (negb (dneg d) && negb (String.eqb (dcoef d) "0")).

(** German IBANs: [DE], two check digits, eighteen digits, and the number
    read with the country moved to the end leaves 1 modulo 97. *)
Definition iban_of_str (text : string) : option string :=
  let bban := substring 4 18 text in
  let check := substring 2 2 text in
  if (String.length text =? 22) && String.eqb (substring 0 2 text) "DE"
     && all_digits check && all_digits bban
     && (int_of_digits 0 (bban +:+ "1314" +:+ check) mod 97 =? 1)%Z
  then Some text else None.

Fixpoint all_in (f : ascii -> bool) (s : string) : bool :=
  match s with
  | String c s' => f c && all_in f s'
  | EmptyString => true
  end.

(** German BICs of eight or eleven characters. *)
Definition bic_of_str (text : string) : option string :=
  let n := String.length text in
  if ((n =? 8) || (n =? 11)) && all_in Py.is_ascii_upper (substring 0 4 text)
     && String.eqb (substring 4 2 text) "DE"
     && all_in (fun c => Py.is_ascii_upper c || Py.is_ascii_digit c) (substring 6 5 text)
  then Some text else None.

Definition bic_branch_code (bic : string) : option string :=
  if String.length bic =? 11 then Some (substring 8 3 bic) else None.

(** [iban.bic]: the registry of banks knows the one bank code 37040044. *)
Definition iban_bic (iban : string) : option string :=
  if String.eqb (substring 4 8 iban) "37040044" then Some "COBADEFFXXX" else None.

(** The constructor of a statement line leaves the transaction type at
    [CHECK], the value the class [StatementLine] of [ofxstatement] declares
    for it. *)
Definition library : Library := {|
  strptime := strptime_model;
  strftime := strftime_model;
  Decimal := dec;
  Decimal_of_str := dec_of_str;
  Decimal_str := dec_str;
  Decimal_gt_zero := dec_gt_zero;
  sha1_hexdigest := SHA1.hexdigest;
  IBAN := string;
  BIC := string;
  IBAN_of_str := iban_of_str;
  BIC_of_str := bic_of_str;
  IBAN_bic := iban_bic;
  BIC_branch_code := bic_branch_code;
  StatementLine_trntype := Some "CHECK" |}.

(** A data row from its five columns. *)
Definition make_row (buchungstag wertstellungstag verwendungszweck umsatz
    waehrung : string) : gmap string string :=
  <[COL_WAEHRUNG := waehrung]>
    (<[COL_UMSATZ := umsatz]>
      (<[COL_VERWENDUNGSZWECK := verwendungszweck]>
        (<[COL_WERTSTELLUNGSTAG := wertstellungstag]>
          (<[COL_BUCHUNGSTAG := buchungstag]> ∅)))).

(** A day of February 2024 in the time zone of the plugin. *)
Definition berlin (d : Z) : datetime := DateTime 2024 2 d 0 0 0 (Some TIMEZONE).

(** Rows for the closed examples.  No text below has a blank at position
    53 or 107, so the normalizer returns each purpose text as it is. *)

(** A card payment with a reference in front, followed by a REF field. *)
Definition text_card_with_ref : string :=
  "REWE SAGT DANKE 13.02.2024 12.00.00 123456 EUR 5,00 EC 12345678 PAN 1234 REWE Markt123 12/2025 GIROCARD CHIP/PINV/ SVWZ+ Einkauf".
Definition row_card_with_ref : gmap string string :=
  make_row "13.02.2024" "14.02.2024" text_card_with_ref "-5,00" "EUR".

(** A plain transfer booked one day before its value date. *)
Definition row_plain : gmap string string :=
  make_row "13.02.2024" "14.02.2024" "Miete Februar" "-500,00" "EUR".

(** The same with a blank in front of the purpose text. *)
Definition row_untrimmed : gmap string string :=
  make_row "13.02.2024" "14.02.2024" " Miete Februar" "-500,00" "EUR".

(** A card payment dated 31 February, with an IBAN field that is no IBAN. *)
Definition text_failures : string :=
  "Kauf 31.02.2024 10.00.00 OFFLIN EUR 40,00 EC 77 PAN 1234 Tankstelle123 12/2025 GIROCARD CHIP/PINV/ IBAN+ XX".
Definition row_failures : gmap string string :=
  make_row "13.02.2024" "14.02.2024" text_failures "-40,00" "EUR".

(** An income, with no label in its purpose text. *)
Definition row_income : gmap string string :=
  make_row "27.02.2024" "27.02.2024" "Gehalt Februar" "1.500,00" "EUR".



(** The text of a card payment, as the part before the first marker. *)
Definition text_card : string :=
  "REWE SAGT DANKE 13.02.2024 12.00.00 123456 EUR 5,00 EC 12345678 PAN 1234 REWE Markt123 12/2025 GIROCARD CHIP/PINV/".

(** A transfer: the payee and the label, then the purpose, the account and
    the bank of the payee. *)
Definition text_sepa : string :=
  "Erika Mustermann " +:+ SEPA_UEBERWEISUNG
  +:+ " SVWZ+ Miete fuer Februar IBAN+ DE89 3704 0044 0532 0130 00 BIC+ COBADEFFXXX".
Definition row_sepa : gmap string string :=
  make_row "13.02.2024" "14.02.2024" text_sepa "-500,00" "EUR".

(** The same transfer with the BIC of another bank than the one the
    registry has for the IBAN, and without any BIC. *)
Definition text_sepa_other_bank : string :=
  "Erika Mustermann " +:+ SEPA_UEBERWEISUNG
  +:+ " SVWZ+ Miete fuer Februar IBAN+ DE89 3704 0044 0532 0130 00 BIC+ DEUTDEFF".
Definition row_sepa_other_bank : gmap string string :=
  make_row "13.02.2024" "14.02.2024" text_sepa_other_bank "-500,00" "EUR".
Definition text_sepa_no_bank : string :=
  "Erika Mustermann " +:+ SEPA_UEBERWEISUNG
  +:+ " SVWZ+ Miete fuer Februar IBAN+ DE89 3704 0044 0532 0130 00".

(** The row [csv.DictReader] makes of a record that ends behind the value
    date: the cells of the last three columns are [None]. *)
Definition row_short : gmap string (option string) :=
  dict_row [COL_BUCHUNGSTAG; COL_WERTSTELLUNGSTAG; COL_VERWENDUNGSZWECK;
            COL_UMSATZ; COL_WAEHRUNG]
           ["13.02.2024"; "14.02.2024"].

End Sample.

(** * Properties *)

(** ** Strings *)

Section StringFacts.

Lemma app_String (c : ascii) (a b : string) :
  String c a +:+ b = String c (a +:+ b).
Proof. reflexivity. Qed.

Lemma app_Empty (b : string) : EmptyString +:+ b = b.
Proof. reflexivity. Qed.

Lemma length_app (a b : string) :
  String.length (a +:+ b) = String.length a + String.length b.
Proof.
  induction a as [|c a IH]; [reflexivity|].
  rewrite app_String. simpl. now rewrite IH.
Qed.

Lemma length_substring (s : string) (i n : nat) :
  String.length (substring i n s) = Nat.min n (String.length s - i).
Proof.
  revert i n; induction s as [|c s IH]; intros [|i] [|n]; simpl; try reflexivity.
  - now rewrite IH, Nat.sub_0_r.
  - apply IH.
  - apply IH.
Qed.

Lemma substring_0_app (a b : string) :
  substring 0 (String.length a) (a +:+ b) = a.
Proof.
  induction a as [|c a IH].
  - rewrite app_Empty. now destruct b.
  - rewrite app_String. simpl. now rewrite IH.
Qed.

Lemma substring_0_length (s : string) : substring 0 (String.length s) s = s.
Proof. induction s as [|c s IH]; simpl; [reflexivity | now rewrite IH]. Qed.

Lemma substring_app_r (a b : string) (n : nat) :
  substring (String.length a) n (a +:+ b) = substring 0 n b.
Proof.
  induction a as [|c a IH]; [reflexivity|].
  rewrite app_String. simpl. apply IH.
Qed.

Lemma substring_split (s : string) (n : nat) :
  n <= String.length s ->
  s = substring 0 n s +:+ substring n (String.length s - n) s.
Proof.
  revert n; induction s as [|c s IH]; intros [|n] Hn; simpl in *.
  - reflexivity.
  - lia.
  - now rewrite substring_0_length.
  - rewrite app_String. f_equal. apply IH. lia.
Qed.

Lemma slice_from_0 (s : string) : Py.slice_from s 0 = s.
Proof. unfold Py.slice_from. rewrite Nat.sub_0_r. apply substring_0_length. Qed.

(** [endswith] holds exactly of the texts that are a prefix followed by the
    suffix, and then [s[: -len(suffix)]] is that prefix. *)
Lemma endswith_app (p suffix : string) : Py.endswith (p +:+ suffix) suffix = true.
Proof.
  unfold Py.endswith, Py.slice_from. rewrite length_app.
  replace (String.length p + String.length suffix - String.length suffix)
    with (String.length p) by lia.
  rewrite substring_app_r.
  replace (String.length p + String.length suffix - String.length p)
    with (String.length suffix) by lia.
  rewrite substring_0_length, String.eqb_refl.
  rewrite andb_true_r. apply Nat.leb_le. lia.
Qed.

Lemma endswith_inv (s suffix : string) :
  Py.endswith s suffix = true -> s = Py.drop_suffix_len s suffix +:+ suffix.
Proof.
  unfold Py.endswith, Py.drop_suffix_len, Py.slice_to, Py.slice_from.
  intros Hend. apply andb_prop in Hend as [Hlen Heq].
  apply Nat.leb_le in Hlen. apply String.eqb_eq in Heq.
  rewrite (substring_split s (String.length s - String.length suffix)) at 1 by lia.
  f_equal. exact Heq.
Qed.

Lemma drop_suffix_len_app (p suffix : string) :
  Py.drop_suffix_len (p +:+ suffix) suffix = p.
Proof.
  unfold Py.drop_suffix_len, Py.slice_to. rewrite length_app.
  replace (String.length p + String.length suffix - String.length suffix)
    with (String.length p) by lia.
  apply substring_0_app.
Qed.

Lemma rev_onto_app (a b acc : string) :
  Py.rev_onto (a +:+ b) acc = Py.rev_onto b (Py.rev_onto a acc).
Proof.
  revert acc; induction a as [|c a IH]; intros acc; [reflexivity|].
  rewrite app_String. simpl. apply IH.
Qed.

End StringFacts.

(** ** The line normalizer *)

Lemma scan_result_unique i value out1 out2 :
  scan_result i value out1 -> scan_result i value out2 -> out1 = out2.
Proof.
  intros H1; revert out2; induction H1; intros out2 H2; inversion H2; subst;
    try lia; try congruence; auto.
Qed.

Lemma length_cut (value : string) (i : nat) :
  i < String.length value ->
  String.length (Py.slice_to value i +:+ Py.slice_from value (i + 1))
  = String.length value - 1.
Proof.
  intros Hi. unfold Py.slice_to, Py.slice_from.
  rewrite length_app, !length_substring. lia.
Qed.

Lemma remove_superfluous_loop_scan (fuel i : nat) (value : string) :
  String.length value <= i + fuel ->
  scan_result i value (remove_superfluous_loop fuel i value).
Proof.
  revert i value; induction fuel as [|fuel IH]; intros i value Hfuel; simpl.
  - apply scan_done. lia.
  - destruct (i <? String.length value) eqn:Hi.
    + apply Nat.ltb_lt in Hi.
      destruct (String.get i value) as [c|] eqn:Hget.
      * destruct (Ascii.eqb c " ") eqn:Hc.
        -- apply Ascii.eqb_eq in Hc; subst c.
           apply scan_cut; [exact Hi | exact Hget |].
           apply IH. rewrite length_cut by exact Hi. lia.
        -- apply Ascii.eqb_neq in Hc.
           apply scan_keep; [exact Hi | congruence | apply IH; lia].
      * apply scan_keep; [exact Hi | congruence | apply IH; lia].
    + apply Nat.ltb_ge in Hi. apply scan_done. exact Hi.
Qed.

(** C7. A text of fewer than 54 characters comes back unchanged; in general
    the result is the outcome of the scan that starts at position 53, cuts
    out a blank found at the position and moves on by 54 in the shortened
    text, and that outcome is unique. *)
Theorem remove_superfluous_reference_whitespace_spec (value : string) :
  (String.length value < 54 ->
   remove_superfluous_reference_whitespace value = value)
  /\ (forall out, scan_result 53 value out
                  <-> out = remove_superfluous_reference_whitespace value).
Proof.
  assert (Hscan : scan_result 53 value (remove_superfluous_reference_whitespace value))
    by (apply remove_superfluous_loop_scan; lia).
  split.
  - intros Hshort. symmetry.
    apply (scan_result_unique 53 value); [apply scan_done; lia | exact Hscan].
  - intros out; split.
    + intros Hout. apply (scan_result_unique 53 value); assumption.
    + intros ->. exact Hscan.
Qed.

Lemma remove_superfluous_reference_whitespace_witness :
  String.length "Miete Februar" < 54
  /\ remove_superfluous_reference_whitespace "Miete Februar" = "Miete Februar".
Proof.
  split.
  - simpl. lia.
  - apply (proj1 (remove_superfluous_reference_whitespace_spec "Miete Februar")).
    simpl. lia.
Defined.

(** ** The matcher finds only texts of the pattern's language *)

Module ReFacts.
Import Re ReSem.

Lemma consumed_refl st : consumed st st EmptyString.
Proof. split; simpl; [reflexivity | lia]. Qed.

Lemma app_assoc_string (a b c : string) : (a +:+ b) +:+ c = a +:+ (b +:+ c).
Proof.
  induction a as [|x a IH]; [reflexivity|].
  rewrite !app_String. now rewrite IH.
Qed.

Lemma consumed_trans st1 st2 st3 t1 t2 :
  consumed st1 st2 t1 -> consumed st2 st3 t2 -> consumed st1 st3 (t1 +:+ t2).
Proof.
  intros [Hr1 Hp1] [Hr2 Hp2]. split.
  - rewrite Hr1, Hr2. symmetry. apply app_assoc_string.
  - rewrite length_app. lia.
Qed.

Lemma lit_consumed l st st' : lit l st = Some st' -> consumed st st' l.
Proof.
  revert st; induction l as [|c l IH]; intros st Hlit; simpl in Hlit.
  - injection Hlit as <-. apply consumed_refl.
  - destruct (rest st) as [|d r] eqn:Hrest; [discriminate|].
    destruct (Ascii.eqb c d) eqn:Hcd; [|discriminate].
    apply Ascii.eqb_eq in Hcd; subst d.
    apply IH in Hlit. destruct Hlit as [Hr Hp]; simpl in Hr, Hp.
    split.
    + rewrite Hrest, app_String. now f_equal.
    + simpl. lia.
Qed.

Lemma rep_sound {A} cc greedy (k : mstate -> option A) a s :
  forall lo hi p n,
    rep cc greedy lo hi p n s k = Some a ->
    exists st' t,
      k st' = Some a /\ consumed (MState p n s) st' t
      /\ matches (Rep cc lo hi greedy) t [].
Proof.
  induction s as [|c s IH]; intros lo hi p n Hrep.
  - assert (Hstop : lo = 0 /\ k (MState p n EmptyString) = Some a).
    { simpl in Hrep. destruct lo; [|destruct greedy; discriminate].
      split; [reflexivity|]. destruct greedy; [exact Hrep|].
      destruct (k _); [exact Hrep | discriminate]. }
    destruct Hstop as [-> Hk].
    exists (MState p n EmptyString), EmptyString.
    split; [exact Hk|]. split; [apply consumed_refl|].
    apply matches_rep; simpl; [lia | intros; lia | exact I].
  - assert (Hcases :
      (lo = 0 /\ k (MState p n (String c s)) = Some a)
      \/ (in_class cc c = true /\ may_take hi = true
          /\ rep cc greedy (Nat.pred lo) (Nat.pred <$> hi) (Some c) (S n) s k = Some a)).
    { simpl in Hrep.
      destruct (in_class cc c && may_take hi) eqn:Htake.
      - apply andb_prop in Htake as [Hc Hhi].
        destruct greedy.
        + destruct (rep cc true (Nat.pred lo) (Nat.pred <$> hi) (Some c) (S n) s k)
            as [b|] eqn:Hmore.
          * right. injection Hrep as ->. auto.
          * left. destruct lo; [auto | discriminate].
        + destruct lo; [|right; auto].
          destruct (k (MState p n (String c s))) as [b|] eqn:Hstop.
          * left. injection Hrep as ->. auto.
          * right. auto.
      - left. destruct lo; [|destruct greedy; discriminate].
        split; [reflexivity|]. destruct greedy; [exact Hrep|].
        destruct (k _); [exact Hrep | discriminate]. }
    destruct Hcases as [[-> Hk] | (Hc & Hhi & Hmore)].
    + exists (MState p n (String c s)), EmptyString.
      split; [exact Hk|]. split; [apply consumed_refl|].
      apply matches_rep; simpl; [lia | intros; lia | exact I].
    + apply IH in Hmore. destruct Hmore as (st' & t & Hk & [Hr Hp] & Hm).
      simpl in Hr, Hp.
      exists st', (String c t). split; [exact Hk|]. split.
      * split; simpl; [rewrite app_String; now f_equal | lia].
      * inversion Hm as [|cc' lo' hi' g' t' Hlo Hhi' Hall| | | | |]; subst.
        apply matches_rep; simpl.
        -- lia.
        -- intros h ->. simpl in Hhi'. destruct h; [discriminate|].
           specialize (Hhi' h eq_refl). lia.
        -- auto.
Qed.

Lemma exec_sound {A} (r : regex) :
  forall st caps (k : mstate -> captures -> option A) a,
    exec r st caps k = Some a ->
    exists st' t c,
      k st' (caps ++ c) = Some a /\ consumed st st' t /\ matches r t c.
Proof.
  induction r as [l | cc lo hi greedy | r1 IH1 r2 IH2 | r1 IH1 r2 IH2 | name r IH | ];
    intros st caps k a Hexec; simpl in Hexec.
  - destruct (lit l st) as [st'|] eqn:Hlit; [|discriminate].
    exists st', l, []. rewrite app_nil_r.
    split; [exact Hexec|]. split; [now apply lit_consumed | constructor].
  - apply rep_sound in Hexec. destruct Hexec as (st' & t & Hk & Hc & Hm).
    destruct st as [p n s]. exists st', t, []. rewrite app_nil_r. auto.
  - apply IH1 in Hexec. destruct Hexec as (st1 & t1 & c1 & Hk1 & Hc1 & Hm1).
    apply IH2 in Hk1. destruct Hk1 as (st2 & t2 & c2 & Hk2 & Hc2 & Hm2).
    exists st2, (t1 +:+ t2), (c1 ++ c2). rewrite app_assoc.
    split; [exact Hk2|]. split; [eauto using consumed_trans | now constructor].
  - destruct (exec r1 st caps k) as [b|] eqn:Hleft.
    + injection Hexec as ->. apply IH1 in Hleft.
      destruct Hleft as (st' & t & c & Hk & Hc & Hm).
      exists st', t, c. auto using matches_alt_l.
    + apply IH2 in Hexec. destruct Hexec as (st' & t & c & Hk & Hc & Hm).
      exists st', t, c. auto using matches_alt_r.
  - apply IH in Hexec. destruct Hexec as (st' & t & c & Hk & Hc & Hm).
    assert (Htext : substring 0 (pos st' - pos st) (rest st) = t).
    { destruct Hc as [Hr Hp]. rewrite Hr, Hp.
      replace (pos st + String.length t - pos st) with (String.length t) by lia.
      apply substring_0_app. }
    rewrite Htext in Hk.
    exists st', t, (c ++ [(name, t)]). rewrite app_assoc.
    split; [exact Hk|]. split; [exact Hc | now constructor].
  - destruct (word_boundary (prev st) (rest st)); [|discriminate].
    exists st, EmptyString, []. rewrite app_nil_r.
    split; [exact Hexec|]. split; [apply consumed_refl | constructor].
Qed.

(** A match found at a position is a text of the pattern that the text ahead
    starts with. *)
Lemma match_here_sound r p s n caps :
  match_here r p s = Some (n, caps) ->
  exists t, matches r t caps /\ n = String.length t
            /\ Py.slice_to s n = t.
Proof.
  unfold match_here. intros Hexec. apply exec_sound in Hexec.
  destruct Hexec as (st' & t & c & Hk & [Hr Hp] & Hm).
  simpl in Hk, Hr, Hp. injection Hk as <- <-.
  exists t. split; [exact Hm|]. split; [lia|].
  unfold Py.slice_to. rewrite Hr, Hp. apply substring_0_app.
Qed.

Lemma group_app name c1 c2 :
  group name (c1 ++ c2)
  = match group name c2 with Some v => Some v | None => group name c1 end.
Proof.
  induction c1 as [|[n v] c1 IH]; simpl.
  - now destruct (group name c2).
  - rewrite IH. now destruct (group name c2).
Qed.

(** A match sets every group that lies on every path. *)
Lemma matches_sure_groups r t c :
  matches r t c ->
  forall name, In name (sure_groups r) -> is_Some (group name c).
Proof.
  induction 1 as [ | | r1 r2 t1 t2 c1 c2 _ IH1 _ IH2 | | | name' r t c _ IH | ];
    intros name Hin; simpl in Hin; try contradiction.
  - rewrite group_app. apply in_app_or in Hin as [Hin | Hin].
    + destruct (group name c2); [eauto | now apply IH1].
    + destruct (IH2 name Hin) as [v ->]. eauto.
  - rewrite group_app. simpl.
    destruct (String.eqb_spec name' name) as [->|Hne]; [eauto|].
    destruct Hin as [-> | Hin]; [contradiction | now apply IH].
Qed.

Lemma search_from_sound r s :
  forall p start m,
    search_from r p s start = Some m ->
    exists p' s' n, match_here r p' s' = Some (n, m_groups m).
Proof.
  induction s as [|c s IH]; intros p start m Hs; simpl in Hs.
  - destruct (match_here r p EmptyString) as [[n caps]|] eqn:Hm; [|discriminate].
    injection Hs as <-. eauto.
  - destruct (match_here r p (String c s)) as [[n caps]|] eqn:Hm.
    + injection Hs as <-. eauto.
    + eapply IH, Hs.
Qed.

(** Every match of [finditer] comes from one attempt of the matcher. *)
Lemma finditer_from_Forall (P : captures -> Prop) r :
  (forall p s n caps, match_here r p s = Some (n, caps) -> P caps) ->
  forall s p start skip,
    Forall (fun m => P (m_groups m)) (finditer_from r p s start skip).
Proof.
  intros HP. induction s as [|c s IH]; intros p start skip; simpl.
  - destruct skip; [|constructor].
    destruct (match_here r p EmptyString) as [[n caps]|] eqn:Hm; constructor.
    + simpl. eapply HP, Hm.
    + constructor.
  - destruct skip; [|apply IH].
    destruct (match_here r p (String c s)) as [[n caps]|] eqn:Hm; [|apply IH].
    constructor; [simpl; eapply HP, Hm | apply IH].
Qed.

End ReFacts.

(** ** The default-segment sub-parser and the tokenizer *)

Section Decoder.
Import Re ReSem ReFacts.

(** Two of the labels never end the same text: their last two characters
    differ. *)
Lemma labels_disjoint (p q s1 s2 : string) :
  In s1 type_suffixes -> In s2 type_suffixes ->
  p +:+ s1 = q +:+ s2 -> s1 = s2.
Proof.
  intros H1 H2 Heq.
  apply (f_equal (fun s => Py.rev_onto s EmptyString)) in Heq.
  rewrite !rev_onto_app in Heq.
  simpl in H1, H2.
  destruct H1 as [<- | [<- | [<- | []]]]; destruct H2 as [<- | [<- | [<- | []]]];
    try reflexivity; cbv [SEPA_UEBERWEISUNG SEPA_LOHN_GEHALT SEPA_BASISLASTSCHRIFT
                          append Py.rev_onto] in Heq; congruence.
Qed.

Lemma find_suffix (value suffix : string) :
  In suffix type_suffixes -> Py.endswith value suffix = true ->
  find (fun s => Py.endswith value s) type_suffixes = Some suffix.
Proof.
  intros Hin Hend.
  destruct (find (fun s => Py.endswith value s) type_suffixes) as [s|] eqn:Hfind.
  - apply find_some in Hfind as [Hin' Hend'].
    apply endswith_inv in Hend, Hend'.
    f_equal. eapply labels_disjoint; [exact Hin' | exact Hin |].
    rewrite <- Hend'. exact Hend.
  - eapply find_none in Hfind; [|exact Hin]. simpl in Hfind. congruence.
Qed.

(** C5, amended. For a text that ends with one of the three labels the
    sub-parser returns the empty string as residual, and as fields the pair
    of [recipient] with everything before the label followed by the pair of
    [type] with the label. *)
Theorem parse_default_field_label (value suffix : string) :
  In suffix type_suffixes ->
  Py.endswith value suffix = true ->
  exists before,
    value = before +:+ suffix
    /\ parse_default_field value
       = (EmptyString, [("recipient", before); ("type", suffix)]).
Proof.
  intros Hin Hend. exists (Py.drop_suffix_len value suffix).
  split; [now apply endswith_inv|].
  unfold parse_default_field. now rewrite (find_suffix value suffix Hin Hend).
Qed.

Lemma parse_default_field_label_witness :
  exists before,
    "Max Mustermann SEPA-LOHN/GEHALT" = before +:+ SEPA_LOHN_GEHALT
    /\ parse_default_field "Max Mustermann SEPA-LOHN/GEHALT"
       = (EmptyString, [("recipient", before); ("type", SEPA_LOHN_GEHALT)]).
Proof.
  apply (parse_default_field_label "Max Mustermann SEPA-LOHN/GEHALT" SEPA_LOHN_GEHALT).
  - simpl. auto.
  - reflexivity.
Defined.

(** C5 as stated fails: the residual is not the text with the label
    removed. *)
Lemma parse_default_field_label_counterexample :
  Py.endswith "Max Mustermann SEPA-LOHN/GEHALT" SEPA_LOHN_GEHALT = true
  /\ fst (parse_default_field "Max Mustermann SEPA-LOHN/GEHALT")
     <> Py.drop_suffix_len "Max Mustermann SEPA-LOHN/GEHALT" SEPA_LOHN_GEHALT.
Proof. split; [reflexivity | vm_compute; discriminate]. Qed.

(** C4, amended. For a reference without any tag marker the tokenizer yields
    the derived fields of the sub-parser for the trimmed text and then one
    [default] pair with the sub-parser's residual; when the trimmed text ends
    with none of the labels and holds no card payment, that is the one pair
    of [default] with the trimmed text. *)
Theorem parse_reference_fields_untagged (reference : string) :
  finditer tag_re reference = [] ->
  parse_reference_fields reference
  = snd (parse_default_field (Py.strip reference))
    ++ [("default", fst (parse_default_field (Py.strip reference)))]
  /\ (Forall (fun suffix => Py.endswith (Py.strip reference) suffix = false)
             type_suffixes ->
      search card_re (Py.strip reference) = None ->
      parse_reference_fields reference = [("default", Py.strip reference)]).
Proof.
  intros Hnone.
  assert (Hall : parse_reference_fields reference
                 = snd (parse_default_field (Py.strip reference))
                   ++ [("default", fst (parse_default_field (Py.strip reference)))]).
  { unfold parse_reference_fields. rewrite Hnone. simpl.
    rewrite slice_from_0. unfold yield_segment. simpl.
    now destruct (parse_default_field (Py.strip reference)). }
  split; [exact Hall|].
  intros Hlabels Hcard. rewrite Hall. unfold parse_default_field.
  destruct (find _ type_suffixes) as [s|] eqn:Hfind.
  - apply find_some in Hfind as [Hin Hend].
    rewrite Forall_forall in Hlabels. apply Hlabels in Hin. congruence.
  - rewrite Hcard. reflexivity.
Qed.

Lemma parse_reference_fields_untagged_witness :
  parse_reference_fields "  Miete Februar "
  = snd (parse_default_field (Py.strip "  Miete Februar "))
    ++ [("default", fst (parse_default_field (Py.strip "  Miete Februar ")))]
  /\ (Forall (fun suffix => Py.endswith (Py.strip "  Miete Februar ") suffix = false)
             type_suffixes ->
      search card_re (Py.strip "  Miete Februar ") = None ->
      parse_reference_fields "  Miete Februar " = [("default", Py.strip "  Miete Februar ")]).
Proof.
  apply (parse_reference_fields_untagged "  Miete Februar "). reflexivity.
Defined.

(** C4 as stated fails: no tag marker, and still three pairs. *)
Lemma parse_reference_fields_untagged_counterexample :
  finditer tag_re "Max MustermannSEPA-LOHN/GEHALT" = []
  /\ parse_reference_fields "Max MustermannSEPA-LOHN/GEHALT"
     = [("recipient", "Max Mustermann"); ("type", "SEPA-LOHN/GEHALT");
        ("default", "")]
  /\ parse_reference_fields "Max MustermannSEPA-LOHN/GEHALT"
     <> [("default", Py.strip "Max MustermannSEPA-LOHN/GEHALT")].
Proof.
  split; [reflexivity|]. split; [reflexivity|]. vm_compute. discriminate.
Qed.

Lemma is_tag_not_default t : is_tag t -> t <> "default".
Proof.
  intros (u & -> & Hlen & _) Heq.
  apply (f_equal String.length) in Heq. rewrite length_app in Heq.
  simpl in Heq. lia.
Qed.

Lemma tag_match_groups p s n caps :
  match_here tag_re p s = Some (n, caps) ->
  is_tag (default EmptyString (group "1" caps)).
Proof.
  intros Hm. apply match_here_sound in Hm. destruct Hm as (t & Hm & _).
  cbv [tag_re seq foldr] in Hm.
  repeat match goal with
         | H : matches (Seq _ _) _ _ |- _ => inversion H; subst; clear H
         | H : matches (Group _ _) _ _ |- _ => inversion H; subst; clear H
         | H : matches (Lit _) _ _ |- _ => inversion H; subst; clear H
         | H : matches Bound _ _ |- _ => inversion H; subst; clear H
         | H : matches (Rep _ _ _ _) _ _ |- _ => inversion H; subst; clear H
         end.
  simpl. eexists. split; [reflexivity|]. split; [|assumption].
  match goal with H : forall h, Some 4 = Some h -> _ |- _ =>
    specialize (H 4 eq_refl) end.
  lia.
Qed.

Lemma finditer_tags reference :
  Forall (fun m => is_tag (tag_of m)) (finditer tag_re reference).
Proof.
  unfold finditer, tag_of.
  apply (finditer_from_Forall (fun caps => is_tag (default EmptyString (group "1" caps)))).
  intros p s n caps. apply tag_match_groups.
Qed.

(** No group of the card-payment pattern is unset in a match, so
    [groupdict()] has a string for each. *)
Lemma card_groups_set (value : string) (m : rmatch) :
  search card_re value = Some m ->
  Forall (fun name => is_Some (group name (m_groups m))) (group_names card_re).
Proof.
  intros Hs. apply search_from_sound in Hs. destruct Hs as (p & s & n & Hm).
  apply match_here_sound in Hm. destruct Hm as (t & Hm & _).
  apply Forall_forall. intros name Hin.
  apply (matches_sure_groups _ _ _ Hm). exact Hin.
Qed.

Lemma groupdict_items_keys r m : map fst (groupdict_items r m) = group_names r.
Proof.
  unfold groupdict_items. rewrite map_map. simpl. apply map_id.
Qed.

Lemma parse_default_field_keys (value : string) :
  Forall (fun kv : string * string => kv.1 <> "default")
         (snd (parse_default_field value)).
Proof.
  unfold parse_default_field.
  destruct (find _ type_suffixes) as [s|]; simpl.
  - repeat constructor; discriminate.
  - destruct (search card_re value) as [m|]; simpl; [|constructor].
    apply (proj1 (Forall_map fst (fun k => k <> "default") _)).
    rewrite groupdict_items_keys.
    cbv [card_re seq foldr group_names app star plus digits uppers].
    repeat constructor; discriminate.
Qed.

Lemma defaults_app l1 l2 : defaults (l1 ++ l2) = defaults l1 ++ defaults l2.
Proof. apply list.filter_app. Qed.

Lemma defaults_none l :
  Forall (fun kv : string * string => kv.1 <> "default") l -> defaults l = [].
Proof.
  induction 1 as [|kv l Hkv _ IH]; [reflexivity|].
  unfold defaults. rewrite filter_cons_False by exact Hkv. exact IH.
Qed.

Lemma yield_segment_default value :
  defaults (yield_segment "default" value)
  = [("default", fst (parse_default_field value))].
Proof.
  unfold yield_segment. simpl.
  pose proof (parse_default_field_keys value) as Hkeys.
  destruct (parse_default_field value) as [v other]; simpl in *.
  rewrite defaults_app, (defaults_none other Hkeys). reflexivity.
Qed.

Lemma yield_segment_tag field value :
  field <> "default" -> defaults (yield_segment field value) = [].
Proof.
  intros Hne. unfold yield_segment.
  destruct (String.eqb_spec field "default") as [->|_]; [contradiction|].
  apply defaults_none. repeat constructor. exact Hne.
Qed.

Lemma reference_segments_defaults reference matches :
  Forall (fun m => is_tag (tag_of m)) matches ->
  forall field start,
    (field = "default" ->
     exists value,
       defaults (reference_segments reference field start matches)
       = [("default", value)])
    /\ (field <> "default" ->
        defaults (reference_segments reference field start matches) = []).
Proof.
  induction 1 as [|m matches Htag _ IH]; intros field start; simpl.
  - split.
    + intros ->. eexists. apply yield_segment_default.
    + apply yield_segment_tag.
  - apply is_tag_not_default in Htag.
    destruct (IH (tag_of m) (m_end m)) as [_ Hrest].
    rewrite defaults_app, (Hrest Htag), app_nil_r.
    split.
    + intros ->. eexists. apply yield_segment_default.
    + apply yield_segment_tag.
Qed.

(** C10. Whatever the reference, exactly one of the pairs the tokenizer
    yields has the tag [default]: every tag a marker introduces is three or
    four capitals and a plus sign, and no field the sub-parser derives is
    named [default]. *)
Theorem parse_reference_fields_one_default (reference : string) :
  (exists value,
     filter (fun kv : string * string => kv.1 = "default")
            (parse_reference_fields reference)
     = [("default", value)])
  /\ Forall (fun m => is_tag (tag_of m)) (finditer tag_re reference)
  /\ (forall value,
        Forall (fun kv : string * string => kv.1 <> "default")
               (snd (parse_default_field value))).
Proof.
  split; [|split; [apply finditer_tags | apply parse_default_field_keys]].
  unfold parse_reference_fields.
  destruct (reference_segments_defaults reference _ (finditer_tags reference)
              "default" 0) as [Hone _].
  exact (Hone eq_refl).
Qed.

(** The decoder on concrete references. *)

Example remove_superfluous_wrapped :
  remove_superfluous_reference_whitespace
    "SVWZ+ Miete Februar 2024 Wohnung 12 Musterstrasse 3 M usterstadt"
  = "SVWZ+ Miete Februar 2024 Wohnung 12 Musterstrasse 3 Musterstadt".
Proof. reflexivity. Qed.

Example parse_reference_fields_tags :
  parse_reference_fields "SVWZ+ Rent payment EREF+ X123"
  = [("default", ""); ("SVWZ+", "Rent payment"); ("EREF+", "X123")].
Proof. reflexivity. Qed.

Example parse_reference_fields_no_blank :
  parse_reference_fields "SVWZ+ Rent payment EREF+X123"
  = [("default", ""); ("SVWZ+", "Rent payment EREF+X123")].
Proof. reflexivity. Qed.

Example parse_default_field_card :
  parse_default_field
    "Kauf 13.02.2024 10.00.00 OFFLIN EUR 40,00 EC 77 PAN 1234 Tankstelle123 12/2025 nicht GIRO CHIP/PINV//7"
  = ("",
     [ ("card_payment_reference", "Kauf ");
       ("card_payment_datetime", "13.02.2024 10.00.00");
       ("card_payment_currency", "EUR"); ("card_payment_amount", "40,00");
       ("pan", "1234"); ("recipient", "Tankstelle");
       ("card_expiration", "12/2025"); ("type", "nicht GIRO");
       ("card_data_entry_method", "CHIP");
       ("card_payment_auth_method", "PINV") ]).
Proof. reflexivity. Qed.

End Decoder.

(** ** The transaction assembler *)

Section AssemblerFacts.
Context `{Library}.

Lemma parse_record_Ok (line : gmap string string) (r : StatementLine * list log_record) :
  parse_record line = Ok r
  <-> exists b w text u sym booking_date value_date amt trn,
        readable line b w text u sym booking_date value_date amt trn
        /\ r = record_of booking_date value_date text amt sym trn.
Proof.
  unfold readable, record_of, fields_of. split.
  - unfold parse_record, getitem. intros Hp.
    destruct (line !! COL_BUCHUNGSTAG) as [b|] eqn:Hb; simpl in Hp; [|discriminate].
    destruct (parse_datetime b) as [bd|] eqn:Hbd; simpl in Hp; [|discriminate].
    destruct (line !! COL_WERTSTELLUNGSTAG) as [w|] eqn:Hw; simpl in Hp; [|discriminate].
    destruct (parse_datetime w) as [vd|] eqn:Hvd; simpl in Hp; [|discriminate].
    destruct (line !! COL_VERWENDUNGSZWECK) as [text|] eqn:Ht; simpl in Hp; [|discriminate].
    destruct (line !! COL_UMSATZ) as [u|] eqn:Hu; simpl in Hp; [|discriminate].
    destruct (parse_decimal u) as [amt|] eqn:Hamt; simpl in Hp; [|discriminate].
    destruct (line !! COL_WAEHRUNG) as [sym|] eqn:Hs; simpl in Hp; [|discriminate].
    destruct (decode_bank_account _) as [account log_iban] eqn:Hacc.
    destruct (decode_card_datetime _) as [card log_datetime] eqn:Hcd.
    destruct (classify_or_sign _ amt) as [trn|] eqn:Htrn; simpl in Hp; [|discriminate].
    injection Hp as <-.
    exists b, w, text, u, sym, bd, vd, amt, trn. rewrite Hacc, Hcd.
    repeat split; solve [assumption | reflexivity].
  - intros (b & w & text & u & sym & bd & vd & amt & trn & Hread & ->).
    destruct Hread as (Hb & Hw & Ht & Hu & Hs & Hbd & Hvd & Hamt & Htrn).
    unfold parse_record, getitem.
    rewrite Hb; simpl; rewrite Hbd; simpl. rewrite Hw; simpl; rewrite Hvd; simpl.
    rewrite Ht; simpl. rewrite Hu; simpl; rewrite Hamt; simpl. rewrite Hs; simpl.
    destruct (decode_bank_account _) as [account log_iban].
    destruct (decode_card_datetime _) as [card log_datetime].
    rewrite Htrn. reflexivity.
Qed.

(** The purpose text determines the record through [record_of]. *)
Lemma parse_record_inv (line : gmap string string) (text : string) stmt log :
  line !! COL_VERWENDUNGSZWECK = Some text ->
  parse_record line = Ok (stmt, log) ->
  exists b w u sym booking_date value_date amt trn,
    readable line b w text u sym booking_date value_date amt trn
    /\ (stmt, log) = record_of booking_date value_date text amt sym trn.
Proof.
  intros Htext Hp. apply parse_record_Ok in Hp.
  destruct Hp as (b & w & text' & u & sym & bd & vd & amt & trn & Hread & Hr).
  assert (text' = text) as ->.
  { destruct Hread as (_ & _ & Ht & _). congruence. }
  exists b, w, u, sym, bd, vd, amt, trn. auto.
Qed.

(** A readable row is parsed into its record. *)
Lemma parse_record_readable (line : gmap string string) (b w text u sym : string)
    (booking_date value_date : datetime) (amt : Decimal) (trn : string) :
  readable line b w text u sym booking_date value_date amt trn ->
  parse_record line
  = Ok ((record_of booking_date value_date text amt sym trn).1,
        (record_of booking_date value_date text amt sym trn).2).
Proof.
  intros Hread. apply parse_record_Ok.
  exists b, w, text, u, sym, booking_date, value_date, amt, trn.
  split; [exact Hread | reflexivity].
Qed.

Lemma override_memo_cases (fields : gmap string string) (reference : string) :
  override_memo fields reference
  = match Py.truthy (fields !! "card_payment_reference") with
    | Some card => card
    | None =>
        match Py.truthy (fields !! SepaField.REF) with
        | Some ref => ref
        | None => reference
        end
    end.
Proof. reflexivity. Qed.

(** C1, amended. The memo of a parsed row is the [card_payment_reference]
    value when the decoded fields hold a non-empty one, whether or not a REF
    is there too; without it the memo is a non-empty REF ([SVWZ+]) value; with
    neither it stays the normalized purpose text. *)
Theorem parse_record_memo (line : gmap string string) (text : string) stmt log :
  line !! COL_VERWENDUNGSZWECK = Some text ->
  parse_record line = Ok (stmt, log) ->
  memo stmt
  = Some match Py.truthy (fields_of text !! "card_payment_reference") with
         | Some card => card
         | None =>
             match Py.truthy (fields_of text !! SepaField.REF) with
             | Some ref => ref
             | None => remove_superfluous_reference_whitespace text
             end
         end.
Proof.
  intros Htext Hp.
  destruct (parse_record_inv line text stmt log Htext Hp)
    as (b & w & u & sym & bd & vd & amt & trn & _ & Hr).
  injection Hr as -> _. simpl. now rewrite override_memo_cases.
Qed.

(** C2, amended. The user-facing date of a parsed row is its booking date,
    except that a [card_payment_datetime] field that parses replaces it; a
    value that does not parse leaves the booking date. *)
Theorem parse_record_date_user (line : gmap string string) (b text : string) stmt log :
  line !! COL_BUCHUNGSTAG = Some b ->
  line !! COL_VERWENDUNGSZWECK = Some text ->
  parse_record line = Ok (stmt, log) ->
  exists booking_date,
    parse_datetime b = Ok booking_date
    /\ date_user stmt
       = Some match Py.truthy (fields_of text !! "card_payment_datetime") with
              | Some value =>
                  match strptime value card_datetime_format with
                  | Some d => d
                  | None => booking_date
                  end
              | None => booking_date
              end.
Proof.
  intros Hb Htext Hp.
  destruct (parse_record_inv line text stmt log Htext Hp)
    as (b' & w & u & sym & bd & vd & amt & trn & Hread & Hr).
  destruct Hread as (Hb' & _ & _ & _ & _ & Hbd & _).
  assert (b' = b) as -> by congruence.
  exists bd. split; [exact Hbd|].
  injection Hr as -> _. simpl. f_equal.
  unfold decode_card_datetime.
  destruct (Py.truthy (fields_of text !! "card_payment_datetime")) as [value|];
    [|reflexivity].
  now destruct (strptime value card_datetime_format).
Qed.

(** C3, amended. The identifier of a parsed row is the value date printed
    with [%Y%m%d], followed by the SHA-1 hex digest of the UTF-8 bytes of the
    normalized purpose text as it is (not trimmed), the amount's string form
    and the currency symbol, joined by single blanks; so two parsed rows with
    the same value date, normalized purpose text, amount and currency have
    the same identifier. *)
Theorem parse_record_id (line : gmap string string) (text : string) stmt log :
  line !! COL_VERWENDUNGSZWECK = Some text ->
  parse_record line = Ok (stmt, log) ->
  (exists value_date amt sym,
     date stmt = Some value_date /\ amount stmt = Some amt
     /\ currency stmt = Some {| symbol := sym |}
     /\ id stmt
        = Some (strftime value_date "%Y%m%d"
                +:+ sha1_hexdigest
                      (encode_utf8
                         (remove_superfluous_reference_whitespace text
                          +:+ " " +:+ Decimal_str amt +:+ " " +:+ sym))))
  /\ (forall line' text' stmt' log',
        line' !! COL_VERWENDUNGSZWECK = Some text' ->
        parse_record line' = Ok (stmt', log') ->
        date stmt' = date stmt ->
        remove_superfluous_reference_whitespace text'
        = remove_superfluous_reference_whitespace text ->
        amount stmt' = amount stmt ->
        currency stmt' = currency stmt ->
        id stmt' = id stmt).
Proof.
  intros Htext Hp.
  destruct (parse_record_inv line text stmt log Htext Hp)
    as (b & w & u & sym & bd & vd & amt & trn & _ & Hr).
  injection Hr as -> _. simpl. split.
  - exists vd, amt, sym. auto.
  - intros line' text' stmt' log' Htext' Hp' Hdate Href Hamt Hcur.
    destruct (parse_record_inv line' text' stmt' log' Htext' Hp')
      as (b' & w' & u' & sym' & bd' & vd' & amt' & trn' & _ & Hr').
    injection Hr' as -> _. simpl in *.
    injection Hdate as ->. injection Hamt as ->. injection Hcur as ->.
    now rewrite Href.
Qed.

(** C6. When the columns of a row can be read, neither an IBAN that does not
    decode nor a card-payment datetime that does not parse keeps
    [parse_record] from returning the statement line: the failure goes to the
    log, the counterparty account stays unset, respectively the user-facing
    date stays the booking date, and the other attributes are what they are
    for any row. *)
Theorem parse_record_field_failures (line : gmap string string) (b w text u sym : string)
    (booking_date value_date : datetime) (amt : Decimal) (trn : string) :
  readable line b w text u sym booking_date value_date amt trn ->
  exists stmt log,
    parse_record line = Ok (stmt, log)
    /\ id stmt
       = Some (make_id value_date (remove_superfluous_reference_whitespace text)
                       amt sym)
    /\ date stmt = Some value_date
    /\ memo stmt
       = Some (override_memo (fields_of text)
                 (remove_superfluous_reference_whitespace text))
    /\ amount stmt = Some amt
    /\ currency stmt = Some {| symbol := sym |}
    /\ trntype stmt = Some trn
    /\ payee stmt = Py.truthy (fields_of text !! "recipient")
    /\ check_no stmt = Py.truthy (fields_of text !! SepaField.END_TO_END_REF)
    /\ (forall value,
          Py.truthy (fields_of text !! SepaField.IBAN) = Some value ->
          IBAN_of_str (Py.replace1 " " "" value) = None ->
          bank_account_to stmt = None
          /\ In (Warning_iban (Py.replace1 " " "" value)) log)
    /\ (forall value,
          Py.truthy (fields_of text !! "card_payment_datetime") = Some value ->
          strptime value card_datetime_format = None ->
          date_user stmt = Some booking_date
          /\ In (Warning_datetime value) log).
Proof.
  intros Hread.
  pose (r := record_of booking_date value_date text amt sym trn).
  exists r.1, r.2. split.
  - apply parse_record_Ok.
    exists b, w, text, u, sym, booking_date, value_date, amt, trn.
    split; [exact Hread | reflexivity].
  - simpl. repeat (split; [reflexivity|]). split.
    + intros value Hiban Hfail. unfold decode_bank_account.
      rewrite Hiban, Hfail. simpl. auto.
    + intros value Hcard Hfail. unfold decode_card_datetime.
      rewrite Hcard, Hfail. simpl. split; [reflexivity|].
      right. apply in_or_app. right. simpl. auto.
Qed.

(** What the last assignment of the [type] block does where it is reached:
    were the transaction type unset after construction, a row without a
    [type] field that matches a marker would have CREDIT for an amount above
    zero and DEBIT otherwise. *)
Lemma parse_record_trntype_fallback (line : gmap string string) (text : string) stmt log :
  StatementLine_trntype = None ->
  line !! COL_VERWENDUNGSZWECK = Some text ->
  parse_record line = Ok (stmt, log) ->
  (forall value,
     Py.truthy (fields_of text !! "type") = Some value ->
     find_transaction_type value = None) ->
  exists amt gt,
    amount stmt = Some amt
    /\ Decimal_gt_zero amt = Some gt
    /\ trntype stmt = Some (if gt then "CREDIT" else "DEBIT").
Proof.
  intros Hunset Htext Hp Hnotype.
  destruct (parse_record_inv line text stmt log Htext Hp)
    as (b & w & u & sym & bd & vd & amt & trn & Hread & Hr).
  destruct Hread as (_ & _ & _ & _ & _ & _ & _ & _ & Htrn).
  injection Hr as -> _. simpl.
  assert (Hclass : classify (fields_of text) = None).
  { unfold classify.
    destruct (Py.truthy (fields_of text !! "type")) as [value|];
      [now apply Hnotype | exact Hunset]. }
  unfold classify_or_sign in Htrn. rewrite Hclass in Htrn.
  destruct (Decimal_gt_zero amt) as [gt|] eqn:Hgt; [|discriminate].
  injection Htrn as <-. exists amt, gt. auto.
Qed.

(** Without a [type] field the fallback is reached only through the unset
    transaction type: a type the constructor sets stays, whatever the
    amount. *)
Lemma parse_record_trntype_kept (line : gmap string string) (text t : string) stmt log :
  StatementLine_trntype = Some t ->
  line !! COL_VERWENDUNGSZWECK = Some text ->
  parse_record line = Ok (stmt, log) ->
  Py.truthy (fields_of text !! "type") = None ->
  trntype stmt = Some t.
Proof.
  intros Hset Htext Hp Hnotype.
  destruct (parse_record_inv line text stmt log Htext Hp)
    as (b & w & u & sym & bd & vd & amt & trn & Hread & Hr).
  destruct Hread as (_ & _ & _ & _ & _ & _ & _ & _ & Htrn).
  injection Hr as -> _. simpl.
  unfold classify_or_sign, classify in Htrn. rewrite Hnotype, Hset in Htrn.
  congruence.
Qed.

(** The statement lines of a file *)





End AssemblerFacts.

(** ** The assembler on the sample rows *)

Section Examples.
Import Sample.

Ltac readable_row := unfold readable; repeat split; vm_compute; reflexivity.

Lemma readable_card_with_ref :
  @readable Sample.library row_card_with_ref
    "13.02.2024" "14.02.2024" text_card_with_ref "-5,00" "EUR"
    (berlin 13) (berlin 14) (Dec true "500" (-2)) "POS".
Proof. readable_row. Qed.

Lemma readable_plain :
  @readable Sample.library row_plain
    "13.02.2024" "14.02.2024" "Miete Februar" "-500,00" "EUR"
    (berlin 13) (berlin 14) (Dec true "50000" (-2)) "CHECK".
Proof. readable_row. Qed.

Lemma readable_untrimmed :
  @readable Sample.library row_untrimmed
    "13.02.2024" "14.02.2024" " Miete Februar" "-500,00" "EUR"
    (berlin 13) (berlin 14) (Dec true "50000" (-2)) "CHECK".
Proof. readable_row. Qed.

Lemma readable_failures :
  @readable Sample.library row_failures
    "13.02.2024" "14.02.2024" text_failures "-40,00" "EUR"
    (berlin 13) (berlin 14) (Dec true "4000" (-2)) "POS".
Proof. readable_row. Qed.

Lemma readable_income :
  @readable Sample.library row_income
    "27.02.2024" "27.02.2024" "Gehalt Februar" "1.500,00" "EUR"
    (berlin 27) (berlin 27) (Dec false "150000" (-2)) "CHECK".
Proof. readable_row. Qed.


(** C1 as stated fails: the row has the REF value [Einkauf], and its memo is
    the card-payment reference. *)
Lemma parse_record_memo_counterexample :
  exists stmt log,
    @parse_record Sample.library row_card_with_ref = Ok (stmt, log)
    /\ Py.truthy (fields_of text_card_with_ref !! SepaField.REF) = Some "Einkauf"
    /\ Py.truthy (fields_of text_card_with_ref !! "card_payment_reference")
       = Some "REWE SAGT DANKE "
    /\ memo stmt = Some "REWE SAGT DANKE "
    /\ memo stmt <> Some "Einkauf".
Proof.
  eexists _, _. split; [exact (parse_record_readable _ _ _ _ _ _ _ _ _ _ readable_card_with_ref)|].
  split; [vm_compute; reflexivity|]. split; [vm_compute; reflexivity|].
  split; [vm_compute; reflexivity | vm_compute; discriminate].
Qed.

Lemma parse_record_memo_witness :
  exists stmt log,
    @parse_record Sample.library row_card_with_ref = Ok (stmt, log)
    /\ memo stmt = Some "REWE SAGT DANKE ".
Proof.
  eexists _, _. split; [exact (parse_record_readable _ _ _ _ _ _ _ _ _ _ readable_card_with_ref)|].
  etransitivity.
  - eapply (@parse_record_memo Sample.library row_card_with_ref text_card_with_ref).
    + vm_compute. reflexivity.
    + exact (parse_record_readable _ _ _ _ _ _ _ _ _ _ readable_card_with_ref).
  - vm_compute. reflexivity.
Defined.

(** C2 as stated fails: without any card payment the user-facing date is the
    booking date, 13 February, and not the value date, 14 February. *)
Lemma parse_record_date_user_counterexample :
  exists stmt log,
    @parse_record Sample.library row_plain = Ok (stmt, log)
    /\ fields_of "Miete Februar" !! "card_payment_datetime" = None
    /\ @parse_datetime Sample.library "14.02.2024"
       = Ok (DateTime 2024 2 14 0 0 0 (Some TIMEZONE))
    /\ date stmt = Some (DateTime 2024 2 14 0 0 0 (Some TIMEZONE))
    /\ date_user stmt = Some (DateTime 2024 2 13 0 0 0 (Some TIMEZONE))
    /\ date_user stmt <> Some (DateTime 2024 2 14 0 0 0 (Some TIMEZONE)).
Proof.
  eexists _, _. split; [exact (parse_record_readable _ _ _ _ _ _ _ _ _ _ readable_plain)|].
  repeat split; try (vm_compute; reflexivity). vm_compute. discriminate.
Qed.

Lemma parse_record_date_user_witness :
  exists stmt log,
    @parse_record Sample.library row_card_with_ref = Ok (stmt, log)
    /\ date_user stmt = Some (DateTime 2024 2 13 12 0 0 None).
Proof.
  eexists _, _. split; [exact (parse_record_readable _ _ _ _ _ _ _ _ _ _ readable_card_with_ref)|].
  destruct (@parse_record_date_user Sample.library row_card_with_ref "13.02.2024"
              text_card_with_ref _ _
              ltac:(vm_compute; reflexivity) ltac:(vm_compute; reflexivity)
              (parse_record_readable _ _ _ _ _ _ _ _ _ _ readable_card_with_ref))
    as (bd & Hbd & Hdu).
  rewrite Hdu. vm_compute in Hbd. injection Hbd as <-.
  vm_compute. reflexivity.
Defined.

(** C3 as stated fails: the purpose text starts with a blank, the digest is
    that of the text with the blank, and the digest of the trimmed text is
    another one. *)
Lemma parse_record_id_counterexample :
  exists stmt log,
    @parse_record Sample.library row_untrimmed = Ok (stmt, log)
    /\ remove_superfluous_reference_whitespace " Miete Februar" = " Miete Februar"
    /\ id stmt = Some "20240214611683db5bff6767e7b9074b7d675cba46c73788"
    /\ SHA1.hexdigest (encode_utf8 " Miete Februar -500.00 EUR")
       = "611683db5bff6767e7b9074b7d675cba46c73788"
    /\ SHA1.hexdigest (encode_utf8 (Py.strip " Miete Februar" +:+ " -500.00 EUR"))
       = "a32f484d44b20f656167f72a780cdd7544eeb84e"
    /\ id stmt
       <> Some ("20240214"
                +:+ SHA1.hexdigest
                      (encode_utf8 (Py.strip " Miete Februar" +:+ " -500.00 EUR"))).
Proof.
  eexists _, _. split; [exact (parse_record_readable _ _ _ _ _ _ _ _ _ _ readable_untrimmed)|].
  repeat split; try (vm_compute; reflexivity). vm_compute. discriminate.
Qed.

Lemma parse_record_id_witness :
  exists stmt log,
    @parse_record Sample.library row_plain = Ok (stmt, log)
    /\ id stmt = Some "20240214a32f484d44b20f656167f72a780cdd7544eeb84e".
Proof.
  eexists _, _. split; [exact (parse_record_readable _ _ _ _ _ _ _ _ _ _ readable_plain)|].
  destruct (proj1 (@parse_record_id Sample.library row_plain "Miete Februar" _ _
                     ltac:(vm_compute; reflexivity)
                     (parse_record_readable _ _ _ _ _ _ _ _ _ _ readable_plain)))
    as (vd & amt & sym & Hdate & Hamt & Hcur & Hid).
  rewrite Hid.
  vm_compute in Hdate. injection Hdate as <-.
  vm_compute in Hamt. injection Hamt as <-.
  vm_compute in Hcur. injection Hcur as <-.
  vm_compute. reflexivity.
Defined.

(** C6 on a row with both failures: the line is there, without counterparty
    account and with the booking date as user-facing date. *)
Lemma parse_record_field_failures_witness :
  exists stmt log,
    @parse_record Sample.library row_failures = Ok (stmt, log)
    /\ bank_account_to stmt = None
    /\ date_user stmt = Some (DateTime 2024 2 13 0 0 0 (Some TIMEZONE))
    /\ In (Warning_iban "XX") log
    /\ In (Warning_datetime "31.02.2024 10.00.00") log.
Proof.
  destruct (@parse_record_field_failures Sample.library row_failures
              _ _ _ _ _ _ _ _ _ readable_failures)
    as (stmt & log & Hp & _ & _ & _ & _ & _ & _ & _ & _ & Hiban & Hcard).
  exists stmt, log. split; [exact Hp|].
  destruct (Hiban "XX") as [Hacct Hlog1]; [vm_compute; reflexivity ..|].
  destruct (Hcard "31.02.2024 10.00.00") as [Hdate Hlog2]; [vm_compute; reflexivity ..|].
  auto.
Defined.

(** C9. The row of a transfer of -500,00: no [type] field is decoded and
    the amount is not above zero, so the claim asks for DEBIT; the line has
    the type [CHECK] the constructor preset.  The row of an income of
    1.500,00 has [CHECK] as well, where the claim asks for CREDIT. *)
Theorem parse_record_trntype_preset_rows :
  (exists stmt log,
     @parse_record Sample.library row_plain = Ok (stmt, log)
     /\ Py.truthy (fields_of "Miete Februar" !! "type") = None
     /\ amount stmt = Some (Dec true "50000" (-2))
     /\ @Decimal_gt_zero Sample.library (Dec true "50000" (-2)) = Some false
     /\ trntype stmt = Some "CHECK"
     /\ trntype stmt <> Some "DEBIT")
  /\ (exists stmt log,
        @parse_record Sample.library row_income = Ok (stmt, log)
        /\ Py.truthy (fields_of "Gehalt Februar" !! "type") = None
        /\ amount stmt = Some (Dec false "150000" (-2))
        /\ @Decimal_gt_zero Sample.library (Dec false "150000" (-2)) = Some true
        /\ trntype stmt = Some "CHECK"
        /\ trntype stmt <> Some "CREDIT").
Proof.
  split.
  - eexists _, _.
    split; [exact (parse_record_readable _ _ _ _ _ _ _ _ _ _ readable_plain)|].
    repeat split; try (vm_compute; reflexivity). vm_compute. discriminate.
  - eexists _, _.
    split; [exact (parse_record_readable _ _ _ _ _ _ _ _ _ _ readable_income)|].
    repeat split; try (vm_compute; reflexivity). vm_compute. discriminate.
Qed.


End Examples.

(** * Further properties *)

(** ** The matcher finds a text of the pattern whenever there is one *)

Module ReComplete.
Import Re ReSem ReFacts.

Lemma after_app p n t1 t2 s :
  after p n (t1 +:+ t2) s
  = after (prev (after p n t1 (t2 +:+ s))) (pos (after p n t1 (t2 +:+ s))) t2 s.
Proof.
  revert p n; induction t1 as [|c t1 IH]; intros p n; [reflexivity|].
  rewrite app_String. simpl. apply IH.
Qed.

Lemma after_state p n t s :
  after p n t s = MState (prev (after p n t s)) (n + String.length t) s.
Proof.
  revert p n; induction t as [|c t IH]; intros p n; simpl.
  - now rewrite Nat.add_0_r.
  - rewrite IH at 1. f_equal. lia.
Qed.

Lemma after_eta p n t s :
  after p n t s = MState (prev (after p n t s)) (pos (after p n t s)) s.
Proof. revert p n; induction t as [|c t IH]; intros p n; simpl; [reflexivity | apply IH]. Qed.

Lemma lit_app l p n s : lit l (MState p n (l +:+ s)) = Some (after p n l s).
Proof.
  revert p n; induction l as [|c l IH]; intros p n; [reflexivity|].
  rewrite app_String. simpl. rewrite Ascii.eqb_refl. apply IH.
Qed.

Lemma rep_complete {A} cc greedy (k : mstate -> option A) s t :
  forall lo hi p n a,
    all_in_class cc t ->
    lo <= String.length t ->
    (forall h, hi = Some h -> String.length t <= h) ->
    k (after p n t s) = Some a ->
    is_Some (rep cc greedy lo hi p n (t +:+ s) k).
Proof.
  induction t as [|c t IH]; intros lo hi p n a Hall Hlo Hhi Hk.
  - simpl in Hlo. assert (lo = 0) as -> by lia.
    rewrite app_Empty. simpl in Hk.
    destruct s as [|d s]; simpl.
    + destruct greedy; rewrite Hk; eauto.
    + destruct greedy.
      * destruct (if in_class cc d && may_take hi then _ else None); [eauto|].
        rewrite Hk. eauto.
      * rewrite Hk. eauto.
  - rewrite app_String. destruct Hall as [Hc Hall]. simpl in Hlo, Hk.
    assert (Htake : may_take hi = true).
    { destruct hi as [[|h]|]; try reflexivity.
      specialize (Hhi 0 eq_refl). simpl in Hhi. lia. }
    assert (Hmore : is_Some (rep cc greedy (Nat.pred lo) (Nat.pred <$> hi)
                               (Some c) (S n) (t +:+ s) k)).
    { apply (IH _ _ _ _ a); [exact Hall | lia | | exact Hk].
      intros h Hh. destruct hi as [h0|]; [|discriminate].
      simpl in Hh. injection Hh as <-.
      specialize (Hhi h0 eq_refl). simpl in Hhi. lia. }
    destruct Hmore as [b Hmore]. simpl. rewrite Hc, Htake. simpl.
    rewrite Hmore. destruct greedy; [eauto|].
    destruct lo; [|eauto].
    destruct (k (MState p n (String c (t +:+ s)))); eauto.
Qed.

Lemma exec_complete {A} r t c :
  matches r t c ->
  bound_free r = true ->
  forall p n s caps (k : mstate -> captures -> option A) a,
    k (after p n t s) (caps ++ c) = Some a ->
    is_Some (exec r (MState p n (t +:+ s)) caps k).
Proof.
  induction 1 as [ l | cc lo hi greedy t Hlo Hhi Hall
                 | r1 r2 t1 t2 c1 c2 _ IH1 _ IH2
                 | r1 r2 t c _ IH | r1 r2 t c _ IH
                 | name r t c _ IH | ];
    intros Hfree p n s caps k a Hk; simpl in Hfree; simpl.
  - rewrite lit_app. rewrite app_nil_r in Hk. rewrite Hk. eauto.
  - rewrite app_nil_r in Hk.
    apply (rep_complete cc greedy (fun st' => k st' caps) s t lo hi p n a); assumption.
  - apply andb_prop in Hfree as [Hf1 Hf2].
    rewrite app_assoc_string.
    rewrite after_app, app_assoc in Hk.
    destruct (IH2 Hf2 _ _ _ _ _ _ Hk) as [b Hb].
    rewrite <- after_eta in Hb.
    exact (IH1 Hf1 p n (t2 +:+ s) caps (fun st' caps' => exec r2 st' caps' k) b Hb).
  - apply andb_prop in Hfree as [Hf1 _].
    destruct (IH Hf1 p n s caps k a Hk) as [b ->]. eauto.
  - apply andb_prop in Hfree as [_ Hf2].
    destruct (exec r1 _ caps k); [eauto|].
    exact (IH Hf2 p n s caps k a Hk).
  - eapply (IH Hfree). simpl.
    rewrite (after_state p n t s). simpl.
    replace (n + String.length t - n) with (String.length t) by lia.
    rewrite substring_0_app, <- app_assoc.
    rewrite <- (after_state p n t s). exact Hk.
  - discriminate.
Qed.

Lemma match_here_complete r t c p s :
  matches r t c -> bound_free r = true -> is_Some (match_here r p (t +:+ s)).
Proof.
  intros Hm Hfree. unfold match_here.
  eapply (exec_complete r t c Hm Hfree p 0 s []). reflexivity.
Qed.

(** A match at a position is a text of the pattern at the start of what is
    ahead. *)
Lemma match_here_split r p s n caps :
  match_here r p s = Some (n, caps) ->
  exists t b, s = t +:+ b /\ matches r t caps /\ n = String.length t.
Proof.
  unfold match_here. intros Hexec. apply exec_sound in Hexec.
  destruct Hexec as (st' & t & c & Hk & [Hr Hp] & Hm).
  simpl in Hk, Hr, Hp. injection Hk as <- <-.
  exists t, (rest st'). split; [exact Hr|]. split; [exact Hm | lia].
Qed.

Lemma search_from_split r s :
  forall p start m,
    search_from r p s start = Some m ->
    exists a t b,
      s = a +:+ t +:+ b /\ matches r t (m_groups m)
      /\ m_start m = start + String.length a
      /\ m_end m = m_start m + String.length t.
Proof.
  induction s as [|x s IH]; intros p start m Hs; simpl in Hs.
  - destruct (match_here r p EmptyString) as [[n caps]|] eqn:Hm; [|discriminate].
    injection Hs as <-. apply match_here_split in Hm as (t & b & Hs & Hm & ->).
    exists EmptyString, t, b. simpl. rewrite Nat.add_0_r. auto.
  - destruct (match_here r p (String x s)) as [[n caps]|] eqn:Hm.
    + injection Hs as <-. apply match_here_split in Hm as (t & b & Hs & Hm & ->).
      exists EmptyString, t, b. simpl. rewrite Nat.add_0_r. auto.
    + apply IH in Hs as (a & t & b & -> & Hmt & Hstart & Hend).
      exists (String x a), t, b. rewrite app_String. simpl.
      split; [reflexivity|]. split; [exact Hmt|]. split; lia.
Qed.

Lemma search_from_none r a :
  forall p s start,
    search_from r p (a +:+ s) start = None ->
    exists p', match_here r p' s = None.
Proof.
  induction a as [|x a IH]; intros p s start Hs.
  - rewrite app_Empty in Hs. exists p.
    destruct s; simpl in Hs; destruct (match_here r p _) as [[n caps]|];
      [discriminate | reflexivity | discriminate | reflexivity].
  - rewrite app_String in Hs. simpl in Hs.
    destruct (match_here r p _) as [[n caps]|]; [discriminate|].
    eapply IH, Hs.
Qed.

(** [re.search] finds nothing exactly when no part of the text belongs to
    the pattern. *)
Lemma search_None r s :
  bound_free r = true -> (search r s = None <-> ~ occurs r s).
Proof.
  intros Hfree. unfold search, occurs. split.
  - intros Hnone (a & t & b & c & -> & Hm).
    apply search_from_none in Hnone as [p' Hp'].
    destruct (match_here_complete r t c p' b Hm Hfree) as [x Hx]. congruence.
  - intros Hno. destruct (search_from r None s 0) as [m|] eqn:Hs; [|reflexivity].
    apply search_from_split in Hs as (a & t & b & Hs & Hm & _).
    contradiction Hno. eauto 6.
Qed.

End ReComplete.

(** ** More on the default-segment sub-parser *)

Section SubParserMore.
Import Re ReSem ReFacts ReComplete.

Lemma all_in_class_app cc a b :
  all_in_class cc (a +:+ b) <-> all_in_class cc a /\ all_in_class cc b.
Proof.
  induction a as [|x a IH]; [rewrite app_Empty; simpl; tauto|].
  rewrite app_String. simpl. tauto.
Qed.

Lemma search_from_unfold r p s start :
  search_from r p s start
  = match match_here r p s with
    | Some (n, caps) => Some (RMatch start (start + n) caps)
    | None =>
        match s with
        | String c s' => search_from r (Some c) s' (S start)
        | EmptyString => None
        end
    end.
Proof. destruct s; reflexivity. Qed.

Lemma group_In name caps v : group name caps = Some v -> In (name, v) caps.
Proof.
  induction caps as [|[n w] caps IH]; simpl; [discriminate|].
  destruct (group name caps) as [x|].
  - intros [= ->]. right. now apply IH.
  - destruct (String.eqb_spec n name) as [->|_]; [|discriminate].
    intros [= ->]. now left.
Qed.

(** Every group a match sets holds a text of the pattern the group
    encloses. *)
Lemma matches_groups r t c :
  matches r t c ->
  Forall (fun nv => exists r' c', In (nv.1, r') (groups_of r) /\ matches r' nv.2 c') c.
Proof.
  induction 1 as [ | | r1 r2 t1 t2 c1 c2 _ IH1 _ IH2 | r1 r2 t c _ IH
                 | r1 r2 t c _ IH | name r t c Hm IH | ]; simpl;
    try constructor.
  - apply Forall_app. split; eapply Forall_impl; try eassumption;
      intros nv (r' & c' & Hin & Hm'); exists r', c';
      (split; [apply in_or_app; auto | exact Hm']).
  - eapply Forall_impl; [|exact IH].
    intros nv (r' & c' & Hin & Hm'). exists r', c'.
    split; [apply in_or_app; auto | exact Hm'].
  - eapply Forall_impl; [|exact IH].
    intros nv (r' & c' & Hin & Hm'). exists r', c'.
    split; [apply in_or_app; auto | exact Hm'].
  - apply Forall_app. split.
    + eapply Forall_impl; [|exact IH].
      intros nv (r' & c' & Hin & Hm'). exists r', c'. split; [now right | exact Hm'].
    + constructor; [|constructor]. exists r, c. split; [now left | exact Hm].
Qed.

(** A group of the card-payment pattern, in a match: its text belongs to
    the pattern some group of that name encloses. *)
Lemma card_group_text value m name :
  search card_re value = Some m ->
  In name (group_names card_re) ->
  exists v r' c',
    group name (m_groups m) = Some v
    /\ In (name, r') (groups_of card_re) /\ matches r' v c'.
Proof.
  intros Hs Hin.
  pose proof (card_groups_set value m Hs) as Hset.
  rewrite Forall_forall in Hset. destruct (Hset name Hin) as [v Hv].
  apply search_from_split in Hs as (a & t & b & _ & Hm & _).
  apply matches_groups in Hm. rewrite Forall_forall in Hm.
  destruct (Hm (name, v) (group_In _ _ _ Hv)) as (r' & c' & Hr' & Hm').
  exists v, r', c'. auto.
Qed.

Ltac the_group H :=
  cbv [card_re seq foldr groups_of app star plus digits uppers] in H;
  repeat (destruct H as [H | H]; [try discriminate H|]); try contradiction H.

(** The [type] of a card payment is one of the two words of the pattern. *)
Lemma card_type_value value m :
  search card_re value = Some m ->
  exists v, group "type" (m_groups m) = Some v
            /\ (v = "GIROCARD" \/ v = "nicht GIRO").
Proof.
  intros Hs.
  destruct (card_group_text value m "type" Hs) as (v & r' & c' & Hv & Hin & Hm).
  { cbv. tauto. }
  exists v. split; [exact Hv|].
  the_group Hin. injection Hin as <-.
  inversion Hm as [ | | | ? ? ? ? H1 | ? ? ? ? H2 | | ]; subst.
  - inversion H1; subst. now left.
  - inversion H2; subst. now right.
Qed.

Lemma search_occurs r s m : search r s = Some m -> occurs r s.
Proof.
  intros Hs. apply search_from_split in Hs as (a & t & b & Hs & Hm & _).
  exists a, t, b, (m_groups m). auto.
Qed.

Lemma group_names_groups_of r : group_names r = map fst (groups_of r).
Proof.
  induction r as [ | | r1 IH1 r2 IH2 | r1 IH1 r2 IH2 | name r IH | ]; simpl;
    try reflexivity; try (rewrite map_app; congruence). now rewrite IH.
Qed.

Lemma NoDup_fst_unique (l : list (string * regex)) name r1 r2 :
  NoDup (map fst l) -> In (name, r1) l -> In (name, r2) l -> r1 = r2.
Proof.
  induction l as [|[n r] l IH]; simpl; [contradiction|].
  intros Hnd H1 H2. inversion Hnd as [|? ? Hnotin Hnd']; subst.
  destruct H1 as [H1 | H1], H2 as [H2 | H2].
  - congruence.
  - injection H1 as -> ->. contradiction Hnotin.
    apply list_elem_of_In. apply (in_map fst) in H2. exact H2.
  - injection H2 as -> ->. contradiction Hnotin.
    apply list_elem_of_In. apply (in_map fst) in H1. exact H1.
  - auto.
Qed.

Lemma card_group_names_NoDup : NoDup (map fst (groups_of card_re)).
Proof.
  cbv [card_re seq foldr groups_of app star plus digits uppers map fst].
  repeat (constructor;
          [intros Hin; apply list_elem_of_In in Hin; simpl in Hin;
           intuition discriminate|]).
  constructor.
Qed.

Lemma Forall2_map_fst {B} (P : string * string -> string * B -> Prop)
    (f : string -> string * string) (l : list (string * B)) :
  (forall x, In x l -> P (f x.1) x) -> Forall2 P (map f (map fst l)) l.
Proof.
  induction l as [|x l IH]; intros HP; simpl; constructor.
  - apply HP. now left.
  - apply IH. intros y Hy. apply HP. now right.
Qed.

Lemma slice_to_0 (s : string) : Py.slice_to s 0 = EmptyString.
Proof. now destruct s. Qed.

Lemma card_re_extend a t c :
  matches card_re t c -> all_in_class CAny a ->
  exists c', matches card_re (a +:+ t) c'.
Proof.
  intros Hm Ha. cbv [card_re seq foldr star] in *.
  inversion Hm as [ | | r1 r2 t1 t2 c1 c2 Hm1 Hm2 | | | | ]; subst.
  inversion Hm1 as [ | | | | | name r t0 c0 Hm0 | ]; subst.
  inversion Hm0 as [ | cc lo hi g t0 Hlo Hhi Hall | | | | | ]; subst.
  eexists. rewrite <- app_assoc_string.
  apply matches_seq; [|exact Hm2].
  apply matches_group. apply matches_rep.
  - lia.
  - discriminate.
  - apply all_in_class_app. auto.
Qed.

(** In a text without a line break a card payment is found at the very
    start. *)
Lemma card_search_start value m :
  all_in_class CAny value -> search card_re value = Some m -> m_start m = 0.
Proof.
  intros Hline Hs. unfold search in Hs.
  pose proof Hs as Hsplit. apply search_from_split in Hsplit.
  destruct Hsplit as (a & t & b & Hv & Hm & _).
  rewrite search_from_unfold in Hs.
  destruct (match_here card_re None value) as [[n caps]|] eqn:Hhere.
  - injection Hs as <-. reflexivity.
  - exfalso. subst value.
  apply all_in_class_app in Hline as [Ha _].
  destruct (card_re_extend a t _ Hm Ha) as [c' Hm'].
  destruct (match_here_complete card_re (a +:+ t) c' None b Hm' eq_refl) as [x Hx].
  rewrite app_assoc_string in Hx. congruence.
Qed.

(** X1. The sub-parser hands the text back unchanged, with no fields, exactly
    when the text ends with none of the three labels and no part of it is a
    text of the card-payment pattern. *)
Theorem parse_default_field_unchanged (value : string) :
  parse_default_field value = (value, [])
  <-> Forall (fun suffix => Py.endswith value suffix = false) type_suffixes
      /\ ~ occurs card_re value.
Proof.
  unfold parse_default_field. split.
  - destruct (find _ type_suffixes) as [suffix|] eqn:Hfind; [discriminate|].
    destruct (search card_re value) as [m|] eqn:Hs.
    + intros Heq. apply (f_equal snd) in Heq. simpl in Heq.
      apply (f_equal (@length _)) in Heq.
      unfold groupdict_items in Heq. rewrite length_map in Heq.
      discriminate Heq.
    + intros _. split.
      * apply Forall_forall. intros suffix Hin.
        apply (find_none _ _ Hfind suffix Hin).
      * now apply (search_None card_re value eq_refl).
  - intros [Hlabels Hno].
    destruct (find _ type_suffixes) as [suffix|] eqn:Hfind.
    + apply find_some in Hfind as [Hin Hend].
      rewrite Forall_forall in Hlabels. apply Hlabels in Hin. congruence.
    + now rewrite (proj2 (search_None card_re value eq_refl) Hno).
Qed.

(** X2. When the text ends with no label and holds a card payment, the ten
    fields the sub-parser derives carry the names of the ten groups of the
    pattern, in their order, and each value is a text of the pattern its
    group encloses; the type is GIROCARD or nicht GIRO; and the residual is a
    leading part of the text. *)
Theorem parse_default_field_card_fields (value : string) :
  Forall (fun suffix => Py.endswith value suffix = false) type_suffixes ->
  occurs card_re value ->
  Forall2 (fun kv nr => kv.1 = nr.1 /\ exists c, matches nr.2 kv.2 c)
          (snd (parse_default_field value)) (groups_of card_re)
  /\ (exists v, In ("type", v) (snd (parse_default_field value))
                /\ (v = "GIROCARD" \/ v = "nicht GIRO"))
  /\ exists rest, value = fst (parse_default_field value) +:+ rest.
Proof.
  intros Hlabels Hocc. unfold parse_default_field.
  destruct (find _ type_suffixes) as [suffix|] eqn:Hfind.
  { apply find_some in Hfind as [Hin Hend].
    rewrite Forall_forall in Hlabels. apply Hlabels in Hin. congruence. }
  destruct (search card_re value) as [m|] eqn:Hs.
  2: { apply (search_None card_re value eq_refl) in Hs. contradiction. }
  simpl. split; [|split].
  - unfold groupdict_items. rewrite group_names_groups_of.
    apply (Forall2_map_fst
             (fun kv nr => kv.1 = nr.1 /\ exists c, matches nr.2 kv.2 c)).
    intros [name r] Hin. simpl. split; [reflexivity|].
    destruct (card_group_text value m name Hs) as (v & r' & c' & Hv & Hin' & Hm).
    { rewrite group_names_groups_of. apply (in_map fst) in Hin. exact Hin. }
    rewrite Hv. simpl.
    rewrite (NoDup_fst_unique _ name r r' card_group_names_NoDup Hin Hin').
    eauto.
  - destruct (card_type_value value m Hs) as (v & Hv & Hty).
    exists v. split; [|exact Hty]. rewrite Hv. simpl. tauto.
  - pose proof Hs as Hsplit. apply search_from_split in Hsplit.
    destruct Hsplit as (a & t & b & Hv & _ & Hstart & _).
    exists (t +:+ b). simpl in Hstart. rewrite Hstart.
    subst value. unfold Py.slice_to. now rewrite substring_0_app.
Qed.

(** X3. For a text without a line break, whenever the sub-parser derives any
    field the residual it returns is the empty string. *)
Theorem parse_default_field_single_line (value : string) :
  all_in_class CAny value ->
  snd (parse_default_field value) <> [] ->
  fst (parse_default_field value) = EmptyString.
Proof.
  intros Hline. unfold parse_default_field.
  destruct (find _ type_suffixes) as [suffix|]; [reflexivity|].
  destruct (search card_re value) as [m|] eqn:Hs; simpl; [|contradiction].
  intros _. rewrite (card_search_start value m Hline Hs). apply slice_to_0.
Qed.

End SubParserMore.

(** ** More on the line normalizer *)

Section NormalizerMore.

Lemma substring_0_substring (s : string) (i j : nat) :
  j <= i -> substring 0 j (substring 0 i s) = substring 0 j s.
Proof.
  revert i j; induction s as [|c s IH]; intros [|i] [|j] Hji; simpl;
    try reflexivity; try lia.
  f_equal. apply IH. lia.
Qed.

Lemma substring_0_app_le (a b : string) (j : nat) :
  j <= String.length a -> substring 0 j (a +:+ b) = substring 0 j a.
Proof.
  revert j; induction a as [|c a IH]; intros j Hj.
  - simpl in Hj. replace j with 0 by lia. rewrite app_Empty. now destruct b.
  - rewrite app_String. destruct j as [|j]; [reflexivity|].
    simpl in *. f_equal. apply IH. lia.
Qed.

Lemma scan_prefix i value out :
  scan_result i value out ->
  forall j, j <= i -> Py.slice_to out j = Py.slice_to value j.
Proof.
  induction 1 as [ | i value out Hi Hget _ IH | i value out Hi Hget _ IH ];
    intros j Hj; [reflexivity | | apply IH; lia].
  rewrite IH by lia. unfold Py.slice_to.
  rewrite substring_0_app_le by (rewrite length_substring; lia).
  apply substring_0_substring. exact Hj.
Qed.

Lemma scan_length i value out :
  scan_result i value out ->
  String.length out <= String.length value
  /\ String.length value - String.length out <= (String.length value + 53 - i) / 54.
Proof.
  induction 1 as [ | i value out Hi Hget _ IH | i value out Hi Hget _ IH ].
  - split; lia.
  - rewrite length_cut in IH by exact Hi. destruct IH as [IH1 IH2]. split; [lia|].
    assert (Hdiv : (String.length value - 1 + 53 - (i + 54)) / 54 + 1
                   <= (String.length value + 53 - i) / 54).
    { replace ((String.length value - 1 + 53 - (i + 54)) / 54 + 1)
        with ((String.length value - 1 + 53 - (i + 54) + 1 * 54) / 54)
        by (rewrite Nat.div_add by lia; reflexivity).
      apply Nat.Div0.div_le_mono. lia. }
    lia.
  - destruct IH as [IH1 IH2]. split; [lia|].
    assert (Hdiv : (String.length value + 53 - (i + 54)) / 54
                   <= (String.length value + 53 - i) / 54)
      by (apply Nat.Div0.div_le_mono; lia).
    lia.
Qed.

Lemma drop_blanks_cut (value : string) :
  forall i,
    String.get i value = Some " "%char ->
    drop_blanks (Py.slice_to value i +:+ Py.slice_from value (i + 1))
    = drop_blanks value.
Proof.
  unfold Py.slice_to, Py.slice_from.
  induction value as [|c value IH]; intros [|i] Hget; simpl in Hget; try discriminate.
  - injection Hget as ->. simpl. rewrite app_Empty, Nat.sub_0_r.
    now rewrite substring_0_length.
  - simpl. rewrite (IH i Hget). reflexivity.
Qed.

Lemma scan_drop_blanks i value out :
  scan_result i value out -> drop_blanks out = drop_blanks value.
Proof.
  induction 1 as [ | i value out Hi Hget _ IH | i value out Hi Hget _ IH ];
    [reflexivity | | exact IH].
  rewrite IH. now apply drop_blanks_cut.
Qed.

Lemma remove_superfluous_scan (value : string) :
  scan_result 53 value (remove_superfluous_reference_whitespace value).
Proof. apply remove_superfluous_loop_scan. lia. Qed.

(** X4. The normalizer never lengthens a text and cuts at most one character
    for every 54 of it; the first 53 characters stay as they are. *)
Theorem remove_superfluous_length (value : string) :
  String.length (remove_superfluous_reference_whitespace value)
  <= String.length value
  /\ String.length value
     <= String.length (remove_superfluous_reference_whitespace value)
        + String.length value / 54
  /\ Py.slice_to (remove_superfluous_reference_whitespace value) 53
     = Py.slice_to value 53.
Proof.
  pose proof (remove_superfluous_scan value) as Hscan.
  destruct (scan_length _ _ _ Hscan) as [Hle Hcut].
  replace (String.length value + 53 - 53) with (String.length value) in Hcut by lia.
  split; [exact Hle|]. split; [lia|].
  apply (scan_prefix _ _ _ Hscan). lia.
Qed.

(** X5. The normalizer cuts out blanks only: without their blanks, the text
    it returns and the text it was given are the same. *)
Theorem remove_superfluous_keeps_text (value : string) :
  drop_blanks (remove_superfluous_reference_whitespace value) = drop_blanks value.
Proof. apply (scan_drop_blanks 53), remove_superfluous_scan. Qed.

End NormalizerMore.

(** ** More on the tokenizer *)

Section TokenizerMore.
Import Re.

(** A text with no white space at either end, as [str.strip] leaves it. *)
Lemma rstrip_rstrip (s : string) : Py.rstrip (Py.rstrip s) = Py.rstrip s.
Proof.
  induction s as [|c s IH]; [reflexivity|]. simpl.
  destruct (Py.rstrip s) as [|d r] eqn:Hr.
  - destruct (Py.isspace c) eqn:Hc; [reflexivity|]. simpl. now rewrite Hc.
  - change (Py.rstrip (String c (String d r)))
      with (match Py.rstrip (String d r) with
            | EmptyString => if Py.isspace c then EmptyString else String c EmptyString
            | r' => String c r'
            end).
    rewrite IH. reflexivity.
Qed.

Lemma lstrip_fixed (c : ascii) (s : string) :
  Py.isspace c = false -> Py.lstrip (String c s) = String c s.
Proof. intros Hc. simpl. now rewrite Hc. Qed.

Lemma rstrip_head (c : ascii) (s : string) :
  Py.isspace c = false -> exists r, Py.rstrip (String c s) = String c r.
Proof.
  intros Hc. simpl. destruct (Py.rstrip s); rewrite ?Hc; eauto.
Qed.

Lemma lstrip_head (s : string) :
  Py.lstrip s = EmptyString
  \/ exists c r, Py.lstrip s = String c r /\ Py.isspace c = false.
Proof.
  induction s as [|c s IH]; [now left|]. simpl.
  destruct (Py.isspace c) eqn:Hc; [exact IH|]. right. eauto.
Qed.

Lemma strip_strip (s : string) : Py.strip (Py.strip s) = Py.strip s.
Proof.
  unfold Py.strip.
  destruct (lstrip_head s) as [-> | (c & r & -> & Hc)]; [reflexivity|].
  destruct (rstrip_head c r Hc) as [r' Hr'].
  rewrite Hr', (lstrip_fixed c r' Hc), <- Hr'. apply rstrip_rstrip.
Qed.

Lemma reference_segments_tagged reference matches :
  Forall (fun m => is_tag (tag_of m)) matches ->
  forall field start,
    is_tag field ->
    map fst (reference_segments reference field start matches)
    = field :: map tag_of matches
    /\ Forall (fun kv : string * string => is_tag kv.1 /\ Py.strip kv.2 = kv.2)
              (reference_segments reference field start matches).
Proof.
  induction 1 as [|m matches Htag _ IH]; intros field start Hfield;
    pose proof (is_tag_not_default _ Hfield) as Hne;
    apply String.eqb_neq in Hne; simpl; unfold yield_segment; rewrite Hne.
  - split; [reflexivity|]. repeat constructor; [exact Hfield|apply strip_strip].
  - destruct (IH (tag_of m) (m_end m) Htag) as [IHk IHv]. simpl. split.
    + now rewrite IHk.
    + constructor; [|exact IHv]. split; [exact Hfield|apply strip_strip].
Qed.

(** X6. What the tokenizer yields, in order: the fields derived from the
    text before the first marker, the [default] pair of that text, and then
    one pair for each marker found, under the marker's tag and with a value
    that has no white space at either end. *)
Theorem parse_reference_fields_shape (reference : string) :
  exists tagged,
    parse_reference_fields reference
    = snd (parse_default_field (first_segment reference))
      ++ ("default", fst (parse_default_field (first_segment reference)))
      :: tagged
    /\ map fst tagged = map tag_of (finditer tag_re reference)
    /\ Forall (fun kv : string * string => is_tag kv.1 /\ Py.strip kv.2 = kv.2)
              tagged.
Proof.
  unfold parse_reference_fields, first_segment.
  pose proof (finditer_tags reference) as Htags.
  destruct (finditer tag_re reference) as [|m matches]; simpl.
  - exists []. unfold yield_segment. simpl.
    destruct (parse_default_field _) as [v other]. simpl.
    split; [reflexivity|]. split; [reflexivity|constructor].
  - inversion Htags as [|? ? Hm Hrest]; subst.
    destruct (reference_segments_tagged reference matches Hrest
                (tag_of m) (m_end m) Hm) as [Hk Hv].
    exists (reference_segments reference (tag_of m) (m_end m) matches).
    unfold yield_segment at 1. simpl.
    destruct (parse_default_field _) as [v other]. simpl.
    rewrite <- app_assoc. simpl. split; [reflexivity|]. split; assumption.
Qed.

Lemma app_Empty_r (a : string) : a +:+ EmptyString = a.
Proof.
  induction a as [|c a IH]; [reflexivity|]. rewrite app_String. now rewrite IH.
Qed.

Lemma substring_add (s : string) :
  forall i a b, substring i (a + b) s = substring i a s +:+ substring (i + a) b s.
Proof.
  induction s as [|c s IH]; intros [|i] [|a] b; simpl;
    try reflexivity; try (now destruct b).
  - rewrite app_String. f_equal. apply (IH 0).
  - apply (IH i 0).
  - apply (IH i (S a)).
Qed.

Lemma slice_from_split (s : string) (i j : nat) :
  i <= j -> j <= String.length s ->
  Py.slice_from s i = Py.slice s i j +:+ Py.slice_from s j.
Proof.
  intros Hij Hj. unfold Py.slice_from, Py.slice.
  replace (String.length s - i) with ((j - i) + (String.length s - j)) by lia.
  rewrite substring_add. do 2 f_equal. lia.
Qed.

(** What a match of the marker pattern has consumed: a tag and one blank. *)
Lemma tag_match_text p s n caps :
  match_here tag_re p s = Some (n, caps) ->
  exists tag, is_tag tag /\ group "1" caps = Some tag
              /\ Py.slice_to s n = tag +:+ " " /\ n = String.length tag + 1.
Proof.
  intros Hm. apply ReFacts.match_here_sound in Hm.
  destruct Hm as (t & Hm & Hn & Ht).
  cbv [tag_re seq foldr] in Hm.
  repeat match goal with
         | H : ReSem.matches (Seq _ _) _ _ |- _ => inversion H; subst; clear H
         | H : ReSem.matches (Group _ _) _ _ |- _ => inversion H; subst; clear H
         | H : ReSem.matches (Lit _) _ _ |- _ => inversion H; subst; clear H
         | H : ReSem.matches Bound _ _ |- _ => inversion H; subst; clear H
         | H : ReSem.matches (Rep _ _ _ _) _ _ |- _ => inversion H; subst; clear H
         end.
  match goal with H : forall h, Some 4 = Some h -> _ |- _ =>
    specialize (H 4 eq_refl) end.
  match goal with H : ReSem.all_in_class _ ?u |- _ => exists (u +:+ "+") end.
  split; [|split; [|split]].
  - eexists. split; [reflexivity|]. split; [lia|assumption].
  - reflexivity.
  - rewrite Ht. rewrite !app_Empty, !app_Empty_r. reflexivity.
  - rewrite !app_Empty, !app_Empty_r, !length_app. simpl. lia.
Qed.

Lemma reference_segments_pieces (reference : string) (matches : list rmatch) :
  Forall (fun m => is_tag (tag_of m)) matches ->
  forall field start,
    reference_segments reference field start matches
    = yield_segment field (Py.strip (head_piece reference start matches))
      ++ map (fun tr : string * string => (tr.1, Py.strip tr.2))
             (raw_pieces reference matches).
Proof.
  induction 1 as [|m matches Htag _ IH]; intros field start; simpl.
  - now rewrite app_nil_r.
  - rewrite IH. f_equal. unfold yield_segment at 1.
    pose proof (is_tag_not_default _ Htag) as Hne.
    apply String.eqb_neq in Hne. rewrite Hne. reflexivity.
Qed.

Lemma raw_pieces_tags (reference : string) (matches : list rmatch) :
  Forall (fun m => is_tag (tag_of m)) matches ->
  Forall (fun tr : string * string => is_tag tr.1) (raw_pieces reference matches).
Proof. induction 1; simpl; constructor; assumption. Qed.

(** The matches of the marker pattern tile the text behind [seg_start]: each
    lies behind the piece before it and spans its tag and one blank. *)
Lemma finditer_from_partition (reference : string) :
  forall s p start skip pre seg_start,
    reference = pre +:+ s -> String.length pre = start ->
    seg_start <= start + skip ->
    Py.slice_from reference seg_start
    = head_piece reference seg_start (finditer_from tag_re p s start skip)
      +:+ join_tagged (raw_pieces reference (finditer_from tag_re p s start skip)).
Proof.
  induction s as [|c s IH]; intros p start skip pre seg_start Href Hpre Hseg.
  - destruct skip as [|skip]; simpl; [|now rewrite app_Empty_r].
    destruct (match_here tag_re p EmptyString) as [[n caps]|] eqn:Hm;
      [|simpl; now rewrite app_Empty_r].
    apply tag_match_text in Hm. destruct Hm as (tag & _ & _ & Ht & Hn).
    apply (f_equal String.length) in Ht. unfold Py.slice_to in Ht.
    rewrite length_substring, length_app in Ht. simpl in Ht. lia.
  - assert (Href' : reference = (pre +:+ String c EmptyString) +:+ s)
      by (rewrite ReFacts.app_assoc_string; exact Href).
    assert (Hpre' : String.length (pre +:+ String c EmptyString) = S start)
      by (rewrite length_app; simpl; lia).
    destruct skip as [|skip]; simpl;
      [|apply (IH _ _ _ _ _ Href' Hpre'); lia].
    destruct (match_here tag_re p (String c s)) as [[n caps]|] eqn:Hm;
      [|apply (IH _ _ _ _ _ Href' Hpre'); lia].
    apply tag_match_text in Hm. destruct Hm as (tag & Htag & Hg & Ht & Hn).
    simpl. unfold tag_of at 1. simpl. rewrite Hg. simpl.
    rewrite <- (IH (Some c) (S start) (Nat.pred n) _ (start + n) Href' Hpre')
      by lia.
    assert (Hlen : n <= String.length (String c s)).
    { apply (f_equal String.length) in Ht. unfold Py.slice_to in Ht.
      rewrite length_substring, length_app in Ht. simpl in Ht. simpl. lia. }
    assert (Htotal : String.length reference = start + String.length (String c s))
      by (rewrite Href, length_app; lia).
    rewrite (slice_from_split reference seg_start start) by lia.
    f_equal.
    rewrite (slice_from_split reference start (start + n)) by lia.
    rewrite <- !ReFacts.app_assoc_string. f_equal.
    unfold Py.slice. replace (start + n - start) with n by lia.
    rewrite Href at 1. rewrite <- Hpre, substring_app_r. exact Ht.
Qed.

(** X7. The tokenizer cuts the text at the matches of the marker pattern,
    and at them only, and loses nothing in between.  With the head piece the
    text before the first match, and for each match, in order, its tag and
    the piece from its end up to the next match: the text is the head piece
    followed by each tag, one blank and its piece; the head piece, trimmed,
    goes through the sub-parser, and every other piece is yielded trimmed
    under the tag of its match. *)
Theorem parse_reference_fields_partition (reference : string) :
  let matches := finditer tag_re reference in
  let head := head_piece reference 0 matches in
  let pieces := raw_pieces reference matches in
  reference = head +:+ join_tagged pieces
  /\ Forall (fun tr : string * string => is_tag tr.1) pieces
  /\ parse_reference_fields reference
     = snd (parse_default_field (Py.strip head))
       ++ ("default", fst (parse_default_field (Py.strip head)))
       :: map (fun tr : string * string => (tr.1, Py.strip tr.2)) pieces.
Proof.
  intros matches head pieces. subst matches head pieces.
  pose proof (finditer_tags reference) as Htags.
  split; [|split].
  - rewrite <- (slice_from_0 reference) at 1.
    apply (finditer_from_partition reference reference None 0 0 EmptyString 0);
      auto.
  - now apply raw_pieces_tags.
  - unfold parse_reference_fields.
    rewrite (reference_segments_pieces reference _ Htags).
    unfold yield_segment. simpl.
    destruct (parse_default_field _) as [v other]. simpl.
    rewrite <- app_assoc. reflexivity.
Qed.

End TokenizerMore.

(** ** The dictionary of fields *)

Section FieldsMore.
Import Re ReSem.

Lemma foldl_insert_lookup (l : list (string * string)) :
  forall (m : gmap string string) k,
    foldl (fun m kv => <[kv.1 := kv.2]> m) m l !! k
    = match last_value k l with Some v => Some v | None => m !! k end.
Proof.
  induction l as [|[k' v] l IH]; intros m k; simpl; [reflexivity|].
  rewrite IH. destruct (last_value k l) as [w|]; [reflexivity|].
  destruct (String.eqb_spec k' k) as [->|Hne].
  - apply lookup_insert_eq.
  - now apply lookup_insert_ne.
Qed.

(** [dict(pairs)[k]] is the value of the last pair with the key [k]. *)
Lemma dict_lookup (l : list (string * string)) (k : string) :
  Py.dict l !! k = last_value k l.
Proof.
  unfold Py.dict. rewrite foldl_insert_lookup, lookup_empty.
  now destruct (last_value k l).
Qed.

Lemma last_value_app k l1 l2 :
  last_value k (l1 ++ l2)
  = match last_value k l2 with Some v => Some v | None => last_value k l1 end.
Proof.
  induction l1 as [|[k' v] l1 IH]; simpl.
  - now destruct (last_value k l2).
  - rewrite IH. now destruct (last_value k l2).
Qed.

Lemma last_value_In k l v : last_value k l = Some v -> In (k, v) l.
Proof.
  induction l as [|[k' w] l IH]; simpl; [discriminate|].
  destruct (last_value k l) as [x|].
  - intros [= ->]. right. now apply IH.
  - destruct (String.eqb_spec k' k) as [->|_]; [|discriminate].
    intros [= ->]. now left.
Qed.

Lemma last_value_None k (l : list (string * string)) :
  Forall (fun kv : string * string => kv.1 <> k) l -> last_value k l = None.
Proof.
  induction 1 as [|[k' v] l Hk _ IH]; simpl; [reflexivity|].
  rewrite IH. simpl in Hk. now destruct (String.eqb_spec k' k).
Qed.

Lemma parse_reference_fields_tail (reference : string) :
  exists tagged,
    parse_reference_fields reference
    = snd (parse_default_field (first_segment reference))
      ++ ("default", fst (parse_default_field (first_segment reference)))
      :: tagged
    /\ Forall (fun kv : string * string => is_tag kv.1) tagged.
Proof.
  unfold parse_reference_fields, first_segment.
  pose proof (finditer_tags reference) as Htags.
  destruct (finditer tag_re reference) as [|m matches]; simpl.
  - exists []. unfold yield_segment. simpl.
    destruct (parse_default_field _) as [v other]. simpl.
    split; [reflexivity|constructor].
  - inversion Htags as [|? ? Hm Hrest]; subst.
    destruct (reference_segments_tagged reference matches Hrest
                (tag_of m) (m_end m) Hm) as [_ Hv].
    exists (reference_segments reference (tag_of m) (m_end m) matches).
    unfold yield_segment at 1. simpl.
    destruct (parse_default_field _) as [v other]. simpl.
    rewrite <- app_assoc. simpl. split; [reflexivity|].
    eapply Forall_impl; [|exact Hv]. now intros kv [Hk _].
Qed.

(** A key that is no tag is looked up in the pairs of the first segment. *)
Lemma fields_of_untagged (text k : string) :
  ~ is_tag k ->
  fields_of text !! k
  = last_value k
      (snd (parse_default_field
              (first_segment (remove_superfluous_reference_whitespace text)))
       ++ [("default",
            fst (parse_default_field
                   (first_segment (remove_superfluous_reference_whitespace text))))]).
Proof.
  intros Hk. unfold fields_of. rewrite dict_lookup.
  destruct (parse_reference_fields_tail
              (remove_superfluous_reference_whitespace text))
    as (tagged & -> & Htags).
  change (?a ++ ?x :: tagged) with (a ++ [x] ++ tagged).
  rewrite app_assoc, last_value_app, last_value_None; [reflexivity|].
  eapply Forall_impl; [|exact Htags].
  intros kv Htag Heq. simpl in Htag, Heq. subst k. contradiction.
Qed.

Lemma not_tag_lower (k : string) :
  match k with String c _ => Py.is_ascii_upper c = false | EmptyString => True end ->
  ~ is_tag k.
Proof.
  intros Hk (u & -> & Hlen & Hall).
  destruct u as [|c u]; simpl in Hlen; [lia|].
  rewrite app_String in Hk. destruct Hall as [Hc _]. simpl in Hc.
  unfold Py.is_ascii_upper in Hk. congruence.
Qed.

(** The names of the fields the sub-parser derives. *)
Lemma derived_names (value k v : string) :
  In (k, v) (snd (parse_default_field value)) ->
  In k ("recipient" :: "type" :: group_names card_re).
Proof.
  unfold parse_default_field.
  destruct (find _ type_suffixes) as [s|]; cbn [snd].
  - intros [[= <- _] | [[= <- _] | []]]; simpl; auto.
  - destruct (search card_re value) as [m|]; cbn [snd]; [|contradiction].
    unfold groupdict_items. intros Hin. apply in_map_iff in Hin.
    destruct Hin as (name & [= <- _] & Hname). now do 2 right.
Qed.

(** The [type] the sub-parser derives is a label or a word of the card
    pattern. *)
Lemma derived_type (value v : string) :
  In ("type", v) (snd (parse_default_field value)) ->
  In v (type_suffixes ++ ["GIROCARD"; "nicht GIRO"]).
Proof.
  unfold parse_default_field.
  destruct (find _ type_suffixes) as [s|] eqn:Hfind; cbn [snd].
  - intros [[=] | [[= <-] | []]].
    apply find_some in Hfind as [Hin _]. apply in_or_app. now left.
  - destruct (search card_re value) as [m|] eqn:Hs; cbn [snd]; [|contradiction].
    unfold groupdict_items. intros Hin. apply in_map_iff in Hin.
    destruct Hin as (name & [= -> <-] & _).
    destruct (card_type_value value m Hs) as (w & -> & Hw).
    apply in_or_app. right. destruct Hw as [-> | ->]; simpl; auto.
Qed.

Lemma last_value_snoc_ne k (l : list (string * string)) d v :
  k <> d -> last_value k (l ++ [(d, v)]) = last_value k l.
Proof.
  intros Hne. rewrite last_value_app. simpl.
  destruct (String.eqb_spec d k) as [->|_]; [contradiction|reflexivity].
Qed.

Lemma fields_of_type (text v : string) :
  fields_of text !! "type" = Some v ->
  In v (type_suffixes ++ ["GIROCARD"; "nicht GIRO"]).
Proof.
  rewrite fields_of_untagged by (apply not_tag_lower; reflexivity).
  rewrite last_value_snoc_ne by discriminate.
  intros Hv. apply last_value_In in Hv. eapply derived_type, Hv.
Qed.

(** X8. The dictionary of fields always has the key [default]: its value is
    what the sub-parser leaves of the text before the first marker. *)
Theorem fields_of_default (text : string) :
  fields_of text !! "default"
  = Some (fst (parse_default_field
                 (first_segment (remove_superfluous_reference_whitespace text)))).
Proof.
  rewrite fields_of_untagged.
  - rewrite last_value_app. reflexivity.
  - intros Htag. now apply is_tag_not_default in Htag.
Qed.

(** X9. The dictionary of fields has no other keys than [default], the tags
    of markers, and the names of the fields the sub-parser derives. *)
Theorem fields_of_keys (text k : string) :
  is_Some (fields_of text !! k) ->
  k = "default" \/ is_tag k \/ In k ("recipient" :: "type" :: group_names card_re).
Proof.
  intros [v Hv]. unfold fields_of in Hv. rewrite dict_lookup in Hv.
  apply last_value_In in Hv.
  destruct (parse_reference_fields_tail
              (remove_superfluous_reference_whitespace text))
    as (tagged & Heq & Htags).
  rewrite Heq in Hv. apply in_app_or in Hv as [Hv | [Hv | Hv]].
  - do 2 right. eapply derived_names, Hv.
  - left. congruence.
  - right; left. rewrite Forall_forall in Htags. apply (Htags _ Hv).
Qed.

End FieldsMore.

(** ** More on the assembler *)

Section RecordMore.
Context `{Library}.

Lemma truthy_Some (o : option string) (v : string) :
  Py.truthy o = Some v -> o = Some v.
Proof. destruct o as [[|c s]|]; simpl; congruence. Qed.

(** Every [type] the decoder derives names a transaction type. *)
Lemma find_transaction_type_derived (v : string) :
  In v (type_suffixes ++ ["GIROCARD"; "nicht GIRO"]) ->
  find_transaction_type v
  = Some (if String.eqb v SEPA_BASISLASTSCHRIFT then "DIRECTDEBIT"
          else if (String.eqb v "GIROCARD" || String.eqb v "nicht GIRO")%bool
               then "POS" else "XFER").
Proof.
  simpl. intros [<- | [<- | [<- | [<- | [<- | []]]]]]; vm_compute; reflexivity.
Qed.

Lemma classify_type (text v : string) :
  Py.truthy (fields_of text !! "type") = Some v ->
  In v (type_suffixes ++ ["GIROCARD"; "nicht GIRO"])
  /\ classify (fields_of text) = find_transaction_type v.
Proof.
  intros Hv. unfold classify. rewrite Hv. split; [|reflexivity].
  apply (fields_of_type text), truthy_Some, Hv.
Qed.

Lemma parse_record_trntype (line : gmap string string) (text : string) stmt log :
  line !! COL_VERWENDUNGSZWECK = Some text ->
  parse_record line = Ok (stmt, log) ->
  exists amt trn,
    classify_or_sign (fields_of text) amt = Ok trn /\ trntype stmt = Some trn.
Proof.
  intros Htext Hp.
  destruct (parse_record_inv line text stmt log Htext Hp)
    as (b & w & u & sym & bd & vd & amt & trn & Hread & Hr).
  destruct Hread as (_ & _ & _ & _ & _ & _ & _ & _ & Htrn).
  injection Hr as -> _. exists amt, trn. auto.
Qed.

(** X10. A [type] field always classifies the line: the labels of transfers
    give [XFER], the label of direct debits [DIRECTDEBIT], the two words of a
    card payment [POS]; no other value of the field occurs, and the sign of
    the amount is not asked. *)
Theorem parse_record_type_field (line : gmap string string) (text v : string)
    stmt log :
  line !! COL_VERWENDUNGSZWECK = Some text ->
  parse_record line = Ok (stmt, log) ->
  Py.truthy (fields_of text !! "type") = Some v ->
  (In v [SEPA_UEBERWEISUNG; SEPA_LOHN_GEHALT] /\ trntype stmt = Some "XFER")
  \/ (v = SEPA_BASISLASTSCHRIFT /\ trntype stmt = Some "DIRECTDEBIT")
  \/ (In v ["GIROCARD"; "nicht GIRO"] /\ trntype stmt = Some "POS").
Proof.
  intros Htext Hp Hv.
  destruct (parse_record_trntype line text stmt log Htext Hp)
    as (amt & trn & Htrn & ->).
  destruct (classify_type text v Hv) as [Hin Hclass].
  unfold classify_or_sign in Htrn. rewrite Hclass in Htrn.
  simpl in Hin.
  destruct Hin as [<- | [<- | [<- | [<- | [<- | []]]]]];
    vm_compute in Htrn; injection Htrn as <-; simpl; tauto.
Qed.

(** X11. Where the constructor presets the transaction type, as the one of
    [ofxstatement] does with [CHECK], the line [parse_record] returns has
    the preset type when no [type] field with a text is decoded, and XFER,
    DIRECTDEBIT or POS when one is: the sign of the amount decides for no
    row. *)
Theorem parse_record_trntype_values (line : gmap string string)
    (text preset : string) stmt log :
  StatementLine_trntype = Some preset ->
  line !! COL_VERWENDUNGSZWECK = Some text ->
  parse_record line = Ok (stmt, log) ->
  (Py.truthy (fields_of text !! "type") = None /\ trntype stmt = Some preset)
  \/ (exists v t,
        Py.truthy (fields_of text !! "type") = Some v
        /\ trntype stmt = Some t /\ In t ["XFER"; "DIRECTDEBIT"; "POS"]).
Proof.
  intros Hpreset Htext Hp.
  destruct (parse_record_trntype line text stmt log Htext Hp)
    as (amt & trn & Htrn & ->).
  unfold classify_or_sign in Htrn.
  destruct (Py.truthy (fields_of text !! "type")) as [v|] eqn:Hv.
  - right. exists v, trn. split; [reflexivity|]. split; [reflexivity|].
    destruct (classify_type text v Hv) as [Hin Hclass].
    rewrite Hclass, (find_transaction_type_derived v Hin) in Htrn.
    injection Htrn as <-.
    destruct (String.eqb v SEPA_BASISLASTSCHRIFT); [simpl; tauto|].
    destruct (String.eqb v "GIROCARD" || String.eqb v "nicht GIRO")%bool;
      simpl; tauto.
  - left. split; [reflexivity|].
    unfold classify in Htrn. rewrite Hv, Hpreset in Htrn. congruence.
Qed.

Lemma parse_default_field_suffix (name label : string) :
  In label type_suffixes ->
  parse_default_field (name +:+ label)
  = (EmptyString, [("recipient", name); ("type", label)]).
Proof.
  intros Hin. unfold parse_default_field.
  rewrite (find_suffix (name +:+ label) label Hin (endswith_app name label)).
  now rewrite drop_suffix_len_app.
Qed.

(** X12. A text whose part before the first marker ends in one of the three
    labels: the payee is what stands before the label, unless that is empty,
    and the transaction type is the one of the label. *)
Theorem parse_record_label (line : gmap string string) (text name label : string)
    stmt log :
  line !! COL_VERWENDUNGSZWECK = Some text ->
  parse_record line = Ok (stmt, log) ->
  In label type_suffixes ->
  first_segment (remove_superfluous_reference_whitespace text) = name +:+ label ->
  payee stmt = Py.truthy (Some name)
  /\ trntype stmt
     = Some (if String.eqb label SEPA_BASISLASTSCHRIFT then "DIRECTDEBIT"
             else "XFER").
Proof.
  intros Htext Hp Hlabel Hseg.
  assert (Hfield : forall k, k = "recipient" \/ k = "type" ->
            fields_of text !! k
            = last_value k [("recipient", name); ("type", label)]).
  { intros k Hk. rewrite fields_of_untagged, Hseg, parse_default_field_suffix
      by (try exact Hlabel; destruct Hk as [-> | ->]; apply not_tag_lower; reflexivity).
    apply last_value_snoc_ne. destruct Hk as [-> | ->]; discriminate. }
  destruct (parse_record_inv line text stmt log Htext Hp)
    as (b & w & u & sym & bd & vd & amt & trn & Hread & Hr).
  destruct Hread as (_ & _ & _ & _ & _ & _ & _ & _ & Htrn).
  injection Hr as -> _. simpl. split.
  - rewrite (Hfield "recipient") by now left. reflexivity.
  - unfold classify_or_sign, classify in Htrn.
    rewrite (Hfield "type") in Htrn by now right. simpl in Htrn.
    simpl in Hlabel.
    destruct Hlabel as [<- | [<- | [<- | []]]];
      vm_compute in Htrn; injection Htrn as <-; reflexivity.
Qed.

(** X14. The counterparty account of a line, exactly: the text of the
    [IBAN+] field without blanks is an IBAN the library reads, and it is the
    account; the bank is the one the [BIC+] field gives, read the same way,
    and only where that field is empty or is no BIC the one the library knows
    for the IBAN; the branch is the branch code of that bank, if it has one.
    Where there is no such IBAN or no such bank, the line has no counterparty
    account. *)
Theorem parse_record_bank_account (line : gmap string string) (text : string)
    stmt log (account : BankAccount) :
  line !! COL_VERWENDUNGSZWECK = Some text ->
  parse_record line = Ok (stmt, log) ->
  bank_account_to stmt = Some account
  <-> exists value,
        Py.truthy (fields_of text !! SepaField.IBAN) = Some value
        /\ IBAN_of_str (Py.replace1 " " "" value) = Some (acct_id account)
        /\ ((exists bic_value,
               Py.truthy (fields_of text !! SepaField.BIC) = Some bic_value
               /\ BIC_of_str (Py.replace1 " " "" bic_value)
                  = Some (bank_id account))
            \/ ((forall bic_value,
                   Py.truthy (fields_of text !! SepaField.BIC) = Some bic_value ->
                   BIC_of_str (Py.replace1 " " "" bic_value) = None)
                /\ IBAN_bic (acct_id account) = Some (bank_id account)))
        /\ branch_id account = Py.truthy (BIC_branch_code (bank_id account)).
Proof.
  intros Htext Hp.
  destruct (parse_record_inv line text stmt log Htext Hp)
    as (b & w & u & sym & bd & vd & amt & trn & _ & Hr).
  injection Hr as -> _.
  change (bank_account_to (record_of bd vd text amt sym trn).1)
    with (decode_bank_account (fields_of text)).1.
  unfold decode_bank_account, decode_bic. split.
  - intros Hacc.
    destruct (Py.truthy (fields_of text !! SepaField.IBAN)) as [value|];
      [|discriminate].
    exists value. split; [reflexivity|].
    destruct (IBAN_of_str (Py.replace1 " " "" value)) as [iban|]; [|discriminate].
    destruct (Py.truthy (fields_of text !! SepaField.BIC)) as [bic_value|].
    + destruct (BIC_of_str (Py.replace1 " " "" bic_value)) as [bic|] eqn:Hbic.
      * injection Hacc as <-. simpl. eauto 6.
      * simpl in Hacc.
        destruct (IBAN_bic iban) as [bic|] eqn:Hreg; [|discriminate].
        injection Hacc as <-. simpl. split; [reflexivity|].
        split; [|reflexivity]. right. split; [|exact Hreg].
        intros bic_value' [= <-]. exact Hbic.
    + simpl in Hacc.
      destruct (IBAN_bic iban) as [bic|] eqn:Hreg; [|discriminate].
      injection Hacc as <-. simpl. split; [reflexivity|].
      split; [|reflexivity]. right. split; [|exact Hreg]. discriminate.
  - intros (value & -> & Hiban & Hbank & Hbranch).
    destruct account as [bank iban branch]. simpl in *. subst branch.
    rewrite Hiban.
    destruct Hbank as [(bic_value & -> & ->) | [Hnone Hreg]]; [reflexivity|].
    destruct (Py.truthy (fields_of text !! SepaField.BIC)) as [bic_value|].
    + rewrite (Hnone bic_value eq_refl). simpl. now rewrite Hreg.
    + simpl. now rewrite Hreg.
Qed.

End RecordMore.

(** ** Amounts, the rows of a file, the account type *)

Section FileMore.
Context `{Library}.

Lemma replace1_app (c : ascii) (t a b : string) :
  Py.replace1 c t (a +:+ b) = Py.replace1 c t a +:+ Py.replace1 c t b.
Proof.
  induction a as [|d a IH]; [reflexivity|].
  rewrite app_String. simpl. rewrite IH.
  destruct (Ascii.eqb c d); [|reflexivity].
  symmetry. apply ReFacts.app_assoc_string.
Qed.

(** X15. [parse_decimal] drops every dot before the library sees the text:
    with a dot more, anywhere, the amount is the same. *)
Theorem parse_decimal_dot (a b : string) :
  parse_decimal (a +:+ "." +:+ b) = parse_decimal (a +:+ b).
Proof.
  unfold parse_decimal. now rewrite !replace1_app.
Qed.


(** X17. The account type of a file is [SAVINGS] only for a title that names
    the savings product and neither of the two checking products; for every
    other title it is [CHECKING]. *)
Theorem account_type_of_savings (title : string) :
  account_type_of title = SAVINGS
  <-> Py.contains "SpardaTagesgeld" title = true
      /\ Py.contains "SpardaGiro" title = false
      /\ Py.contains "SpardaYoung" title = false.
Proof.
  unfold account_type_of, find_account_type, account_types. simpl.
  destruct (Py.contains "SpardaGiro" title); simpl;
    [split; [discriminate | intros (_ & [=] & _)]|].
  destruct (Py.contains "SpardaYoung" title); simpl;
    [split; [discriminate | intros (_ & _ & [=])]|].
  destruct (Py.contains "SpardaTagesgeld" title); simpl.
  - tauto.
  - split; [discriminate | intros ([=] & _)].
Qed.

End FileMore.

(** ** Further closed examples *)

Section MoreExamples.
Import Sample Re ReSem.

Lemma readable_sepa :
  @readable Sample.library row_sepa
    "13.02.2024" "14.02.2024" text_sepa "-500,00" "EUR"
    (berlin 13) (berlin 14) (Dec true "50000" (-2)) "XFER".
Proof. unfold readable; repeat split; vm_compute; reflexivity. Qed.

Lemma text_card_no_label :
  Forall (fun suffix => Py.endswith text_card suffix = false) type_suffixes.
Proof. repeat constructor. Qed.

Lemma text_card_occurs : occurs card_re text_card.
Proof.
  assert (Hs : is_Some (search card_re text_card))
    by (vm_compute; eexists; reflexivity).
  destruct Hs as [m Hs]. exact (search_occurs _ _ _ Hs).
Qed.

Lemma parse_default_field_card_fields_witness :
  map fst (snd (parse_default_field text_card)) = group_names card_re
  /\ exists v, In ("type", v) (snd (parse_default_field text_card))
               /\ (v = "GIROCARD" \/ v = "nicht GIRO").
Proof.
  destruct (parse_default_field_card_fields text_card
              text_card_no_label text_card_occurs) as (Hall & Htype & _).
  split; [|exact Htype].
  rewrite group_names_groups_of.
  clear Htype. induction Hall as [|kv nr l l' [Hk _] _ IH]; simpl; congruence.
Defined.

Lemma parse_default_field_single_line_witness :
  fst (parse_default_field text_card) = EmptyString.
Proof.
  apply parse_default_field_single_line.
  - vm_compute. tauto.
  - vm_compute. discriminate.
Defined.

Lemma fields_of_keys_witness :
  "pan" = "default" \/ is_tag "pan"
  \/ In "pan" ("recipient" :: "type" :: group_names card_re).
Proof.
  apply (fields_of_keys text_card_with_ref).
  vm_compute. eexists. reflexivity.
Defined.

Lemma parse_record_type_field_witness :
  exists stmt log,
    @parse_record Sample.library row_card_with_ref = Ok (stmt, log)
    /\ ((In "GIROCARD" [SEPA_UEBERWEISUNG; SEPA_LOHN_GEHALT]
         /\ trntype stmt = Some "XFER")
        \/ ("GIROCARD" = SEPA_BASISLASTSCHRIFT /\ trntype stmt = Some "DIRECTDEBIT")
        \/ (In "GIROCARD" ["GIROCARD"; "nicht GIRO"] /\ trntype stmt = Some "POS")).
Proof.
  eexists _, _.
  split; [exact (parse_record_readable _ _ _ _ _ _ _ _ _ _ readable_card_with_ref)|].
  eapply (@parse_record_type_field Sample.library row_card_with_ref text_card_with_ref).
  - vm_compute. reflexivity.
  - exact (parse_record_readable _ _ _ _ _ _ _ _ _ _ readable_card_with_ref).
  - vm_compute. reflexivity.
Defined.

Lemma parse_record_trntype_values_witness :
  exists stmt log,
    @parse_record Sample.library row_plain = Ok (stmt, log)
    /\ ((Py.truthy (fields_of "Miete Februar" !! "type") = None
         /\ trntype stmt = Some "CHECK")
        \/ (exists v t,
              Py.truthy (fields_of "Miete Februar" !! "type") = Some v
              /\ trntype stmt = Some t /\ In t ["XFER"; "DIRECTDEBIT"; "POS"])).
Proof.
  eexists _, _.
  split; [exact (parse_record_readable _ _ _ _ _ _ _ _ _ _ readable_plain)|].
  eapply (@parse_record_trntype_values Sample.library row_plain).
  - reflexivity.
  - vm_compute. reflexivity.
  - exact (parse_record_readable _ _ _ _ _ _ _ _ _ _ readable_plain).
Defined.

Lemma parse_record_label_witness :
  exists stmt log,
    @parse_record Sample.library row_sepa = Ok (stmt, log)
    /\ payee stmt = Some "Erika Mustermann "
    /\ trntype stmt = Some "XFER".
Proof.
  eexists _, _.
  split; [exact (parse_record_readable _ _ _ _ _ _ _ _ _ _ readable_sepa)|].
  eapply (@parse_record_label Sample.library row_sepa text_sepa
           "Erika Mustermann " SEPA_UEBERWEISUNG).
  - vm_compute. reflexivity.
  - exact (parse_record_readable _ _ _ _ _ _ _ _ _ _ readable_sepa).
  - now left.
  - vm_compute. reflexivity.
Defined.

(** The pieces of a reference with two markers. *)
Example raw_pieces_two_markers :
  head_piece "Erika SVWZ+ Miete EREF+ 4711" 0
    (finditer tag_re "Erika SVWZ+ Miete EREF+ 4711") = "Erika "
  /\ raw_pieces "Erika SVWZ+ Miete EREF+ 4711"
       (finditer tag_re "Erika SVWZ+ Miete EREF+ 4711")
     = [("SVWZ+", "Miete "); ("EREF+", "4711")]
  /\ parse_reference_fields "Erika SVWZ+ Miete EREF+ 4711"
     = [("default", "Erika"); ("SVWZ+", "Miete"); ("EREF+", "4711")].
Proof. repeat split; vm_compute; reflexivity. Qed.

Ltac sample_account :=
  unfold decode_bank_account, decode_bic;
  repeat match goal with
         | |- context [Py.truthy (fields_of ?t !! ?k)] =>
             let v := eval vm_compute in (Py.truthy (fields_of t !! k)) in
             replace (Py.truthy (fields_of t !! k)) with v
               by (vm_compute; reflexivity);
             cbv beta iota zeta
         | |- context [@IBAN_of_str Sample.library ?t] =>
             let v := eval vm_compute in (iban_of_str t) in
             replace (@IBAN_of_str Sample.library t) with v
               by (vm_compute; reflexivity);
             cbv beta iota zeta
         | |- context [@BIC_of_str Sample.library ?t] =>
             let v := eval vm_compute in (bic_of_str t) in
             replace (@BIC_of_str Sample.library t) with v
               by (vm_compute; reflexivity);
             cbv beta iota zeta
         | |- context [@IBAN_bic Sample.library ?t] =>
             let v := eval vm_compute in (iban_bic t) in
             replace (@IBAN_bic Sample.library t) with v
               by (vm_compute; reflexivity);
             cbv beta iota zeta
         end.

(** The bank of the [BIC+] field comes before the bank the registry has for
    the IBAN. *)
Lemma decode_bank_account_other_bank :
  (@decode_bank_account Sample.library (fields_of text_sepa_other_bank)).1
  = Some {| bank_id := "DEUTDEFF" : @BIC Sample.library;
            acct_id := "DE89370400440532013000" : @IBAN Sample.library;
            branch_id := None |}.
Proof. sample_account. reflexivity. Qed.

(** Without a [BIC+] field the bank is the one of the registry. *)
Example decode_bank_account_registry :
  (@decode_bank_account Sample.library (fields_of text_sepa_no_bank)).1
  = Some {| bank_id := "COBADEFFXXX" : @BIC Sample.library;
            acct_id := "DE89370400440532013000" : @IBAN Sample.library;
            branch_id := Some "XXX" |}.
Proof. sample_account. reflexivity. Qed.

Lemma readable_sepa_other_bank :
  @readable Sample.library row_sepa_other_bank
    "13.02.2024" "14.02.2024" text_sepa_other_bank "-500,00" "EUR"
    (berlin 13) (berlin 14) (Dec true "50000" (-2)) "XFER".
Proof. unfold readable; repeat split; vm_compute; reflexivity. Qed.

Lemma parse_record_bank_account_witness :
  exists stmt log account,
    @parse_record Sample.library row_sepa_other_bank = Ok (stmt, log)
    /\ bank_account_to stmt = Some account
    /\ bank_id account = "DEUTDEFF"
    /\ @IBAN_bic Sample.library (acct_id account) = Some "COBADEFFXXX"
    /\ exists value,
         Py.truthy (fields_of text_sepa_other_bank !! SepaField.IBAN) = Some value
         /\ @IBAN_of_str Sample.library (Py.replace1 " " "" value)
            = Some (acct_id account).
Proof.
  pose proof (parse_record_readable _ _ _ _ _ _ _ _ _ _ readable_sepa_other_bank)
    as Hp.
  eexists _, _, _. split; [exact Hp|].
  split; [exact decode_bank_account_other_bank|].
  split; [reflexivity|]. split; [vm_compute; reflexivity|].
  destruct (proj1 (@parse_record_bank_account Sample.library row_sepa_other_bank
                     text_sepa_other_bank _ _ _
                     ltac:(vm_compute; reflexivity) Hp)
                  decode_bank_account_other_bank)
    as (value & Hvalue & Hiban & _).
  exists value. split; assumption.
Defined.

End MoreExamples.

(** ** The header of a file *)

Section HeaderFacts.
Context `{Library}.

Lemma bind_Returns {A B} (m : outcome A) (f : A -> outcome B) (b : B) :
  m ≫= f = Returns b <-> exists a, m = Returns a /\ f a = Returns b.
Proof.
  destruct m as [a|e]; simpl; split.
  - eauto.
  - now intros (a' & [= ->] & Hf).
  - discriminate.
  - now intros (a' & [=] & _).
Qed.

Lemma blank_row_Returns (file file' : list (list string)) :
  blank_row file = Returns file' <-> file = [] :: file'.
Proof.
  unfold blank_row. destruct file as [|[|c row] file]; simpl; split;
    congruence.
Qed.

Lemma labelled_row_Returns (label v : string) (file file' : list (list string)) :
  labelled_row label file = Returns (v, file') <-> file = [label; v] :: file'.
Proof.
  unfold labelled_row.
  destruct file as [|[|c0 [|c1 [|c2 row]]] file]; simpl; try (split; congruence).
  destruct (String.eqb_spec c0 label) as [->|Hne]; split; congruence.
Qed.

Lemma next_filled_row_Returns (file file' : list (list string)) (row : list string) :
  next_filled_row file = Returns (row, file')
  <-> exists blanks,
        file = blanks ++ row :: file'
        /\ Forall (fun r : list string => r = []) blanks /\ row <> [].
Proof.
  split.
  - induction file as [|[|c r] file IH]; simpl; [discriminate| |].
    + intros Hf. destruct (IH Hf) as (blanks & -> & Hblanks & Hrow).
      exists ([] :: blanks). auto.
    + intros [= <- <-]. exists []. auto.
  - intros (blanks & -> & Hblanks & Hrow).
    induction Hblanks as [|r blanks -> _ IH]; simpl; [|exact IH].
    destruct row; [contradiction|reflexivity].
Qed.

Lemma next_dict_Returns (file file' : list (list string))
    (row : gmap string (option string)) :
  next_dict file = Returns (row, file')
  <-> exists fieldnames blanks values,
        file = fieldnames :: blanks ++ values :: file'
        /\ Forall (fun r : list string => r = []) blanks /\ values <> []
        /\ row = dict_row fieldnames values.
Proof.
  unfold next_dict. split.
  - destruct file as [|fieldnames file]; simpl; [discriminate|].
    destruct (next_filled_row file) as [[values rest]|] eqn:Hnext; simpl;
      [|discriminate].
    intros [= <- <-]. apply next_filled_row_Returns in Hnext.
    destruct Hnext as (blanks & -> & Hblanks & Hvalues).
    exists fieldnames, blanks, values. auto.
  - intros (fieldnames & blanks & values & -> & Hblanks & Hvalues & ->). simpl.
    rewrite (proj2 (next_filled_row_Returns _ _ _)) by eauto. reflexivity.
Qed.

Lemma header_cell_Returns (row : gmap string (option string)) (key : string)
    (d : datetime) :
  getitem_row row key ≫= header_date = Returns d
  <-> exists text d0,
        row !! key = Some (Some text) /\ strptime text "%d.%m.%Y" = Some d0
        /\ d = replace_tzinfo d0 TIMEZONE.
Proof.
  unfold getitem_row, header_date.
  destruct (row !! key) as [[text|]|]; simpl.
  - destruct (strptime text "%d.%m.%Y") as [d0|] eqn:Hd; split.
    + intros [= <-]. eauto.
    + intros (t & d1 & [= <-] & Hd1 & ->). congruence.
    + discriminate.
    + intros (t & d1 & [= <-] & Hd1 & _). congruence.
  - split; [discriminate | now intros (t & d1 & [=] & _)].
  - split; [discriminate | now intros (t & d1 & [=] & _)].
Qed.

Lemma getitem_row_Returns (row : gmap string (option string)) (key : string)
    (v : option string) :
  getitem_row row key = Returns v <-> row !! key = Some v.
Proof.
  unfold getitem_row. destruct (row !! key); split; congruence.
Qed.

(** X18. The header [parse_file_header] accepts, record by record: the
    title alone; a blank line; the account holder and the customer number,
    each behind its label; a blank line; the names of the columns; after any
    number of blank lines the record of their values, with the two dates and
    the three texts under their column names; the search options, which are
    [keine]; two blank lines.  The metadata are these cells, the account type
    is the one of the title, and the records behind the header are left in
    the file.  Nothing else is accepted. *)
Theorem parse_file_header_Returns (file rest : list (list string)) (meta : Metadata) :
  parse_file_header file = Returns (meta, rest)
  <-> exists fieldnames blanks values start_text end_text start_day end_day,
        file = [title meta] :: []
               :: ["Kontoinhaber:"; customer_name meta]
               :: ["Kundennummer:"; customer_number meta]
               :: [] :: fieldnames :: blanks ++ values
               :: [SEARCH_OPTIONS; "keine"] :: [] :: [] :: rest
        /\ Forall (fun r : list string => r = []) blanks /\ values <> []
        /\ dict_row fieldnames values !! COL_UMSAETZE_AB = Some (Some start_text)
        /\ strptime start_text "%d.%m.%Y" = Some start_day
        /\ start_date meta = replace_tzinfo start_day TIMEZONE
        /\ dict_row fieldnames values !! COL_ENDDATUM = Some (Some end_text)
        /\ strptime end_text "%d.%m.%Y" = Some end_day
        /\ end_date meta = replace_tzinfo end_day TIMEZONE
        /\ dict_row fieldnames values !! COL_KONTONUMMER = Some (account_number meta)
        /\ dict_row fieldnames values !! COL_SALDO = Some (account_balance meta)
        /\ dict_row fieldnames values !! COL_WAEHRUNG = Some (account_currency meta)
        /\ account_type meta = account_type_of (title meta).
Proof.
  unfold parse_file_header. split.
  - destruct file as [|[|t [|? ?]] file]; try discriminate.
    change (next_row ([t] :: file) ≫= ?f) with (f ([t], file)). cbv beta iota.
    intros Hp.
    apply bind_Returns in Hp as (file1 & H1 & Hp).
    apply blank_row_Returns in H1 as ->.
    apply bind_Returns in Hp as ([name file2] & H2 & Hp).
    apply labelled_row_Returns in H2 as ->.
    apply bind_Returns in Hp as ([number file3] & H3 & Hp).
    apply labelled_row_Returns in H3 as ->.
    apply bind_Returns in Hp as (file4 & H4 & Hp).
    apply blank_row_Returns in H4 as ->.
    apply bind_Returns in Hp as ([row file5] & H5 & Hp).
    apply next_dict_Returns in H5
      as (fieldnames & blanks & values & -> & Hblanks & Hvalues & ->).
    apply bind_Returns in Hp as (sd & Hsd & Hp).
    apply header_cell_Returns in Hsd as (start_text & start_day & Hs1 & Hs2 & ->).
    apply bind_Returns in Hp as (ed & Hed & Hp).
    apply header_cell_Returns in Hed as (end_text & end_day & He1 & He2 & ->).
    apply bind_Returns in Hp as (number' & Hn & Hp).
    apply getitem_row_Returns in Hn.
    apply bind_Returns in Hp as (balance & Hb & Hp).
    apply getitem_row_Returns in Hb.
    apply bind_Returns in Hp as (currency' & Hc & Hp).
    apply getitem_row_Returns in Hc.
    apply bind_Returns in Hp as ([row1 file6] & H6 & Hp).
    apply labelled_row_Returns in H6 as ->.
    destruct (String.eqb_spec row1 "keine") as [->|_]; [|discriminate].
    apply bind_Returns in Hp as (file7 & H7 & Hp).
    apply blank_row_Returns in H7 as ->.
    apply bind_Returns in Hp as (file8 & H8 & Hp).
    apply blank_row_Returns in H8 as ->.
    injection Hp as <- <-. simpl.
    exists fieldnames, blanks, values, start_text, end_text, start_day, end_day.
    repeat (split; [first [assumption | reflexivity]|]). reflexivity.
  - intros (fieldnames & blanks & values & start_text & end_text & start_day
            & end_day & -> & Hblanks & Hvalues & Hs1 & Hs2 & Hs3 & He1 & He2 & He3
            & Hn & Hb & Hc & Ht).
    change (next_row ([title meta] :: ?file) ≫= ?f) with (f ([title meta], file)).
    cbv beta iota.
    apply bind_Returns. eexists. split; [now apply blank_row_Returns|].
    apply bind_Returns. eexists (_, _). split; [now apply labelled_row_Returns|].
    apply bind_Returns. eexists (_, _). split; [now apply labelled_row_Returns|].
    apply bind_Returns. eexists. split; [now apply blank_row_Returns|].
    apply bind_Returns. eexists (_, _).
    split; [apply next_dict_Returns; eauto 8|].
    apply bind_Returns. eexists. split; [apply header_cell_Returns; eauto|].
    apply bind_Returns. eexists. split; [apply header_cell_Returns; eauto|].
    apply bind_Returns. eexists. split; [apply getitem_row_Returns, Hn|].
    apply bind_Returns. eexists. split; [apply getitem_row_Returns, Hb|].
    apply bind_Returns. eexists. split; [apply getitem_row_Returns, Hc|].
    apply bind_Returns. eexists (_, _). split; [now apply labelled_row_Returns|].
    rewrite String.eqb_refl.
    apply bind_Returns. eexists. split; [now apply blank_row_Returns|].
    apply bind_Returns. eexists. split; [now apply blank_row_Returns|].
    destruct meta; simpl in *. subst. reflexivity.
Qed.

End HeaderFacts.

(** The header of a checking account, followed by the names of the data
    columns. *)
Example parse_file_header_sample :
  @parse_file_header Sample.library
    [ ["Umsatzanzeige SpardaGiro"]; [];
      ["Kontoinhaber:"; "Erika Mustermann"];
      ["Kundennummer:"; "1234567"]; [];
      [COL_UMSAETZE_AB; COL_ENDDATUM; COL_KONTONUMMER; COL_SALDO; COL_WAEHRUNG];
      ["01.02.2024"; "29.02.2024"; "7654321"; "1.234,56"; "EUR"];
      [SEARCH_OPTIONS; "keine"]; []; [];
      [COL_BUCHUNGSTAG; COL_WERTSTELLUNGSTAG; COL_VERWENDUNGSZWECK; COL_UMSATZ;
       COL_WAEHRUNG] ]
  = Returns
      ({| title := "Umsatzanzeige SpardaGiro";
          customer_name := "Erika Mustermann";
          customer_number := "1234567";
          start_date := DateTime 2024 2 1 0 0 0 (Some TIMEZONE);
          end_date := DateTime 2024 2 29 0 0 0 (Some TIMEZONE);
          account_number := Some "7654321";
          account_balance := Some "1.234,56";
          account_currency := Some "EUR";
          account_type := CHECKING |},
       [ [COL_BUCHUNGSTAG; COL_WERTSTELLUNGSTAG; COL_VERWENDUNGSZWECK; COL_UMSATZ;
          COL_WAEHRUNG] ]).
Proof. vm_compute. reflexivity. Qed.

(** A record of values that is too short for the column of the end date:
    the cell is [None], and the date parser raises [TypeError]. *)
Example parse_file_header_short_record :
  @parse_file_header Sample.library
    [ ["Umsatzanzeige SpardaGiro"]; [];
      ["Kontoinhaber:"; "Erika Mustermann"];
      ["Kundennummer:"; "1234567"]; [];
      [COL_UMSAETZE_AB; COL_ENDDATUM; COL_KONTONUMMER; COL_SALDO; COL_WAEHRUNG];
      []; ["01.02.2024"] ]
  = Raises TypeError.
Proof. vm_compute. reflexivity. Qed.

(** ** Rows with empty cells *)

Section CellFacts.
Context `{Library}.

Lemma getitem_row_fmap (line : gmap string string) (key : string) :
  getitem_row (Some <$> line) key = lift_result (Some <$> getitem line key).
Proof.
  unfold getitem_row, getitem. rewrite lookup_fmap.
  now destruct (line !! key).
Qed.

(** On a row whose cells are all text, [parse_record_cells] is
    [parse_record]. *)
Lemma parse_record_cells_text (line : gmap string string) :
  parse_record_cells (Some <$> line)
  = match parse_record line with
    | Ok r => Returns (Some r)
    | Raise e => Raises (Exn e)
    end.
Proof.
  unfold parse_record_cells, parse_record. rewrite !getitem_row_fmap.
  unfold getitem, fields_of, record_of, fields_of.
  destruct (line !! COL_BUCHUNGSTAG) as [b|]; simpl; [|reflexivity].
  destruct (parse_datetime b) as [bd|]; simpl; [|reflexivity].
  destruct (line !! COL_WERTSTELLUNGSTAG) as [w|]; simpl; [|reflexivity].
  destruct (parse_datetime w) as [vd|]; simpl; [|reflexivity].
  destruct (line !! COL_VERWENDUNGSZWECK) as [text|]; simpl; [|reflexivity].
  destruct (line !! COL_UMSATZ) as [u|]; simpl; [|reflexivity].
  destruct (parse_decimal u) as [amt|]; simpl; [|reflexivity].
  destruct (line !! COL_WAEHRUNG) as [sym|]; simpl; [|reflexivity].
  destruct (decode_bank_account _) as [account log_iban].
  destruct (decode_card_datetime _) as [card log_datetime].
  destruct (classify_or_sign _ amt) as [trn|]; reflexivity.
Qed.

Lemma cell_datetime_Raises (cell : option string) (e : file_exn) :
  cell_datetime cell = Raises e ->
  (cell = None /\ e = TypeError)
  \/ (exists value, cell = Some value /\ strptime value date_format = None
                    /\ e = Exn ValueError).
Proof.
  unfold cell_datetime, parse_datetime. destruct cell as [value|].
  - destruct (strptime value date_format) eqn:Hd; simpl; [discriminate|].
    intros [= <-]. right. eauto.
  - intros [= <-]. now left.
Qed.

(** X13. What [parse_record] raises on a row as the reader hands it over,
    cells that are [None] included: a [KeyError] for a column the row does
    not have; a [TypeError] for a booking date, value date or purpose text
    that is [None]; an [AttributeError] for an amount that is [None]; a
    [ValueError] for a booking or value date the library does not read; an
    [InvalidOperation] for an amount the library does not read or cannot
    compare with zero.  Nothing else: neither an IBAN, a BIC or a
    card-payment time that fails to decode, nor a currency that is [None]. *)
Theorem parse_record_cells_raises (line : gmap string (option string))
    (e : file_exn) :
  parse_record_cells line = Raises e ->
  (exists k, e = Exn (KeyError k) /\ line !! k = None
             /\ In k [COL_BUCHUNGSTAG; COL_WERTSTELLUNGSTAG; COL_VERWENDUNGSZWECK;
                      COL_UMSATZ; COL_WAEHRUNG])
  \/ (exists k, e = TypeError /\ line !! k = Some None
                /\ In k [COL_BUCHUNGSTAG; COL_WERTSTELLUNGSTAG;
                         COL_VERWENDUNGSZWECK])
  \/ (e = AttributeError /\ line !! COL_UMSATZ = Some None)
  \/ (exists k v, e = Exn ValueError /\ line !! k = Some (Some v)
                  /\ strptime v date_format = None
                  /\ In k [COL_BUCHUNGSTAG; COL_WERTSTELLUNGSTAG])
  \/ (exists u, e = Exn InvalidOperation /\ line !! COL_UMSATZ = Some (Some u)
                /\ (parse_decimal u = Raise InvalidOperation
                    \/ exists amt, parse_decimal u = Ok amt
                                   /\ Decimal_gt_zero amt = None)).
Proof.
  unfold parse_record_cells, getitem_row. intros Hp.
  destruct (line !! COL_BUCHUNGSTAG) as [b|] eqn:Hb; simpl in Hp;
    [|injection Hp as <-; left; eexists; simpl; eauto].
  destruct (cell_datetime b) as [bd|e'] eqn:Hbd; simpl in Hp.
  2:{ injection Hp as <-.
      destruct (cell_datetime_Raises _ _ Hbd) as [[-> ->] | (v & -> & Hd & ->)].
      - right; left. exists COL_BUCHUNGSTAG. simpl. auto.
      - do 3 right; left. exists COL_BUCHUNGSTAG, v. simpl. auto. }
  destruct (line !! COL_WERTSTELLUNGSTAG) as [w|] eqn:Hw; simpl in Hp;
    [|injection Hp as <-; left; eexists; simpl; eauto].
  destruct (cell_datetime w) as [vd|e'] eqn:Hvd; simpl in Hp.
  2:{ injection Hp as <-.
      destruct (cell_datetime_Raises _ _ Hvd) as [[-> ->] | (v & -> & Hd & ->)].
      - right; left. exists COL_WERTSTELLUNGSTAG. simpl. auto.
      - do 3 right; left. exists COL_WERTSTELLUNGSTAG, v. simpl. auto 6. }
  destruct (line !! COL_VERWENDUNGSZWECK) as [[text|]|] eqn:Ht; simpl in Hp;
    [ | injection Hp as <-; right; left; exists COL_VERWENDUNGSZWECK; simpl; auto 6
      | injection Hp as <-; left; eexists; simpl; eauto 6 ].
  destruct (line !! COL_UMSATZ) as [[u|]|] eqn:Hu; simpl in Hp;
    [ | injection Hp as <-; do 2 right; left; auto
      | injection Hp as <-; left; eexists; simpl; eauto 7 ].
  destruct (parse_decimal u) as [amt|e'] eqn:Hamt; simpl in Hp.
  2:{ injection Hp as <-. do 4 right. exists u.
      unfold parse_decimal in Hamt |- *.
      destruct (Decimal_of_str _); [discriminate|]. injection Hamt as <-. auto. }
  destruct (line !! COL_WAEHRUNG) as [c|] eqn:Hc; simpl in Hp;
    [|injection Hp as <-; left; eexists; simpl; eauto 8].
  unfold classify_or_sign in Hp.
  destruct (classify _) as [t|]; simpl in Hp; [discriminate|].
  destruct (Decimal_gt_zero amt) as [gt|] eqn:Hgt; simpl in Hp; [discriminate|].
  injection Hp as <-. do 4 right. exists u. eauto 7.
Qed.

End CellFacts.

Section CellExamples.
Import Sample.

(** The short record ends [parse_record] at the purpose text. *)
Lemma row_short_raises :
  @parse_record_cells Sample.library row_short = Raises TypeError.
Proof.
  unfold parse_record_cells, getitem_row.
  replace (row_short !! COL_BUCHUNGSTAG) with (Some (Some "13.02.2024"))
    by (vm_compute; reflexivity).
  cbn [mbind outcome_bind].
  replace (@cell_datetime Sample.library (Some "13.02.2024"))
    with (Returns (berlin 13)) by (vm_compute; reflexivity).
  cbn [mbind outcome_bind].
  replace (row_short !! COL_WERTSTELLUNGSTAG) with (Some (Some "14.02.2024"))
    by (vm_compute; reflexivity).
  cbn [mbind outcome_bind].
  replace (@cell_datetime Sample.library (Some "14.02.2024"))
    with (Returns (berlin 14)) by (vm_compute; reflexivity).
  cbn [mbind outcome_bind].
  replace (row_short !! COL_VERWENDUNGSZWECK) with (Some (@None string))
    by (vm_compute; reflexivity).
  reflexivity.
Qed.

(** A row of text cells gives the line of [parse_record]. *)
Example parse_record_cells_plain :
  @parse_record_cells Sample.library (Some <$> row_plain)
  = Returns (Some (record_of (berlin 13) (berlin 14) "Miete Februar"
                     (Dec true "50000" (-2) : @Decimal Sample.library)
                     "EUR" "CHECK")).
Proof.
  rewrite parse_record_cells_text.
  now rewrite (parse_record_readable _ _ _ _ _ _ _ _ _ _ readable_plain).
Qed.

(** A record that ends behind the amount: the currency is [None], and
    nothing is raised. *)
Example parse_record_cells_no_currency :
  @parse_record_cells Sample.library
    (dict_row [COL_BUCHUNGSTAG; COL_WERTSTELLUNGSTAG; COL_VERWENDUNGSZWECK;
               COL_UMSATZ; COL_WAEHRUNG]
              ["13.02.2024"; "14.02.2024"; "Miete Februar"; "-500,00"])
  = Returns None.
Proof.
  unfold parse_record_cells, getitem_row.
  repeat match goal with
         | |- context [dict_row ?f ?r !! ?k] =>
             let v := eval vm_compute in (dict_row f r !! k) in
             replace (dict_row f r !! k) with v by (vm_compute; reflexivity);
             cbn [mbind outcome_bind]
         | |- context [@cell_datetime Sample.library ?c] =>
             let v := eval vm_compute in (@cell_datetime Sample.library c) in
             replace (@cell_datetime Sample.library c) with v
               by (vm_compute; reflexivity);
             cbn [mbind outcome_bind]
         end.
  cbn [cell_reference cell_decimal mbind outcome_bind].
  replace (@parse_decimal Sample.library "-500,00")
    with (@Ok (@Decimal Sample.library) (Dec true "50000" (-2)))
    by (vm_compute; reflexivity).
  cbn [lift_result mbind outcome_bind].
  replace (@classify_or_sign Sample.library (fields_of "Miete Februar")
             (Dec true "50000" (-2)))
    with (@Ok string "CHECK") by (vm_compute; reflexivity).
  reflexivity.
Qed.

Lemma parse_record_cells_raises_witness :
  exists k, row_short !! k = Some None
            /\ In k [COL_BUCHUNGSTAG; COL_WERTSTELLUNGSTAG; COL_VERWENDUNGSZWECK].
Proof.
  destruct (@parse_record_cells_raises Sample.library row_short TypeError
              row_short_raises)
    as [(k & [=] & _) | [(k & _ & Hk & Hin) | [[[=] _] | [(k & v & [=] & _)
       | (u & [=] & _)]]]].
  exists k. split; assumption.
Defined.

End CellExamples.
